(** * podman-py: image build submission and build-log interpretation

    A shallow embedding of [BuildMixin.build]
    (podman/domain/images_build.py) and the properties of its
    option marshalling, context packaging, resource release and
    build-event scan.

    Conventions.  Python [str] and [bytes] are both [string] (a list
    of 8-bit characters); Python dictionaries keyed by [str] are
    [gmap string _], except [volumes], whose iteration order decides
    which error is raised first and is therefore an association
    list.  Everything the method calls outside this file (the
    transport, the archive helpers, the filesystem, [json], the image
    lookup) is a field of the record [collaborators]; the method is a
    function of that record and of its arguments. *)

From stdpp Require Import gmap strings list fin_maps.
From Stdlib Require Import ZArith NArith Ascii String HexadecimalString Lia.

Set Warnings "-register-all".

(** ** Characters and text *)

Abbreviation bytes := string (only parsing).

(** The newline character, code 10. *)
Definition LF : ascii := "010"%char.

Definition nl : string := String LF "".

(** [[0-9a-f]]: the character class of the marker pattern. *)
Definition lower_hex (c : ascii) : bool :=
  let n := nat_of_ascii c in
  ((48 <=? n)%nat && (n <=? 57)%nat) || ((97 <=? n)%nat && (n <=? 102)%nat).

Fixpoint all_chars (p : ascii -> bool) (s : string) : bool :=
  match s with
  | EmptyString => true
  | String c s' => p c && all_chars p s'
  end.

Fixpoint starts_with (p s : string) : bool :=
  match p, s with
  | EmptyString, _ => true
  | String a p', String b s' => if decide (a = b) then starts_with p' s' else false
  | String _ _, EmptyString => false
  end.

(** [sub in s] for two Python strings. *)
Fixpoint str_contains (sub s : string) : bool :=
  starts_with sub s ||
  match s with
  | EmptyString => false
  | String _ s' => str_contains sub s'
  end.

(** [sep.join(parts)]. *)
Fixpoint str_join (sep : string) (parts : list string) : string :=
  match parts with
  | [] => ""
  | [p] => p
  | p :: rest => p +:+ sep +:+ str_join sep rest
  end.

(** ** Regular expressions, as far as [re.compile(r"(^[0-9a-f]+)\n$")] needs

    A backtracking matcher in continuation-passing style.  [Eol] is
    Python's [$] without [re.MULTILINE]: it holds at the end of the
    subject and also just before a newline that is the subject's last
    character. *)

Inductive regex :=
| Bol                                (* ^ *)
| Eol                                (* $ *)
| Lit (c : ascii)                    (* one literal character *)
| ClassPlus (cls : ascii -> bool)    (* [...]+ , greedy *)
| Cat (r1 r2 : regex)
| Group (r : regex).                 (* ( ... ), the pattern's group 1 *)

Section Matcher.
Context {R : Type}.

(** [[...]+] at [rest]: take one character of the class, then try to
    take more before trying the continuation (greedy), and fall back
    to the continuation when the longer attempt fails. *)
Fixpoint class_plus (cls : ascii -> bool) (pos : nat) (rest : string)
         (k : nat -> string -> option R) : option R :=
  match rest with
  | EmptyString => None
  | String c rest' =>
      if cls c then
        match class_plus cls (S pos) rest' k with
        | Some r => Some r
        | None => k (S pos) rest'
        end
      else None
  end.

Definition at_eol (rest : string) : bool :=
  match rest with
  | EmptyString => true
  | String c EmptyString => bool_decide (c = LF)
  | _ => false
  end.

(** [pos] is the offset of [rest] in the subject; [cap] is group 1. *)
Fixpoint rmatch (r : regex) (pos : nat) (rest : string) (cap : option string)
         (k : nat -> string -> option string -> option R) : option R :=
  match r with
  | Bol => if (pos =? 0)%nat then k pos rest cap else None
  | Eol => if at_eol rest then k pos rest cap else None
  | Lit c =>
      match rest with
      | String c' rest' => if decide (c = c') then k (S pos) rest' cap else None
      | EmptyString => None
      end
  | ClassPlus cls => class_plus cls pos rest (fun p r => k p r cap)
  | Cat r1 r2 => rmatch r1 pos rest cap (fun p r c => rmatch r2 p r c k)
  | Group r1 =>
      rmatch r1 pos rest cap
             (fun p r _ => k p r (Some (substring 0 (p - pos) rest)))
  end.
End Matcher.

(** [pattern.match(subject)]: anchored at offset 0, free at the end.
    [None] is "no match"; [Some cap] is a match object with group 1
    equal to [cap]. *)
Definition re_match (r : regex) (subject : string) : option (option string) :=
  rmatch r 0 subject None (fun _ _ cap => Some cap).

(** [marker = re.compile(r"(^[0-9a-f]+)\n$")]. *)
Definition marker : regex :=
  Cat (Group (Cat Bol (ClassPlus lower_hex))) (Cat (Lit LF) Eol).

(** [match = marker.match(text)] followed by [match.group(1)]. *)
Definition marker_match (text : string) : option string :=
  match re_match marker text with
  | Some (Some g) => Some g
  | _ => None
  end.


(** The longest prefix of [s] inside the class, and what follows it. *)
Fixpoint span (cls : ascii -> bool) (s : string) : string * string :=
  match s with
  | EmptyString => ("", "")
  | String c s' =>
      if cls c then let '(h, r) := span cls s' in (String c h, r)
      else ("", s)
  end.

Definition stops (cls : ascii -> bool) (r : string) : Prop :=
  match r with
  | EmptyString => True
  | String c _ => cls c = false
  end.

(** [marker_match] without the matcher: split off the longest run of
    digits and look at what follows. *)
Definition marker_direct (text : string) : option string :=
  let '(h, r) := span lower_hex text in
  match h, r with
  | String _ _, String c rest =>
      if decide (LF = c) then if at_eol rest then Some h else None else None
  | _, _ => None
  end.

(** ** Python values

    What [json.loads] returns and what the parameter mapping holds.
    A JSON real number keeps its literal; nothing below computes with
    it. *)

Inductive value :=
| VNone
| VBool (b : bool)
| VInt (n : Z)
| VFloat (literal : string)
| VStr (s : string)
| VBytes (b : bytes)
| VList (l : list value)
| VDict (d : gmap string value).

Definition opt_value {A} (inj : A -> value) (o : option A) : value :=
  match o with
  | Some x => inj x
  | None => VNone
  end.

(** A [dict[str, str]] as a Python value. *)
Definition str_dict (d : gmap string string) : value := VDict (VStr <$> d).

Definition str_list (l : list string) : value := VList (VStr <$> l).

(** Truth value of a dictionary: non-empty. *)
Definition dict_truthy {V} (d : gmap string V) : bool :=
  negb (bool_decide (size d = 0)).

Definition is_str (s : string) (v : value) : bool :=
  match v with
  | VStr s' => bool_decide (s = s')
  | _ => false
  end.

(** ** The forked line iterator

    [report_stream, stream = itertools.tee(response.iter_lines())].
    Inside [build] only [stream] is advanced, so the state of the pair
    is: the lines not yet pulled from the response, and the lines
    [stream] has pulled, which [report_stream] has still to yield. *)

Record tee := {
  tee_source : list bytes;
  tee_buffered : list bytes
}.

Definition itertools_tee (lines : list bytes) : tee :=
  {| tee_source := lines; tee_buffered := [] |}.

(** [next(stream)]. *)
Definition tee_next (t : tee) : option (bytes * tee) :=
  match tee_source t with
  | [] => None
  | line :: rest =>
      Some (line, {| tee_source := rest; tee_buffered := tee_buffered t ++ [line] |})
  end.

(** [list(report_stream)]: the buffered lines first, then whatever the
    response still holds. *)
Definition drain (t : tee) : list bytes := tee_buffered t ++ tee_source t.

(** ** Exceptions *)

(** Exceptions raised by the collaborators and passed through. *)
Inductive ext_exn :=
| JSONDecodeError (msg : string)
| UnicodeDecodeError
| ConnectionError (msg : string)
| APIError (status : Z)
| ImageNotFound
| OSError (msg : string).

Inductive exn :=
| TypeError (msg : string)
| ValueError (msg : string)
| PodmanError (msg : string)
| AttributeError (msg : string)
| UnboundLocalError (var : string)
| KeyError (key : string)
| OverflowError (msg : string)
| BuildError (msg : value) (build_log : tee)
| Ext (e : ext_exn).

Inductive outcome (A : Type) :=
| Return (a : A)
| Raise (e : exn).
Arguments Return {A} a.
Arguments Raise {A} e.

Definition obind {A B} (c : outcome A) (k : A -> outcome B) : outcome B :=
  match c with
  | Return a => k a
  | Raise e => Raise e
  end.

Notation "x <~ c ;; k" := (obind c (fun x => k))
  (at level 100, c at next level, right associativity).

(** ** Effects

    What [build] does to the outside world, in order.  A call is
    recorded when it is made, whether or not it then raises. *)

Inductive effect :=
| TempDirCreated (name : string)              (* tempfile.TemporaryDirectory() *)
| FileStaged (filename : string)              (* open(filename, "w") + copyfileobj *)
| ContainerfilePrepared (anchor name : string)
| ContainerignoreRead (anchor : string)
| TarCreated (anchor : string)
| Posted (params : gmap string value) (data : option bytes) (timeout : option Z)
      (* self.client.post; the timeout is a float, named by the integer it equals *)
| BodyClosed                                  (* body.close() *)
| TempDirCleaned (name : string)              (* path.cleanup() *)
| ImageLookedUp (id : string).                (* self.get(image_id) *)

(** A computation: the effects performed, then a value or an exception. *)
Definition M (A : Type) : Type := list effect * outcome A.

Definition ret {A} (a : A) : M A := ([], Return a).
Definition raise {A} (e : exn) : M A := ([], Raise e).
Definition emit (ev : effect) : M unit := ([ev], Return tt).
Definition lift {A} (c : outcome A) : M A := ([], c).

Definition bind {A B} (c : M A) (k : A -> M B) : M B :=
  match c with
  | (t1, Return a) => let '(t2, r) := k a in (t1 ++ t2, r)
  | (t1, Raise e) => (t1, Raise e)
  end.

Notation "x <- c ;; k" := (bind c (fun x => k))
  (at level 100, c at next level, right associativity).
Notation "c ;;; k" := (bind c (fun _ => k))
  (at level 100, right associativity).

Definition of_ext {A} (r : ext_exn + A) : outcome A :=
  match r with
  | inl e => Raise (Ext e)
  | inr a => Return a
  end.

Definition trace {A} (c : M A) : list effect := fst c.
Definition result {A} (c : M A) : outcome A := snd c.

Definition is_network (ev : effect) : bool :=
  match ev with
  | Posted _ _ _ | ImageLookedUp _ => true
  | _ => false
  end.

(** ** Arguments of [build] *)

(** An argument whose default is not [None]. *)
Inductive arg (A : Type) :=
| Omitted
| Passed (v : A).
Arguments Omitted {A}.
Arguments Passed {A} v.

Definition bind_default {A} (default : A) (a : arg A) : A :=
  match a with
  | Omitted => default
  | Passed v => v
  end.

(** The two kinds of file object the callers pass. *)
Inductive file_object :=
| BytesIO (buffer : bytes)
| StringIO (text : string).

(** [fileobj.getbuffer()]; only [io.BytesIO] has the method. *)
Definition getbuffer (f : file_object) : outcome bytes :=
  match f with
  | BytesIO b => Return b
  | StringIO _ => Raise (AttributeError "'_io.StringIO' object has no attribute 'getbuffer'")
  end.

(** The value under ['mode'] in a volume entry. *)
Inductive mode_value :=
| ModeStr (s : string)
| ModeList (flags : list string).

(** One value of the [volumes] dictionary: the keys ['bind'] and ['mode']. *)
Record volume_target := {
  vt_bind : option string;
  vt_mode : option mode_value
}.

Record build_args := {
  path : option string;
  fileobj : option file_object;
  tag : option string;
  quiet : option bool;
  remote : option string;
  nocache : option bool;
  rm : option bool;
  timeout : option Z;
  custom_context : option bool;
  pull : option bool;
  forcerm : option bool;
  dockerfile : arg (option string);
  buildargs : option (gmap string string);
  container_limits : option (gmap string value);
  shmsize : option Z;
  labels : option (gmap string string);
  cache_from : option (list string);
  target : option string;
  network_mode : option string;
  squash : option bool;
  extra_hosts : option (gmap string string);
  platform : option string;
  http_proxy : option bool;
  layers : arg (option bool);
  output : option string;
  outputformat : arg (option string);
  volumes : option (list (string * volume_target));
  kwargs : gmap string value
}.

(** ** Collaborators

    The functions [build] calls and this file does not define:
    [json.loads] and [json.dumps], [pathlib]'s [/], the filesystem
    calls of the loose-file branch, [podman.api]'s archive helpers,
    the transport ([self.client.post], [response.raise_for_status],
    [response.iter_lines]) and the image lookup [self.get].  Each may
    raise where the Python function may. *)

(** A response: its status, and the lines [response.iter_lines()]
    yields, taken as the finite list the daemon sends before it closes
    the body. *)
Record response := {
  status_code : Z;
  iter_lines : list bytes
}.

Record collaborators (Image : Type) := {
  (** [random.getrandbits(160)], drawn once when the class is defined *)
  getrandbits160 : N;
  json_loads : bytes -> ext_exn + value;
  json_dumps : value -> string;
  (** [dir / name] for two path texts *)
  joinpath : string -> string -> string;
  (** the name of the directory [tempfile.TemporaryDirectory()] makes *)
  temporary_directory : string;
  (** [with open(filename, "w", encoding='utf-8') as file:
         shutil.copyfileobj(fileobj, file)] *)
  copy_to_file : file_object -> string -> option ext_exn;
  (** [api.create_tar(anchor=, exclude=, gzip=)] *)
  create_tar : string -> option (list string) -> value -> ext_exn + bytes;
  (** [api.prepare_containerfile(anchor, dockerfile)] *)
  prepare_containerfile : string -> string -> ext_exn + string;
  (** [api.prepare_containerignore(anchor)] *)
  prepare_containerignore : string -> ext_exn + list string;
  (** [self.client.post("/build", params=, data=, headers=, stream=True, timeout=)] *)
  client_post : gmap string value -> option bytes -> option Z -> ext_exn + response;
  (** [response.raise_for_status(not_found=ImageNotFound)] *)
  raise_for_status : response -> option ext_exn;
  (** [self.get(image_id)] *)
  get : string -> ext_exn + Image
}.
Arguments getrandbits160 {Image} _.
Arguments json_loads {Image} _ _.
Arguments json_dumps {Image} _ _.
Arguments joinpath {Image} _ _ _.
Arguments temporary_directory {Image} _.
Arguments copy_to_file {Image} _ _ _.
Arguments create_tar {Image} _ _ _ _.
Arguments prepare_containerfile {Image} _ _ _.
Arguments prepare_containerignore {Image} _ _.
Arguments client_post {Image} _ _ _ _.
Arguments raise_for_status {Image} _ _.
Arguments get {Image} _ _.

(** [float(n)] for a Python [int]: the nearest double, ties to the even
    significand, and [OverflowError] when that is beyond the largest
    double.  The double of an integer is an integer; it is given as
    that integer.  [double_of_magnitude] rounds a magnitude to 53
    significant bits. *)
Definition double_of_magnitude (m : Z) : Z :=
  let bits := (Z.log2 m + 1)%Z in
  if (bits <=? 53)%Z then m
  else
    let shift := (bits - 53)%Z in
    let q := Z.shiftr m shift in
    let r := (m - Z.shiftl q shift)%Z in
    let half := Z.shiftl 1 (shift - 1) in
    let q' := if (half <? r)%Z || ((r =? half)%Z && Z.odd q) then (q + 1)%Z else q in
    Z.shiftl q' shift.

Definition float_of_int (n : Z) : outcome Z :=
  let r := double_of_magnitude (Z.abs n) in
  if (Z.shiftl 1 1024 <=? r)%Z
  then Raise (OverflowError "int too large to convert to float")
  else Return (Z.sgn n * r)%Z.

(** [f"{n:x}"]. *)
Definition format_hex (n : N) : string :=
  HexadecimalString.NilZero.string_of_uint (N.to_hex_uint n).

(** The variable [path]: a directory, or, in the loose-file branch, the
    [TemporaryDirectory] object that replaces it. *)
Inductive path_var :=
| NoPath
| DirPath (p : string)
| TempDir (name : string).

(** The variable [body]: not assigned by any branch, or assigned. *)
Inductive body_var :=
| Unbound
| Bound (data : option bytes).

(** The loop variables of the scan. *)
Record scan_vars := {
  image_id : option string;
  unknown : option bytes
}.

(** [key in v]. *)
Definition py_in (key : string) (v : value) : outcome bool :=
  match v with
  | VDict d => Return (bool_decide (is_Some (d !! key)))
  | VList l => Return (existsb (is_str key) l)
  | VStr s => Return (str_contains key s)
  | VBytes _ => Raise (TypeError "a bytes-like object is required, not 'str'")
  | VNone | VBool _ | VInt _ | VFloat _ =>
      Raise (TypeError "argument is not iterable")
  end.

(** [v[key]], used only after [key in v] held. *)
Definition py_getitem (v : value) (key : string) : outcome value :=
  match v with
  | VDict d =>
      match d !! key with
      | Some x => Return x
      | None => Raise (KeyError key)
      end
  | VList _ => Raise (TypeError "list indices must be integers or slices, not str")
  | VStr _ => Raise (TypeError "string indices must be integers, not 'str'")
  | _ => Raise (TypeError "object is not subscriptable")
  end.

(** [marker.match(v)]: a pattern compiled from a [str] accepts a [str]. *)
Definition marker_match_value (v : value) : outcome (option string) :=
  match v with
  | VStr text => Return (marker_match text)
  | VBytes _ => Raise (TypeError "cannot use a string pattern on a bytes-like object")
  | _ => Raise (TypeError "expected string or bytes-like object")
  end.

(** Line 196: [f"{hostdir}:{target['bind']}:{mode_str}"]. *)
Definition entry_text (hostdir bind_ mode_str : string) : string :=
  hostdir +:+ ":" +:+ bind_ +:+ ":" +:+ mode_str.

(** [volumes.items()] loop, lines 188-196: [acc] is [params["volume"]]. *)
Fixpoint volume_loop (items : list (string * volume_target)) (acc : list string)
  : outcome (list string) :=
  match items with
  | [] => Return acc
  | (hostdir, tgt) :: rest =>
      let mode := default (ModeList []) (vt_mode tgt) in
      let binddir := vt_bind tgt in
      match binddir with
      | None => Raise (ValueError ("volume " +:+ hostdir +:+ " 'bind' value not defined"))
      | Some bind_ =>
          match mode with
          | ModeStr _ =>
              Raise (ValueError ("volume " +:+ hostdir +:+ " 'mode' value should be a list"))
          | ModeList flags =>
              let mode_str := str_join "," flags in
              volume_loop rest (acc ++ [entry_text hostdir bind_ mode_str])
          end
      end
  end.

(** ** [BuildMixin.build] *)

Section Build.
Context {Image : Type} (W : collaborators Image).

(** Line 39: the default of [dockerfile], evaluated once. *)
Definition default_dockerfile : string :=
  ".containerfile." +:+ format_hex (getrandbits160 W).

(** Line 53. *)
Definition default_outputformat : string :=
  "application/vnd.oci.image.manifest.v1+json".

Definition dockerfile_of (a : build_args) : option string :=
  bind_default (Some default_dockerfile) (dockerfile a).

(** Lines 148-166: the dictionary literal, entry by entry. *)
Definition scalar_options (a : build_args) : list (string * value) :=
  [ ("dockerfile", opt_value VStr (dockerfile_of a));
    ("forcerm", opt_value VBool (forcerm a));
    ("httpproxy", opt_value VBool (http_proxy a));
    ("networkmode", opt_value VStr (network_mode a));
    ("nocache", opt_value VBool (nocache a));
    ("platform", opt_value VStr (platform a));
    ("pull", opt_value VBool (pull a));
    ("q", opt_value VBool (quiet a));
    ("remote", opt_value VStr (remote a));
    ("rm", opt_value VBool (rm a));
    ("shmsize", opt_value VInt (shmsize a));
    ("squash", opt_value VBool (squash a));
    ("t", opt_value VStr (tag a));
    ("target", opt_value VStr (target a));
    ("layers", opt_value VBool (bind_default (Some true) (layers a)));
    ("output", opt_value VStr (output a));
    ("outputformat",
      opt_value VStr (bind_default (Some default_outputformat) (outputformat a))) ].

Definition initial_params (a : build_args) : gmap string value :=
  list_to_map (scalar_options a).

(** [if d: params[key] = json.dumps(d)] for a dictionary argument. *)
Definition dump_dict (key : string) (o : option (gmap string string))
           (params : gmap string value) : gmap string value :=
  match o with
  | Some d =>
      if dict_truthy d then <[key := VStr (json_dumps W (str_dict d))]> params
      else params
  | None => params
  end.

(** The same for the list [cache_from]. *)
Definition dump_list (key : string) (o : option (list string))
           (params : gmap string value) : gmap string value :=
  match o with
  | Some (x :: l) => <[key := VStr (json_dumps W (str_list (x :: l)))]> params
  | _ => params
  end.

(** [container_limits.get(key)]. *)
Definition limit_get (limits : gmap string value) (key : string) : value :=
  default VNone (limits !! key).

(** Lines 173-179. *)
Definition limit_params (o : option (gmap string value))
           (params : gmap string value) : gmap string value :=
  match o with
  | Some limits =>
      if dict_truthy limits then
        let params := <["cpuperiod" := limit_get limits "cpuperiod"]> params in
        let params := <["cpuquota" := limit_get limits "cpuquota"]> params in
        let params := <["cpusetcpus" := limit_get limits "cpusetcpus"]> params in
        let params := <["cpushares" := limit_get limits "cpushares"]> params in
        let params := <["memory" := limit_get limits "memory"]> params in
        <["memswap" := limit_get limits "memswap"]> params
      else params
  | None => params
  end.

(** Lines 186-196. *)
Definition volume_params (o : option (list (string * volume_target)))
           (params : gmap string value) : outcome (gmap string value) :=
  match o with
  | Some (item :: items) =>
      entries <~ volume_loop (item :: items) [] ;;
      Return (<["volume" := str_list entries]> params)
  | _ => Return params
  end.

(** Lines 148-196: the parameter mapping before the context is packaged. *)
Definition marshal (a : build_args) : outcome (gmap string value) :=
  let params := initial_params a in
  let params := dump_dict "buildargs" (buildargs a) params in
  let params := dump_list "cachefrom" (cache_from a) params in
  let params := limit_params (container_limits a) params in
  let params := dump_dict "extrahosts" (extra_hosts a) params in
  let params := dump_dict "labels" (labels a) params in
  volume_params (volumes a) params.

(** [dir / dockerfile]; [None] on the right is a [TypeError]. *)
Definition truediv (dir : string) (name : option string) : outcome string :=
  match name with
  | Some n => Return (joinpath W dir n)
  | None => Raise (TypeError "unsupported operand type(s) for /: 'PosixPath' and 'NoneType'")
  end.

(** [kwargs.get("gzip", False)]. *)
Definition gzip_of (a : build_args) : value :=
  default (VBool false) (kwargs a !! "gzip").

(** Lines 198-227: the [if]/[elif] chain that assigns [body] (and, in
    two branches, [path] or [params["dockerfile"]]).  File objects and
    [pathlib.Path] objects are always true; a [str] is true when it is
    not empty. *)
Definition package_context (a : build_args) (params : gmap string value)
  : M (path_var * body_var * gmap string value) :=
  let path0 := match path a with Some p => DirPath p | None => NoPath end in
  if bool_decide (custom_context a = Some true) then
    match fileobj a with
    | None =>
        raise (PodmanError "Custom context requires fileobj to be set to a binary file-like object containing a build-directory tarball.")
    | Some f =>
        match dockerfile_of a with
        | None =>
            raise (PodmanError "Custom context requires specifying the name of the Dockerfile (typically 'Dockerfile' or 'Containerfile').")
        | Some _ =>
            buffer <- lift (getbuffer f) ;;
            ret (path0, Bound (Some buffer), params)
        end
    end
  else
    match fileobj a with
    | Some f =>
        let tmp := temporary_directory W in
        emit (TempDirCreated tmp) ;;;
        filename <- lift (truediv tmp (dockerfile_of a)) ;;
        emit (FileStaged filename) ;;;
        match copy_to_file W f filename with
        | Some e => raise (Ext e)
        | None =>
            emit (TarCreated tmp) ;;;
            body <- lift (of_ext (create_tar W tmp None (gzip_of a))) ;;
            ret (TempDir tmp, Bound (Some body), params)
        end
    | None =>
        match path a with
        | Some p =>
            filename <- lift (truediv p (dockerfile_of a)) ;;
            emit (ContainerfilePrepared p filename) ;;;
            name <- lift (of_ext (prepare_containerfile W p filename)) ;;
            let params := <["dockerfile" := VStr name]> params in
            emit (ContainerignoreRead p) ;;;
            excludes <- lift (of_ext (prepare_containerignore W p)) ;;
            emit (TarCreated p) ;;;
            body <- lift (of_ext (create_tar W p (Some excludes) (gzip_of a))) ;;
            ret (DirPath p, Bound (Some body), params)
        | None =>
            match remote a with
            | Some (String _ _) => ret (NoPath, Bound None, params)
            | _ => ret (NoPath, Unbound, params)
            end
        end
    end.

(** Lines 229-231: [post_kwargs], as the value under ["timeout"] if the
    key is set.  [float(timeout)] may raise. *)
Definition post_kwargs (a : build_args) : outcome (option Z) :=
  match timeout a with
  | Some t =>
      if bool_decide (t = 0%Z) then Return None
      else seconds <~ float_of_int t ;; Return (Some seconds)
  | None => Return None
  end.

(** The timeout the request is made with, once lines 229-231 are past. *)
Definition post_timeout (a : build_args) : option Z :=
  match post_kwargs a with
  | Return t => t
  | Raise _ => None
  end.

(** Lines 256-263: the body of the loop, run on one [line] with
    [report_stream] in the state it has once [line] was pulled. *)
Definition loop_body (report_stream : tee) (line : bytes) (vars : scan_vars)
  : outcome scan_vars :=
  result <~ of_ext (json_loads W line) ;;
  has_error <~ py_in "error" result ;;
  if has_error : bool then
    msg <~ py_getitem result "error" ;;
    Raise (BuildError msg report_stream)
  else
    has_stream <~ py_in "stream" result ;;
    if has_stream : bool then
      text <~ py_getitem result "stream" ;;
      found <~ marker_match_value text ;;
      match found with
      | Some id => Return {| image_id := Some id; unknown := Some line |}
      | None => Return {| image_id := image_id vars; unknown := Some line |}
      end
    else Return {| image_id := image_id vars; unknown := Some line |}.

(** Lines 255-263: [for line in stream], by recursion on the lines the
    response still holds; [buffered] are the lines pulled so far. *)
Fixpoint for_line_in_stream (source buffered : list bytes) (vars : scan_vars)
  : outcome (scan_vars * tee) :=
  match source with
  | [] => Return (vars, {| tee_source := []; tee_buffered := buffered |})
  | line :: rest =>
      let report_stream := {| tee_source := rest; tee_buffered := buffered ++ [line] |} in
      vars' <~ loop_body report_stream line vars ;;
      for_line_in_stream rest (buffered ++ [line]) vars'
  end.

(** Lines 252-263 on the two views of [lines]. *)
Definition scan (lines : list bytes) : outcome (scan_vars * tee) :=
  let t := itertools_tee lines in
  for_line_in_stream (tee_source t) (tee_buffered t)
                     {| image_id := None; unknown := None |}.

(** Line 268: [unknown or "Unknown"]. *)
Definition fallback_message (unknown_ : option bytes) : value :=
  match unknown_ with
  | Some (String c s) => VBytes (String c s)
  | _ => VStr "Unknown"
  end.

(** Lines 252-268. *)
Definition interpret (lines : list bytes) : M (Image * tee) :=
  scanned <- lift (scan lines) ;;
  let '(vars, report_stream) := scanned in
  match image_id vars with
  | Some (String c s) =>
      emit (ImageLookedUp (String c s)) ;;;
      image <- lift (of_ext (get W (String c s))) ;;
      ret (image, report_stream)
  | _ => raise (BuildError (fallback_message (unknown vars)) report_stream)
  end.

(** Lines 233-250: the request, the release of [body] and of the
    temporary directory, the status check. *)
Definition submit (params : gmap string value) (body : body_var) (pathv : path_var)
           (timeout_ : option Z) : M response :=
  data <- match body with
          | Unbound => raise (UnboundLocalError "body")
          | Bound d => ret d
          end ;;
  emit (Posted params data timeout_) ;;;
  rsp <- lift (of_ext (client_post W params data timeout_)) ;;
  match data with Some _ => emit BodyClosed | None => ret tt end ;;;
  match pathv with TempDir name => emit (TempDirCleaned name) | _ => ret tt end ;;;
  match raise_for_status W rsp with
  | Some e => raise (Ext e)
  | None => ret rsp
  end.

(** Lines 142-231: everything before the request. *)
Definition prepare (a : build_args)
  : M (path_var * body_var * gmap string value) :=
  if bool_decide (path a = None) && bool_decide (fileobj a = None)
     && bool_decide (remote a = None)
  then raise (TypeError "Either path, fileobj or remote must be provided.")
  else if bool_decide (is_Some (kwargs a !! "gzip"))
          && bool_decide (is_Some (kwargs a !! "encoding"))
  then raise (PodmanError "Custom encoding not supported when gzip enabled.")
  else
    params <- lift (marshal a) ;;
    packaged <- package_context a params ;;
    lift (post_kwargs a) ;;;
    ret packaged.

Definition build (a : build_args) : M (Image * tee) :=
  prepared <- prepare a ;;
  let '(pathv, body, params) := prepared in
  rsp <- submit params body pathv (post_timeout a) ;;
  interpret (iter_lines rsp).

(** ** Vocabulary of the statements *)

(** A line of the wire format that is neither an error nor malformed:
    a JSON object without [error] whose [stream], if any, is text. *)
Definition plain_event (line : bytes) : Prop :=
  exists d, json_loads W line = inr (VDict d) /\ d !! "error" = None /\
            (d !! "stream" = None \/ exists text, d !! "stream" = Some (VStr text)).

(** A line that decodes to an object whose [error] field is [msg]. *)
Definition error_event (line : bytes) (msg : value) : Prop :=
  exists d, json_loads W line = inr (VDict d) /\ d !! "error" = Some msg.

(** The text under [stream] of a line that has one. *)
Definition stream_text (line : bytes) : option string :=
  match json_loads W line with
  | inr (VDict d) =>
      match d !! "stream" with
      | Some (VStr text) => Some text
      | _ => None
      end
  | _ => None
  end.

(** "Exactly a sequence of lower-case hexadecimal digits followed by a
    single trailing newline." *)
Definition hex_line (text : string) : Prop :=
  exists id, id <> "" /\ all_chars lower_hex id = true /\ text = id +:+ nl.

(** The identifier a line announces, if its [stream] text is a marker. *)
Definition announces (line : bytes) : option string :=
  match stream_text line with
  | Some text => marker_match text
  | None => None
  end.

(** The loop body leaves the line behind without raising. *)
Definition scans_past (line : bytes) : Prop :=
  forall t vars, exists vars', loop_body t line vars = Return vars'.

(** The image identifier after a run of plain events: the one announced
    last, or the one held before. *)
Fixpoint last_announced (lines : list bytes) (held : option string) : option string :=
  match lines with
  | [] => held
  | line :: rest =>
      last_announced rest (match announces line with
                           | Some id => Some id
                           | None => held
                           end)
  end.

(** The keys [build] adds to the mapping only under a condition. *)
Definition limit_keys : list string :=
  ["cpuperiod"; "cpuquota"; "cpusetcpus"; "cpushares"; "memory"; "memswap"].

Definition conditional_keys : list string :=
  ["buildargs"; "cachefrom"] ++ limit_keys ++ ["extrahosts"; "labels"; "volume"].

(** A dictionary argument that is given and not empty. *)
Definition dict_given {V} (o : option (gmap string V)) : bool :=
  match o with
  | Some d => dict_truthy d
  | None => false
  end.

Definition list_given {A} (o : option (list A)) : bool :=
  match o with
  | Some (_ :: _) => true
  | _ => false
  end.

(** A volume entry without ['bind'], or whose ['mode'] is one string. *)
Definition lacks_bind (entry : string * volume_target) : bool :=
  match vt_bind entry.2 with
  | None => true
  | Some _ => false
  end.

Definition scalar_mode (entry : string * volume_target) : bool :=
  match vt_mode entry.2 with
  | Some (ModeStr _) => true
  | _ => false
  end.

Definition malformed_entry (entry : string * volume_target) : bool :=
  lacks_bind entry || scalar_mode entry.

(** [hostPath:bindPath:modeFlagsJoinedByComma] for an entry that has a
    bind path and a list of flags, or no ['mode'] at all. *)
Definition flatten_entry (entry : string * volume_target) : option string :=
  match vt_bind entry.2, vt_mode entry.2 with
  | Some bind_, None => Some (entry.1 +:+ ":" +:+ bind_ +:+ ":")
  | Some bind_, Some (ModeList flags) =>
      Some (entry.1 +:+ ":" +:+ bind_ +:+ ":" +:+ str_join "," flags)
  | _, _ => None
  end.

(** The two checks at the head of [build] let the call through. *)
Definition passes_first_checks (a : build_args) : Prop :=
  ~ (path a = None /\ fileobj a = None /\ remote a = None) /\
  ~ (is_Some (kwargs a !! "gzip") /\ is_Some (kwargs a !! "encoding")).

(** The request of [a] went through: it was prepared with the effects
    [before], sent, and answered by a response that passes the status
    check and carries [lines]. *)
Definition answered (a : build_args) (before : list effect) (lines : list bytes) : Prop :=
  exists pathv data params rsp,
    prepare a = (before, Return (pathv, Bound data, params)) /\
    client_post W params data (post_timeout a) = inr rsp /\
    raise_for_status W rsp = None /\
    iter_lines rsp = lines.

End Build.

(** The identifiers handed to [self.get], in order. *)
Definition lookups (tr : list effect) : list string :=
  omap (fun ev => match ev with ImageLookedUp id => Some id | _ => None end) tr.

(** The parameter mappings handed to [self.client.post], in order. *)
Definition posted (tr : list effect) : list (gmap string value) :=
  omap (fun ev => match ev with Posted params _ _ => Some params | _ => None end) tr.

(** What lines 244-248 do for a body and a [path] variable. *)
Definition released (data : option bytes) (pathv : path_var) : list effect :=
  match data with Some _ => [BodyClosed] | None => [] end ++
  match pathv with TempDir name => [TempDirCleaned name] | _ => [] end.

(** The releases among the effects: [body.close()] and [path.cleanup()]. *)
Definition is_release (ev : effect) : bool :=
  match ev with
  | BodyClosed | TempDirCleaned _ => true
  | _ => false
  end.

Definition releases (tr : list effect) : list effect := filter (fun ev => is_release ev = true) tr.

(** The temporary directories made. *)
Definition tempdirs (tr : list effect) : list string :=
  omap (fun ev => match ev with TempDirCreated name => Some name | _ => None end) tr.

(** No network call among the effects. *)
Definition offline (tr : list effect) : bool :=
  forallb (fun ev => negb (is_network ev)) tr.

Definition is_build_error (e : exn) : bool :=
  match e with
  | BuildError _ _ => true
  | _ => false
  end.

(** The errors of caller input: raised by [build] itself, before the
    request. *)
Definition is_caller_error (e : exn) : bool :=
  match e with
  | TypeError _ | ValueError _ | PodmanError _ => true
  | _ => false
  end.

(** The call [a] with its directory path, or its remote URI, left out. *)
Definition without_path (a : build_args) : build_args :=
  {| path := None; fileobj := fileobj a; tag := tag a; quiet := quiet a;
     remote := remote a; nocache := nocache a; rm := rm a; timeout := timeout a;
     custom_context := custom_context a; pull := pull a; forcerm := forcerm a;
     dockerfile := dockerfile a; buildargs := buildargs a;
     container_limits := container_limits a; shmsize := shmsize a;
     labels := labels a; cache_from := cache_from a; target := target a;
     network_mode := network_mode a; squash := squash a;
     extra_hosts := extra_hosts a; platform := platform a;
     http_proxy := http_proxy a; layers := layers a; output := output a;
     outputformat := outputformat a; volumes := volumes a; kwargs := kwargs a |}.

Definition without_remote (a : build_args) : build_args :=
  {| path := path a; fileobj := fileobj a; tag := tag a; quiet := quiet a;
     remote := None; nocache := nocache a; rm := rm a; timeout := timeout a;
     custom_context := custom_context a; pull := pull a; forcerm := forcerm a;
     dockerfile := dockerfile a; buildargs := buildargs a;
     container_limits := container_limits a; shmsize := shmsize a;
     labels := labels a; cache_from := cache_from a; target := target a;
     network_mode := network_mode a; squash := squash a;
     extra_hosts := extra_hosts a; platform := platform a;
     http_proxy := http_proxy a; layers := layers a; output := output a;
     outputformat := outputformat a; volumes := volumes a; kwargs := kwargs a |}.

(** What a preparation did and built, the parameter mapping left aside:
    its effects, and the [path] and [body] variables or the exception. *)
Definition context_of (c : M (path_var * body_var * gmap string value))
  : list effect * outcome (path_var * body_var) :=
  (trace c,
   match result c with
   | Return (pathv, body, _) => Return (pathv, body)
   | Raise e => Raise e
   end).

(** ** Sample collaborators

    Stand-ins on which the statements are run.  The decoder is a table:
    it answers as [json.loads] does on the lines listed and rejects
    every other line. *)

(** The double-quote character, code 34. *)
Definition dq : string := String "034"%char "".

(** The line [{"key":"text"}], with [text] as it is escaped on the wire. *)
Definition wire_object (key text : string) : bytes :=
  "{" +:+ dq +:+ key +:+ dq +:+ ":" +:+ dq +:+ text +:+ dq +:+ "}".

Fixpoint table_loads (table : list (bytes * value)) (line : bytes) : ext_exn + value :=
  match table with
  | [] => inl (JSONDecodeError "Expecting value")
  | (l, v) :: rest => if decide (l = line) then inr v else table_loads rest line
  end.

Definition sample_status (rsp : response) : option ext_exn :=
  if bool_decide (status_code rsp = 404%Z) then Some ImageNotFound
  else if bool_decide (400 <= status_code rsp)%Z then Some (APIError (status_code rsp))
  else None.

(** Images are named by their identifier; every filesystem and archive
    call succeeds; the request returns [post] whatever it is given.  No
    sample passes a structured option, so the encoder is a constant. *)
Definition sample_world (table : list (bytes * value)) (post : ext_exn + response)
  : collaborators string :=
  {| getrandbits160 := 48879%N;
     json_loads := table_loads table;
     json_dumps := fun _ => "{}";
     joinpath := fun dir name => dir +:+ "/" +:+ name;
     temporary_directory := "/tmp/tmpq1";
     copy_to_file := fun _ _ => None;
     create_tar := fun anchor _ _ => inr ("tar of " +:+ anchor);
     prepare_containerfile := fun _ name => inr name;
     prepare_containerignore := fun _ => inr [];
     client_post := fun _ _ _ => post;
     raise_for_status := sample_status;
     get := fun id => inr id |}.

(** A response with status 200 and the given body lines. *)
Definition ok_lines (lines : list bytes) : ext_exn + response :=
  inr {| status_code := 200; iter_lines := lines |}.

(** A call of [build] with every argument left out except those listed. *)
Definition call (path_ : option string) (fileobj_ : option file_object)
           (remote_ : option string) (custom_context_ : option bool)
           (dockerfile_ : arg (option string))
           (container_limits_ : option (gmap string value))
           (volumes_ : option (list (string * volume_target))) : build_args :=
  {| path := path_; fileobj := fileobj_; tag := None; quiet := None;
     remote := remote_; nocache := None; rm := None; timeout := None;
     custom_context := custom_context_; pull := None; forcerm := None;
     dockerfile := dockerfile_; buildargs := None;
     container_limits := container_limits_; shmsize := None; labels := None;
     cache_from := None; target := None; network_mode := None; squash := None;
     extra_hosts := None; platform := None; http_proxy := None;
     layers := Omitted; output := None; outputformat := Omitted;
     volumes := volumes_; kwargs := ∅ |}.

(** [build(remote="https://example.org/context.tar")]. *)
Definition remote_call : build_args :=
  call None None (Some "https://example.org/context.tar") None Omitted None None.


(** [build(remote="https://example.org/context.tar",
          container_limits={"memory": 1024})]. *)
Definition limits_call : build_args :=
  call None None (Some "https://example.org/context.tar") None Omitted
       (Some {[ "memory" := VInt 1024 ]}) None.

(** The lines of the samples, and the table that decodes them. *)
Definition line_step : bytes := wire_object "stream" "step 1\n".
Definition line_id : bytes := wire_object "stream" "deadbeef12\n".
Definition line_id2 : bytes := wire_object "stream" "abc\n\n".
Definition line_error : bytes := wire_object "error" "no such file".
Definition line_broken : bytes := "{" +:+ dq +:+ "stream".

Definition sample_table : list (bytes * value) :=
  [ (line_step, VDict {[ "stream" := VStr ("step 1" +:+ nl) ]});
    (line_id, VDict {[ "stream" := VStr ("deadbeef12" +:+ nl) ]});
    (line_id2, VDict {[ "stream" := VStr ("abc" +:+ nl +:+ nl) ]});
    (line_error, VDict {[ "error" := VStr "no such file" ]}) ].

(** The daemon answers 200 with the given lines. *)
Definition daemon (lines : list bytes) : collaborators string :=
  sample_world sample_table (ok_lines lines).

(** ** Further vocabulary and samples *)

(** Every entry of [volumes], if there are any, has a bind path and a
    ['mode'] that is not one string: the loop of lines 188-196 runs
    through. *)
Definition volumes_wellformed (a : build_args) : Prop :=
  match volumes a with
  | Some vs => Forall (fun entry => malformed_entry entry = false) vs
  | None => True
  end.

(** Line 231 does not raise: the timeout, if any, has a double. *)
Definition timeout_converts (a : build_args) : Prop :=
  exists t, post_kwargs a = Return t.

(** The [timeout=] arguments and the [data=] arguments handed to
    [self.client.post], in order. *)
Definition timeouts (tr : list effect) : list (option Z) :=
  omap (fun ev => match ev with Posted _ _ t => Some t | _ => None end) tr.

Definition bodies (tr : list effect) : list (option bytes) :=
  omap (fun ev => match ev with Posted _ data _ => Some data | _ => None end) tr.

(** The branch of lines 212-218: a file object, no custom context. *)
Definition loose_file_mode (a : build_args) : Prop :=
  custom_context a <> Some true /\ is_Some (fileobj a).

(** The branch of lines 219-225: a directory path, nothing above it. *)
Definition directory_mode (a : build_args) : Prop :=
  custom_context a <> Some true /\ fileobj a = None /\ is_Some (path a).

(** A decoded line on which the loop body raises [TypeError]: a JSON
    scalar, on which ["error" in result] is not defined, or an object
    without [error] whose [stream] is not text, which [marker.match]
    refuses. *)
Definition ill_typed (v : value) : bool :=
  match v with
  | VNone | VBool _ | VInt _ | VFloat _ => true
  | VDict d =>
      match d !! "error", d !! "stream" with
      | None, Some (VStr _) => false
      | None, Some _ => true
      | _, _ => false
      end
  | _ => false
  end.

Definition is_type_error (e : exn) : bool :=
  match e with
  | TypeError _ => true
  | _ => false
  end.

(** The call [a] with other keyword arguments, another timeout, or
    other build arguments. *)
Definition with_kwargs (a : build_args) (kwargs_ : gmap string value) : build_args :=
  {| path := path a; fileobj := fileobj a; tag := tag a; quiet := quiet a;
     remote := remote a; nocache := nocache a; rm := rm a; timeout := timeout a;
     custom_context := custom_context a; pull := pull a; forcerm := forcerm a;
     dockerfile := dockerfile a; buildargs := buildargs a;
     container_limits := container_limits a; shmsize := shmsize a;
     labels := labels a; cache_from := cache_from a; target := target a;
     network_mode := network_mode a; squash := squash a;
     extra_hosts := extra_hosts a; platform := platform a;
     http_proxy := http_proxy a; layers := layers a; output := output a;
     outputformat := outputformat a; volumes := volumes a; kwargs := kwargs_ |}.

Definition with_timeout (a : build_args) (timeout_ : option Z) : build_args :=
  {| path := path a; fileobj := fileobj a; tag := tag a; quiet := quiet a;
     remote := remote a; nocache := nocache a; rm := rm a; timeout := timeout_;
     custom_context := custom_context a; pull := pull a; forcerm := forcerm a;
     dockerfile := dockerfile a; buildargs := buildargs a;
     container_limits := container_limits a; shmsize := shmsize a;
     labels := labels a; cache_from := cache_from a; target := target a;
     network_mode := network_mode a; squash := squash a;
     extra_hosts := extra_hosts a; platform := platform a;
     http_proxy := http_proxy a; layers := layers a; output := output a;
     outputformat := outputformat a; volumes := volumes a; kwargs := kwargs a |}.

Definition with_buildargs (a : build_args) (buildargs_ : option (gmap string string))
  : build_args :=
  {| path := path a; fileobj := fileobj a; tag := tag a; quiet := quiet a;
     remote := remote a; nocache := nocache a; rm := rm a; timeout := timeout a;
     custom_context := custom_context a; pull := pull a; forcerm := forcerm a;
     dockerfile := dockerfile a; buildargs := buildargs_;
     container_limits := container_limits a; shmsize := shmsize a;
     labels := labels a; cache_from := cache_from a; target := target a;
     network_mode := network_mode a; squash := squash a;
     extra_hosts := extra_hosts a; platform := platform a;
     http_proxy := http_proxy a; layers := layers a; output := output a;
     outputformat := outputformat a; volumes := volumes a; kwargs := kwargs a |}.

(** Three more sample lines: a bare number, an object whose [stream]
    is a number, and an empty array. *)
Definition line_number : bytes := "5".
Definition line_numeric_stream : bytes :=
  "{" +:+ dq +:+ "stream" +:+ dq +:+ ":5}".

Definition line_list : bytes := "[]".

Definition typed_table : list (bytes * value) :=
  sample_table ++
  [ (line_number, VInt 5);
    (line_numeric_stream, VDict {[ "stream" := VInt 5 ]});
    (line_list, VList []) ].

(** [json.dumps] on the one structured value the samples pass, the
    dictionary of one text entry: [{"key": "text"}]. *)
Definition dumps_singleton (v : value) : string :=
  match v with
  | VDict d =>
      match map_to_list d with
      | [(k, VStr s)] => "{" +:+ dq +:+ k +:+ dq +:+ ": " +:+ dq +:+ s +:+ dq +:+ "}"
      | _ => "{}"
      end
  | _ => "{}"
  end.

(** The sample daemon with the larger table and that encoder. *)
Definition typed_daemon (lines : list bytes) : collaborators string :=
  {| getrandbits160 := 48879%N;
     json_loads := table_loads typed_table;
     json_dumps := dumps_singleton;
     joinpath := fun dir name => dir +:+ "/" +:+ name;
     temporary_directory := "/tmp/tmpq1";
     copy_to_file := fun _ _ => None;
     create_tar := fun anchor _ _ => inr ("tar of " +:+ anchor);
     prepare_containerfile := fun _ name => inr name;
     prepare_containerignore := fun _ => inr [];
     client_post := fun _ _ _ => ok_lines lines;
     raise_for_status := sample_status;
     get := fun id => inr id |}.

(** The daemon answers with the given status and no lines. *)
Definition failing_daemon (status : Z) : collaborators string :=
  sample_world sample_table (inr {| status_code := status; iter_lines := [] |}).

(** [build(fileobj=io.StringIO("FROM scratch"))], and the same call for
    a directory. *)
Definition loose_call : build_args :=
  call None (Some (StringIO "FROM scratch")) None None Omitted None None.

Definition directory_call : build_args :=
  call (Some "/srv/project") None None None (Passed (Some "Containerfile")) None None.

(** [build(path="/srv/project", fileobj=io.StringIO("FROM scratch"),
          remote="https://example.org/context.tar",
          dockerfile="Containerfile")]: three context sources at once. *)
Definition crowded_call : build_args :=
  call (Some "/srv/project") (Some (StringIO "FROM scratch"))
       (Some "https://example.org/context.tar") None
       (Passed (Some "Containerfile")) None None.

(** [build(remote="https://example.org/context.tar",
          volumes={"/etc/host": {"bind": "/etc/host"},
                   "/tmp/cache": {"bind": "/var/cache/libdnf5",
                                  "mode": ["rw", "z"]}})]. *)
Definition sample_volumes : list (string * volume_target) :=
  [("/etc/host", {| vt_bind := Some "/etc/host"; vt_mode := None |});
   ("/tmp/cache", {| vt_bind := Some "/var/cache/libdnf5";
                     vt_mode := Some (ModeList ["rw"; "z"]) |})].

Definition volumes_call : build_args :=
  call None None (Some "https://example.org/context.tar") None Omitted None
       (Some sample_volumes).
(** * Properties *)

(** Closed goals on the samples are settled by running the model. *)
Ltac by_evaluation := vm_compute; reflexivity.

(** ** The marker pattern *)

Lemma lower_hex_LF : lower_hex LF = false.
Proof. reflexivity. Qed.

Lemma string_app_cons (c : ascii) (s t : string) :
  String c s +:+ t = String c (s +:+ t).
Proof. reflexivity. Qed.

Lemma string_app_nil_l (t : string) : "" +:+ t = t.
Proof. reflexivity. Qed.

Lemma string_app_nil_r (s : string) : s +:+ "" = s.
Proof.
  induction s as [|c s IH]; [reflexivity|].
  rewrite string_app_cons. congruence.
Qed.

Lemma substring_prefix (h r : string) :
  substring 0 (String.length h) (h +:+ r) = h.
Proof.
  induction h as [|c h IH].
  - rewrite string_app_nil_l. destruct r; reflexivity.
  - rewrite string_app_cons. cbn. congruence.
Qed.

Lemma span_spec cls s :
  let '(h, r) := span cls s in
  s = h +:+ r /\ all_chars cls h = true /\ stops cls r.
Proof.
  induction s as [|c s IH]; cbn.
  - repeat split.
  - destruct (cls c) eqn:Hc.
    + destruct (span cls s) as [h r]. destruct IH as (-> & Hall & Hstop).
      rewrite string_app_cons. cbn. rewrite Hc. repeat split; assumption.
    + rewrite string_app_nil_l. cbn. repeat split. exact Hc.
Qed.

Lemma span_unique cls a r :
  all_chars cls a = true -> stops cls r -> span cls (a +:+ r) = (a, r).
Proof.
  induction a as [|c a IH]; intros Hall Hstop.
  - rewrite string_app_nil_l.
    destruct r as [|d r]; [reflexivity|]. cbn in *. now rewrite Hstop.
  - cbn in Hall. apply andb_prop in Hall as [Hc Hall].
    rewrite string_app_cons. cbn. rewrite Hc, IH by assumption. reflexivity.
Qed.

Section ClassPlus.
Context {R : Type} (cls : ascii -> bool) (k : nat -> string -> option R).
Hypothesis k_rejects_class : forall p c s, cls c = true -> k p (String c s) = None.

(** With a continuation that cannot start on a character of the class,
    the only split [[...]+] can offer is the longest one. *)
Lemma class_plus_longest h r pos :
  h <> "" -> all_chars cls h = true -> stops cls r ->
  class_plus cls pos (h +:+ r) k = k (pos + String.length h) r.
Proof.
  revert pos. induction h as [|c h IH]; intros pos Hne Hall Hstop; [congruence|].
  cbn in Hall. apply andb_prop in Hall as [Hc Hall].
  rewrite string_app_cons. cbn. rewrite Hc.
  destruct h as [|c' h'].
  - rewrite string_app_nil_l. cbn. replace (pos + 1) with (S pos) by lia.
    destruct r as [|d r']; cbn; [reflexivity|].
    cbn in Hstop. rewrite Hstop. reflexivity.
  - rewrite (IH (S pos)); [|congruence|assumption|assumption].
    replace (S pos + String.length (String c' h')) with
      (pos + S (String.length (String c' h'))) by lia.
    destruct (k _ r) eqn:Hk; [reflexivity|].
    cbn in Hall. apply andb_prop in Hall as [Hc' _].
    rewrite string_app_cons. apply k_rejects_class. exact Hc'.
Qed.

Lemma class_plus_stops r pos : stops cls r -> class_plus cls pos r k = None.
Proof. destruct r as [|c r]; cbn; [reflexivity|]. now intros ->. Qed.
End ClassPlus.

Lemma marker_match_direct text : marker_match text = marker_direct text.
Proof.
  unfold marker_match, marker_direct, re_match, marker. cbn [rmatch Nat.eqb].
  set (k := fun (p : nat) (r : string) => _).
  assert (Hk : forall p c s, lower_hex c = true -> k p (String c s) = None).
  { intros p c s Hc. unfold k. destruct (decide (LF = c)) as [<-|]; [|reflexivity].
    rewrite lower_hex_LF in Hc. discriminate. }
  pose proof (span_spec lower_hex text) as Hspan.
  destruct (span lower_hex text) as [h r]. destruct Hspan as (Htext & Hall & Hstop).
  destruct h as [|c h].
  - rewrite string_app_nil_l in Htext. subst r.
    rewrite (class_plus_stops _ _ _ _ Hstop). reflexivity.
  - rewrite Htext at 1.
    rewrite (class_plus_longest _ _ Hk (String c h) r 0); [|congruence|assumption|assumption].
    unfold k. rewrite Nat.sub_0_r, Nat.add_0_l, Htext, substring_prefix.
    destruct r as [|d r]; [reflexivity|].
    destruct (decide (LF = d)); [|reflexivity].
    destruct (at_eol r); reflexivity.
Qed.

(** What [marker] matches, and what its group is: a non-empty run of
    lower-case hexadecimal digits, then a newline, then the end of the
    text or one more newline that ends the text. *)
Lemma marker_match_spec (text id : string) :
  marker_match text = Some id <->
  id <> "" /\ all_chars lower_hex id = true /\
  (text = id +:+ nl \/ text = id +:+ nl +:+ nl).
Proof.
  rewrite marker_match_direct. unfold marker_direct. split.
  - pose proof (span_spec lower_hex text) as Hspan.
    destruct (span lower_hex text) as [h r]. destruct Hspan as (Htext & Hall & Hstop).
    destruct h as [|c h]; [discriminate|].
    destruct r as [|d r]; [discriminate|].
    destruct (decide (LF = d)) as [<-|]; [|discriminate].
    destruct (at_eol r) eqn:Heol; [|discriminate].
    intros [= <-]. split; [congruence|]. split; [assumption|].
    destruct r as [|e r]; [left; exact Htext|].
    destruct r; [|discriminate]. simpl in Heol.
    apply bool_decide_eq_true in Heol as ->. right. exact Htext.
  - intros (Hne & Hid & [-> | ->]).
    + rewrite span_unique by (assumption || exact lower_hex_LF).
      destruct id; [congruence|]. reflexivity.
    + rewrite span_unique by (assumption || exact lower_hex_LF).
      destruct id; [congruence|]. reflexivity.
Qed.

(** ** The monad *)

Lemma bind_ret_l {A B} (x : A) (k : A -> M B) : bind (ret x) k = k x.
Proof. unfold bind, ret. destruct (k x). reflexivity. Qed.

Lemma bind_lift_return {A B} (x : A) (k : A -> M B) : bind (lift (Return x)) k = k x.
Proof. exact (bind_ret_l x k). Qed.

Lemma bind_lift_raise {A B} (e : exn) (k : A -> M B) :
  bind (lift (Raise e)) k = ([], Raise e).
Proof. reflexivity. Qed.

Lemma bind_emit {B} (ev : effect) (k : unit -> M B) :
  bind (emit ev) k = (ev :: trace (k tt), result (k tt)).
Proof. unfold bind, emit, trace, result. destruct (k tt). reflexivity. Qed.

Lemma bind_step {A B} (t : list effect) (x : A) (k : A -> M B) :
  bind (t, Return x) k = (t ++ trace (k x), result (k x)).
Proof. unfold bind, trace, result. destruct (k x). reflexivity. Qed.

Lemma bind_stop {A B} (t : list effect) (e : exn) (k : A -> M B) :
  bind (t, Raise e) k = (t, Raise e).
Proof. reflexivity. Qed.

(** A check that performs nothing, run after [c], keeps the effects of
    [c] and its result, unless the check raises. *)
Lemma trace_then_check {A B} (c : M A) (o : outcome B) :
  trace (x <- c ;; lift o ;;; ret x) = trace c.
Proof.
  destruct c as [t [x|e]]; [|reflexivity].
  destruct o; cbn; apply app_nil_r.
Qed.

Lemma result_then_check {A B} (c : M A) (o : outcome B) :
  result (x <- c ;; lift o ;;; ret x) =
  match result c with
  | Return x => (_ <~ o ;; Return x)
  | Raise e => Raise e
  end.
Proof.
  destruct c as [t [x|e]]; [|reflexivity].
  destruct o; reflexivity.
Qed.

Lemma then_check_returns {A B} (c : M A) (o : outcome B) y :
  result (x <- c ;; lift o ;;; ret x) = Return y ->
  result c = Return y /\ exists b, o = Return b.
Proof.
  rewrite result_then_check. destruct (result c); [|discriminate].
  destruct o as [b|]; [|discriminate]. cbn. intros [= <-]. eauto.
Qed.

Lemma then_check_stops {A B} (c : M A) (o : outcome B) t e :
  c = (t, Raise e) -> (x <- c ;; lift o ;;; ret x) = (t, Raise e).
Proof. intros ->. reflexivity. Qed.

(** ** The scan of the event lines *)

Section Scan.
Context {Image : Type} (W : collaborators Image).

Lemma loop_body_plain t line vars :
  plain_event W line ->
  loop_body W t line vars =
  Return {| image_id := match announces W line with
                        | Some id => Some id
                        | None => image_id vars
                        end;
            unknown := Some line |}.
Proof.
  intros (d & Hd & Herr & Hstream).
  unfold loop_body, announces, stream_text. rewrite Hd. cbn.
  rewrite Herr. rewrite bool_decide_eq_false_2 by (intros [? ?]; discriminate).
  destruct Hstream as [Hs | (text & Hs)]; rewrite Hs.
  - rewrite bool_decide_eq_false_2 by (intros [? ?]; discriminate). reflexivity.
  - rewrite bool_decide_eq_true_2 by eauto. cbn.
    destruct (marker_match text); reflexivity.
Qed.

Lemma plain_event_scans_past line : plain_event W line -> scans_past W line.
Proof. intros H t vars. rewrite loop_body_plain by assumption. eauto. Qed.

Lemma loop_body_error t line vars msg :
  error_event W line msg ->
  loop_body W t line vars = Raise (BuildError msg t).
Proof.
  intros (d & Hd & Herr). unfold loop_body. rewrite Hd. cbn.
  rewrite Herr. rewrite bool_decide_eq_true_2 by eauto. reflexivity.
Qed.

Lemma loop_body_undecodable t line vars e :
  json_loads W line = inl e ->
  loop_body W t line vars = Raise (Ext e).
Proof. intros H. unfold loop_body. rewrite H. reflexivity. Qed.

(** The loop body always records the line it was given. *)
Lemma loop_body_unknown t line vars vars' :
  loop_body W t line vars = Return vars' -> unknown vars' = Some line.
Proof.
  unfold loop_body.
  destruct (of_ext (json_loads W line)) as [r|]; [|discriminate]. cbn.
  destruct (py_in "error" r) as [[|]|]; cbn; try discriminate.
  - destruct (py_getitem r "error"); discriminate.
  - destruct (py_in "stream" r) as [[|]|]; cbn; try discriminate.
    + destruct (py_getitem r "stream") as [v|]; cbn; [|discriminate].
      destruct (marker_match_value v) as [[id|]|]; cbn; try discriminate;
        intros [= <-]; reflexivity.
    + intros [= <-]. reflexivity.
Qed.

(** One turn of the loop pulls one line through [tee_next]. *)
Lemma for_line_in_stream_next t line t' vars :
  tee_next t = Some (line, t') ->
  for_line_in_stream W (tee_source t) (tee_buffered t) vars =
  (vars' <~ loop_body W t' line vars ;;
   for_line_in_stream W (tee_source t') (tee_buffered t') vars').
Proof.
  unfold tee_next. destruct (tee_source t) as [|l rest]; [discriminate|].
  intros [= <- <-]. reflexivity.
Qed.

(** Pulling a line on the scanning view changes nothing of what the
    replay view will yield. *)
Lemma tee_next_drain t line t' :
  tee_next t = Some (line, t') -> drain t' = drain t.
Proof.
  unfold tee_next, drain. destruct (tee_source t) as [|l rest]; [discriminate|].
  intros [= <- <-]. cbn. rewrite <- app_assoc. reflexivity.
Qed.

(** Past a prefix that raises nothing, the loop goes on with the rest. *)
Lemma for_line_in_stream_app pre rest buffered vars :
  Forall (scans_past W) pre ->
  exists vars',
    for_line_in_stream W (pre ++ rest) buffered vars =
    for_line_in_stream W rest (buffered ++ pre) vars' /\
    (pre = [] -> vars' = vars).
Proof.
  intros Hpre. revert buffered vars.
  induction Hpre as [|l pre Hl Hpre IH]; intros buffered vars.
  - exists vars. rewrite app_nil_r. split; reflexivity.
  - cbn. destruct (Hl {| tee_source := pre ++ rest; tee_buffered := buffered ++ [l] |} vars)
      as [vars1 Hbody].
    rewrite Hbody. cbn.
    destruct (IH (buffered ++ [l]) vars1) as (vars' & Heq & _).
    exists vars'. rewrite Heq, <- app_assoc. split; [reflexivity | discriminate].
Qed.

Lemma last_cons_or {A} (x : A) (l : list A) (held : option A) :
  match last (x :: l) with Some y => Some y | None => held end =
  match last l with Some y => Some y | None => Some x end.
Proof. rewrite last_cons. destruct (last l); reflexivity. Qed.

Lemma for_line_in_stream_plain lines buffered vars :
  Forall (plain_event W) lines ->
  for_line_in_stream W lines buffered vars =
  Return ({| image_id := last_announced W lines (image_id vars);
             unknown := match last lines with
                        | Some l => Some l
                        | None => unknown vars
                        end |},
          {| tee_source := []; tee_buffered := buffered ++ lines |}).
Proof.
  intros Hall. revert buffered vars.
  induction Hall as [|l lines Hl Hall IH]; intros buffered [id unk].
  - cbn. rewrite app_nil_r. reflexivity.
  - cbn [for_line_in_stream]. rewrite loop_body_plain by assumption. cbn [obind].
    rewrite IH. cbn [image_id unknown last_announced].
    rewrite <- app_assoc. cbn [app].
    rewrite last_cons_or. reflexivity.
Qed.

Lemma last_announced_app pre post held :
  last_announced W (pre ++ post) held = last_announced W post (last_announced W pre held).
Proof. revert held. induction pre as [|l pre IH]; intros held; cbn; [reflexivity | apply IH]. Qed.

Lemma last_announced_silent lines held :
  Forall (fun l => announces W l = None) lines -> last_announced W lines held = held.
Proof.
  intros H. revert held. induction H as [|l lines Hl _ IH]; intros held; cbn.
  - reflexivity.
  - rewrite Hl. apply IH.
Qed.

End Scan.

(** ** From the scan to the outcome *)

Section Interpret.
Context {Image : Type} (W : collaborators Image).

Lemma interpret_found lines vars t c s :
  scan W lines = Return (vars, t) ->
  image_id vars = Some (String c s) ->
  interpret W lines =
  ([ImageLookedUp (String c s)],
   image <~ of_ext (get W (String c s)) ;; Return (image, t)).
Proof.
  intros Hscan Hid. unfold interpret. rewrite Hscan, bind_lift_return, Hid.
  rewrite bind_emit. unfold trace, result.
  destruct (get W (String c s)); reflexivity.
Qed.

Lemma interpret_missing lines vars t :
  scan W lines = Return (vars, t) ->
  image_id vars = None ->
  interpret W lines = ([], Raise (BuildError (fallback_message (unknown vars)) t)).
Proof.
  intros Hscan Hid. unfold interpret. rewrite Hscan, bind_lift_return, Hid. reflexivity.
Qed.

Lemma interpret_raise lines e :
  scan W lines = Raise e -> interpret W lines = ([], Raise e).
Proof. intros Hscan. unfold interpret. rewrite Hscan. reflexivity. Qed.

(** Nothing before the request touches the network. *)
Lemma package_context_offline a params :
  offline (trace (package_context W a params)) = true.
Proof.
  unfold package_context.
  destruct (bool_decide (custom_context a = Some true)).
  - destruct (fileobj a) as [f|]; [|reflexivity].
    destruct (dockerfile_of W a); [|reflexivity].
    destruct f; reflexivity.
  - destruct (fileobj a) as [f|].
    + destruct (dockerfile_of W a); [|reflexivity]. cbn.
      destruct (copy_to_file W f _); [reflexivity|]. cbn.
      destruct (create_tar W _ _ _); reflexivity.
    + destruct (path a) as [p|].
      * destruct (dockerfile_of W a); [|reflexivity]. cbn.
        destruct (prepare_containerfile W p _); [reflexivity|]. cbn.
        destruct (prepare_containerignore W p); [reflexivity|]. cbn.
        destruct (create_tar W _ _ _); reflexivity.
      * destruct (remote a) as [[|c s]|]; reflexivity.
Qed.

Lemma prepare_offline a : offline (trace (prepare W a)) = true.
Proof.
  unfold prepare.
  destruct (_ && _ && _); [reflexivity|].
  destruct (_ && _); [reflexivity|].
  destruct (marshal W a) as [params|e]; [|reflexivity].
  rewrite bind_lift_return, trace_then_check. apply package_context_offline.
Qed.

Lemma offline_lookups tr : offline tr = true -> lookups tr = [].
Proof.
  induction tr as [|ev tr IH]; [reflexivity|].
  cbn. intros H. apply andb_prop in H as [Hev Htr].
  destruct ev; cbn in *; try discriminate; auto.
Qed.

Lemma offline_posted tr : offline tr = true -> posted tr = [].
Proof.
  induction tr as [|ev tr IH]; [reflexivity|].
  cbn. intros H. apply andb_prop in H as [Hev Htr].
  destruct ev; cbn in *; try discriminate; auto.
Qed.

Lemma lookups_app t1 t2 : lookups (t1 ++ t2) = lookups t1 ++ lookups t2.
Proof. unfold lookups. apply omap_app. Qed.

Lemma posted_app t1 t2 : posted (t1 ++ t2) = posted t1 ++ posted t2.
Proof. unfold posted. apply omap_app. Qed.

Lemma submit_answered params data pathv t rsp :
  client_post W params data t = inr rsp ->
  raise_for_status W rsp = None ->
  submit W params (Bound data) pathv t =
  (Posted params data t :: released data pathv, Return rsp).
Proof.
  intros Hpost Hstatus. unfold submit.
  rewrite bind_ret_l, bind_emit, Hpost. cbn [of_ext].
  rewrite bind_lift_return, Hstatus.
  destruct data, pathv; reflexivity.
Qed.

Lemma submit_refused params data pathv t e :
  client_post W params data t = inl e ->
  submit W params (Bound data) pathv t = ([Posted params data t], Raise (Ext e)).
Proof.
  intros Hpost. unfold submit.
  rewrite bind_ret_l, bind_emit, Hpost. reflexivity.
Qed.

Lemma offline_released data pathv : offline (released data pathv) = true.
Proof. destruct data, pathv; reflexivity. Qed.

(** Once the request is answered, the outcome is the interpreter's, and
    the body and the temporary directory have been released. *)
Lemma build_answered a before lines :
  answered W a before lines ->
  exists params data pathv,
    build W a =
    (before ++ Posted params data (post_timeout a) :: released data pathv
            ++ trace (interpret W lines),
     result (interpret W lines)) /\
    offline before = true.
Proof.
  intros (pathv & data & params & rsp & Hprep & Hpost & Hstatus & Hlines).
  exists params, data, pathv.
  pose proof (prepare_offline a) as Hoff. rewrite Hprep in Hoff.
  split; [|exact Hoff].
  unfold build. rewrite Hprep, bind_step. cbv beta iota.
  rewrite (submit_answered _ _ _ _ _ Hpost Hstatus), bind_step. cbv beta.
  rewrite Hlines. reflexivity.
Qed.

Lemma build_answered_result a before lines :
  answered W a before lines -> result (build W a) = result (interpret W lines).
Proof.
  intros H. destruct (build_answered a before lines H) as (? & ? & ? & -> & _).
  reflexivity.
Qed.

Lemma build_answered_lookups a before lines :
  answered W a before lines ->
  lookups (trace (build W a)) = lookups (trace (interpret W lines)).
Proof.
  intros H. destruct (build_answered a before lines H) as (p & d & pv & -> & Hb).
  change (trace (?t, _)) with t.
  rewrite lookups_app, (offline_lookups _ Hb).
  change (lookups (?ev :: ?t)) with (lookups ([ev] ++ t)).
  rewrite !lookups_app, (offline_lookups _ (offline_released d pv)). reflexivity.
Qed.

End Interpret.

(** ** What is sent *)

Section Posted.
Context {Image : Type} (W : collaborators Image).

Lemma interpret_posts_nothing lines : posted (trace (interpret W lines)) = [].
Proof.
  unfold interpret. destruct (scan W lines) as [[vars t]|e]; [|reflexivity].
  rewrite bind_lift_return.
  destruct (image_id vars) as [[|c s]|]; try reflexivity.
  rewrite bind_emit. cbn [trace fst].
  destruct (get W (String c s)); reflexivity.
Qed.

Lemma submit_posts params body pathv t :
  posted (trace (submit W params body pathv t)) =
  match body with Bound _ => [params] | Unbound => [] end.
Proof.
  unfold submit. destruct body as [|data]; [reflexivity|].
  rewrite bind_ret_l, bind_emit. cbn [trace fst].
  destruct (client_post W params data t) as [e|rsp]; [reflexivity|].
  cbn [of_ext]. rewrite bind_lift_return.
  destruct (raise_for_status W rsp), data, pathv; reflexivity.
Qed.

Lemma trace_bind {A B} (c : M A) (k : A -> M B) :
  trace (bind c k) =
  trace c ++ match result c with Return x => trace (k x) | Raise _ => [] end.
Proof.
  destruct c as [t [x|e]]; cbn [trace result fst snd].
  - rewrite bind_step. reflexivity.
  - rewrite bind_stop, app_nil_r. reflexivity.
Qed.

(** The one parameter mapping a call of [build] sends is the one its
    preparation ends with. *)
Lemma build_posts a :
  posted (trace (build W a)) =
  match result (prepare W a) with
  | Return (_, Bound _, params) => [params]
  | _ => []
  end.
Proof.
  unfold build. rewrite trace_bind, posted_app.
  rewrite (offline_posted _ (prepare_offline W a)). cbn [app].
  destruct (result (prepare W a)) as [[[pathv body] params]|e]; [|reflexivity].
  rewrite trace_bind, posted_app, submit_posts.
  destruct body as [|data]; cbn [app].
  - reflexivity.
  - destruct (result (submit W params (Bound data) pathv (post_timeout a)));
      [|reflexivity].
    rewrite interpret_posts_nothing. reflexivity.
Qed.

(** Packaging the context leaves the mapping as the marshalling made
    it, but for [dockerfile] in the directory branch. *)
Lemma package_context_params a p0 pathv body params :
  result (package_context W a p0) = Return (pathv, body, params) ->
  params = p0 \/ exists name, params = <["dockerfile" := VStr name]> p0.
Proof.
  unfold package_context.
  destruct (bool_decide (custom_context a = Some true)).
  - destruct (fileobj a) as [f|]; [|discriminate].
    destruct (dockerfile_of W a); [|discriminate].
    destruct f; [|discriminate]. cbn. intros [= _ _ <-]. left. reflexivity.
  - destruct (fileobj a) as [f|].
    + destruct (dockerfile_of W a); [|discriminate]. cbn.
      destruct (copy_to_file W f _); [discriminate|]. cbn.
      destruct (create_tar W _ _ _); [discriminate|]. cbn.
      intros [= _ _ <-]. left. reflexivity.
    + destruct (path a) as [p|].
      * destruct (dockerfile_of W a); [|discriminate]. cbn.
        destruct (prepare_containerfile W p _) as [|name]; [discriminate|]. cbn.
        destruct (prepare_containerignore W p); [discriminate|]. cbn.
        destruct (create_tar W _ _ _); [discriminate|]. cbn.
        intros [= _ _ <-]. right. exists name. reflexivity.
      * destruct (remote a) as [[|c s]|]; cbn; intros [= _ _ <-]; left; reflexivity.
Qed.

Lemma prepare_params a pathv body params :
  result (prepare W a) = Return (pathv, body, params) ->
  exists p0, marshal W a = Return p0 /\
             (params = p0 \/ exists name, params = <["dockerfile" := VStr name]> p0).
Proof.
  unfold prepare.
  destruct (_ && _ && _); [discriminate|].
  destruct (_ && _); [discriminate|].
  destruct (marshal W a) as [p0|e]; [|discriminate].
  rewrite bind_lift_return. intros H. exists p0. split; [reflexivity|].
  apply then_check_returns in H as [H _].
  exact (package_context_params a p0 pathv body params H).
Qed.

Lemma posted_params a params :
  In params (posted (trace (build W a))) ->
  exists p0, marshal W a = Return p0 /\
             (params = p0 \/ exists name, params = <["dockerfile" := VStr name]> p0).
Proof.
  rewrite build_posts.
  destruct (result (prepare W a)) as [[[pathv body] params']|e] eqn:Hprep; [|intros []].
  destruct body as [|data]; [intros []|].
  intros [<-|[]]. exact (prepare_params a pathv (Bound data) params' Hprep).
Qed.

End Posted.

(** ** The parameter mapping *)

Section Marshal.
Context {Image : Type} (W : collaborators Image).

Lemma dump_dict_lookup_ne key o p k :
  k <> key -> dump_dict W key o p !! k = p !! k.
Proof.
  intros Hne. unfold dump_dict. destruct o as [d|]; [|reflexivity].
  destruct (dict_truthy d); [|reflexivity].
  apply lookup_insert_ne. congruence.
Qed.

Lemma dump_dict_lookup_eq key o p :
  p !! key = None ->
  dump_dict W key o p !! key =
  if dict_given o then (fun d => VStr (json_dumps W (str_dict d))) <$> o else None.
Proof.
  intros Hp. unfold dump_dict, dict_given. destruct o as [d|]; [|exact Hp].
  destruct (dict_truthy d); [|exact Hp].
  apply lookup_insert_eq.
Qed.

Lemma dump_list_lookup_ne key o p k :
  k <> key -> dump_list W key o p !! k = p !! k.
Proof.
  intros Hne. unfold dump_list. destruct o as [[|x l]|]; try reflexivity.
  apply lookup_insert_ne. congruence.
Qed.

Lemma dump_list_lookup_eq key o p :
  p !! key = None ->
  dump_list W key o p !! key =
  if list_given o then (fun l => VStr (json_dumps W (str_list l))) <$> o else None.
Proof.
  intros Hp. unfold dump_list, list_given. destruct o as [[|x l]|]; try exact Hp.
  apply lookup_insert_eq.
Qed.

Lemma limit_params_lookup_ne o p k :
  k ∉ limit_keys -> limit_params o p !! k = p !! k.
Proof.
  intros Hk. unfold limit_params. destruct o as [l|]; [|reflexivity].
  destruct (dict_truthy l); [|reflexivity].
  unfold limit_keys in Hk. rewrite !not_elem_of_cons in Hk.
  destruct Hk as (? & ? & ? & ? & ? & ? & _).
  rewrite !lookup_insert_ne by congruence. reflexivity.
Qed.

Lemma limit_params_lookup_eq o p k :
  k ∈ limit_keys -> p !! k = None ->
  limit_params o p !! k =
  if dict_given o then (fun l => limit_get l k) <$> o else None.
Proof.
  intros Hk Hp. unfold limit_params, dict_given. destruct o as [l|]; [|exact Hp].
  destruct (dict_truthy l); [|exact Hp].
  unfold limit_keys in Hk. rewrite !elem_of_cons in Hk.
  destruct Hk as [->|[->|[->|[->|[->|[->|Hk]]]]]];
    [..|apply elem_of_nil in Hk; contradiction];
    rewrite ?lookup_insert_eq, ?(lookup_insert_ne _ _ _ _) by discriminate;
    repeat (first [ rewrite lookup_insert_eq | rewrite lookup_insert_ne by discriminate ]);
    reflexivity.
Qed.

Lemma volume_params_lookup_ne o p p' k :
  volume_params o p = Return p' -> k <> "volume" -> p' !! k = p !! k.
Proof.
  unfold volume_params. destruct o as [[|item items]|]; try (intros [= <-]; reflexivity).
  destruct (volume_loop (item :: items) []) as [entries|e]; [|discriminate].
  cbn [obind]. intros [= <-] Hk. apply lookup_insert_ne. congruence.
Qed.

End Marshal.

(** ** Checks made before the request *)

Section Checks.
Context {Image : Type} (W : collaborators Image).

Lemma first_malformed_entry vs :
  Exists (fun entry => malformed_entry entry = true) vs ->
  exists pre entry post,
    vs = pre ++ entry :: post /\
    Forall (fun entry => malformed_entry entry = false) pre /\
    malformed_entry entry = true.
Proof.
  induction vs as [|x vs IH]; intros Hex; [inversion Hex|].
  destruct (malformed_entry x) eqn:Hx.
  - exists [], x, vs. repeat split; [constructor | exact Hx].
  - inversion Hex as [? ? Hx'|? ? Hvs]; subst; [congruence|].
    destruct (IH Hvs) as (pre & entry & post & -> & Hpre & Hentry).
    exists (x :: pre), entry, post. repeat split; [constructor; assumption | exact Hentry].
Qed.

Lemma volume_loop_wellformed vs acc :
  Forall (fun entry => malformed_entry entry = false) vs ->
  volume_loop vs acc = Return (acc ++ omap flatten_entry vs).
Proof.
  intros H. revert acc. induction H as [|[hostdir tgt] vs Hx _ IH]; intros acc.
  - cbn. rewrite app_nil_r. reflexivity.
  - unfold malformed_entry, lacks_bind, scalar_mode in Hx. cbn in Hx.
    cbn [volume_loop omap]. unfold flatten_entry at 1. cbn [fst snd].
    destruct tgt as [[b|] [[s|flags]|]]; cbn in Hx |- *; try discriminate.
    + rewrite IH, <- app_assoc. reflexivity.
    + rewrite IH, <- app_assoc. unfold entry_text. cbn [str_join].
      rewrite string_app_nil_r. reflexivity.
Qed.

(** The message of the [ValueError] for a malformed entry. *)
Lemma volume_loop_malformed pre hostdir tgt post acc :
  Forall (fun entry => malformed_entry entry = false) pre ->
  malformed_entry (hostdir, tgt) = true ->
  volume_loop (pre ++ (hostdir, tgt) :: post) acc =
  Raise (ValueError ("volume " +:+ hostdir +:+
                     (if lacks_bind (hostdir, tgt) then " 'bind' value not defined"
                      else " 'mode' value should be a list"))).
Proof.
  intros Hpre Hbad. revert acc.
  induction Hpre as [|[h t] pre Hx _ IH]; intros acc.
  - cbn [app volume_loop].
    unfold malformed_entry, lacks_bind, scalar_mode in *. cbn [fst snd] in *.
    destruct tgt as [[b|] [[s|flags]|]]; cbn in Hbad |- *; try discriminate; reflexivity.
  - cbn [app volume_loop].
    unfold malformed_entry, lacks_bind, scalar_mode in Hx. cbn [fst snd] in Hx.
    destruct t as [[b|] [[s|flags]|]]; cbn in Hx |- *; try discriminate; apply IH.
Qed.

Lemma marshal_malformed_volume a pre hostdir tgt post :
  volumes a = Some (pre ++ (hostdir, tgt) :: post) ->
  Forall (fun entry => malformed_entry entry = false) pre ->
  malformed_entry (hostdir, tgt) = true ->
  marshal W a =
  Raise (ValueError ("volume " +:+ hostdir +:+
                     (if lacks_bind (hostdir, tgt) then " 'bind' value not defined"
                      else " 'mode' value should be a list"))).
Proof.
  intros Hvs Hpre Hbad. unfold marshal, volume_params. rewrite Hvs.
  pose proof (volume_loop_malformed pre hostdir tgt post [] Hpre Hbad) as Hloop.
  destruct (pre ++ (hostdir, tgt) :: post) as [|item items] eqn:Hsplit.
  - destruct pre; discriminate.
  - rewrite Hloop. reflexivity.
Qed.

(** Whatever [prepare] raises, it raises without a network call; and
    what the head of [build] raises is an error of caller input. *)
Lemma build_stops_in_prepare a e :
  result (prepare W a) = Raise e ->
  build W a = (trace (prepare W a), Raise e).
Proof.
  intros H. unfold build. destruct (prepare W a) as [t r]. cbn in H. subst r.
  reflexivity.
Qed.

Lemma prepare_first_check a :
  path a = None -> fileobj a = None -> remote a = None ->
  prepare W a = ([], Raise (TypeError "Either path, fileobj or remote must be provided.")).
Proof.
  intros Hp Hf Hr. unfold prepare.
  rewrite !bool_decide_eq_true_2 by assumption. reflexivity.
Qed.

Lemma prepare_second_check a :
  ~ (path a = None /\ fileobj a = None /\ remote a = None) ->
  is_Some (kwargs a !! "gzip") -> is_Some (kwargs a !! "encoding") ->
  prepare W a = ([], Raise (PodmanError "Custom encoding not supported when gzip enabled.")).
Proof.
  intros Hctx Hg He. unfold prepare.
  destruct (bool_decide (path a = None) && bool_decide (fileobj a = None)
            && bool_decide (remote a = None)) eqn:H1.
  - exfalso. apply Hctx.
    apply andb_prop in H1 as [H1 H3]. apply andb_prop in H1 as [H1 H2].
    repeat split; eapply bool_decide_eq_true_1; eassumption.
  - rewrite !bool_decide_eq_true_2 by assumption. reflexivity.
Qed.

Lemma prepare_after_checks a :
  passes_first_checks a ->
  prepare W a =
  (params <- lift (marshal W a) ;;
   packaged <- package_context W a params ;;
   lift (post_kwargs a) ;;;
   ret packaged).
Proof.
  intros [Hctx Hgz]. unfold prepare.
  destruct (bool_decide (path a = None) && bool_decide (fileobj a = None)
            && bool_decide (remote a = None)) eqn:H1.
  - exfalso. apply Hctx.
    apply andb_prop in H1 as [H1 H3]. apply andb_prop in H1 as [H1 H2].
    repeat split; eapply bool_decide_eq_true_1; eassumption.
  - destruct (bool_decide (is_Some (kwargs a !! "gzip"))
              && bool_decide (is_Some (kwargs a !! "encoding"))) eqn:H2; [|reflexivity].
    exfalso. apply Hgz. apply andb_prop in H2 as [H2 H3].
    split; eapply bool_decide_eq_true_1; eassumption.
Qed.

End Checks.

(** C8.  With no directory path, no file object and no remote URI the
    build raises the [TypeError] of its first statement, and nothing
    has been done by then: no request, no lookup, no file touched. *)
Theorem missing_context_is_rejected {Image} (W : collaborators Image) a :
  path a = None -> fileobj a = None -> remote a = None ->
  build W a = ([], Raise (TypeError "Either path, fileobj or remote must be provided.")) /\
  is_caller_error (TypeError "Either path, fileobj or remote must be provided.") = true /\
  offline (trace (build W a)) = true.
Proof.
  intros Hp Hf Hr.
  assert (Hb : build W a =
               ([], Raise (TypeError "Either path, fileobj or remote must be provided."))).
  { rewrite (build_stops_in_prepare W a (TypeError "Either path, fileobj or remote must be provided."));
      rewrite (prepare_first_check W a Hp Hf Hr); reflexivity. }
  rewrite Hb. repeat split.
Qed.

Lemma missing_context_is_rejected_witness :
  build (daemon []) (call None None None None Omitted None None) =
  ([], Raise (TypeError "Either path, fileobj or remote must be provided.")) /\
  is_caller_error (TypeError "Either path, fileobj or remote must be provided.") = true /\
  offline (trace (build (daemon []) (call None None None None Omitted None None))) = true.
Proof.
  apply (missing_context_is_rejected (daemon []) (call None None None None Omitted None None));
    reflexivity.
Defined.

(** ** Volumes *)

Lemma marshal_volume {Image} (W : collaborators Image) a p0 vs :
  marshal W a = Return p0 ->
  volumes a = Some vs -> vs <> [] ->
  Forall (fun entry => malformed_entry entry = false) vs ->
  p0 !! "volume" = Some (str_list (omap flatten_entry vs)).
Proof.
  unfold marshal, volume_params. intros Hm Hvs Hne Hwf. rewrite Hvs in Hm.
  destruct vs as [|item items]; [congruence|].
  rewrite (volume_loop_wellformed _ [] Hwf) in Hm. cbn [obind app] in Hm.
  injection Hm as <-. apply lookup_insert_eq.
Qed.

Lemma marshal_returns {Image} (W : collaborators Image) a :
  volumes_wellformed a -> exists p, marshal W a = Return p.
Proof.
  unfold volumes_wellformed, marshal, volume_params.
  destruct (volumes a) as [[|item items]|]; intros Hwf; eauto.
  rewrite (volume_loop_wellformed _ [] Hwf). cbn [obind]. eauto.
Qed.

Lemma flatten_wellformed vs :
  Forall (fun entry => malformed_entry entry = false) vs ->
  Forall2 (fun entry text => flatten_entry entry = Some text) vs (omap flatten_entry vs).
Proof.
  induction 1 as [|[hostdir tgt] vs Hx _ IH]; [constructor|].
  unfold malformed_entry, lacks_bind, scalar_mode in Hx. cbn in Hx.
  destruct tgt as [[b|] [[s|flags]|]]; cbn in Hx; try discriminate;
    cbn [omap]; unfold flatten_entry at 2; cbn [fst snd vt_bind vt_mode];
    (constructor; [reflexivity | exact IH]).
Qed.

(** C7.  A [volumes] mapping with an entry that lacks ['bind'], or whose
    ['mode'] is one string, stops the build with an error of caller
    input before anything is done; once the two checks at the head of
    [build] are passed, that error is the [ValueError] that names the
    host path of the first such entry.  A non-empty mapping of
    well-formed entries passes the loop of lines 188-196, which leaves
    under ["volume"] the list of [hostPath:bindPath:flags], one text
    per entry in the order of the mapping, the flags joined by commas;
    whenever the preparation of the call then returns, one request is
    sent and it carries that list.  An empty list of flags, like no
    ['mode'] at all, leaves the text after the second colon empty. *)
Theorem volumes_checked_then_flattened {Image} (W : collaborators Image) a vs :
  volumes a = Some vs ->
  (Exists (fun entry => malformed_entry entry = true) vs ->
   exists pre hostdir tgt post e,
     vs = pre ++ (hostdir, tgt) :: post /\
     Forall (fun entry => malformed_entry entry = false) pre /\
     malformed_entry (hostdir, tgt) = true /\
     build W a = ([], Raise e) /\
     is_caller_error e = true /\
     (passes_first_checks a ->
      e = ValueError ("volume " +:+ hostdir +:+
                      (if lacks_bind (hostdir, tgt) then " 'bind' value not defined"
                       else " 'mode' value should be a list")))) /\
  (Forall (fun entry => malformed_entry entry = false) vs -> vs <> [] ->
   exists entries p0,
     Forall2 (fun entry text => flatten_entry entry = Some text) vs entries /\
     volume_loop vs [] = Return entries /\
     marshal W a = Return p0 /\
     p0 !! "volume" = Some (str_list entries) /\
     (forall params, In params (posted (trace (build W a))) ->
                     params !! "volume" = Some (str_list entries)) /\
     (forall before pathv data params,
         prepare W a = (before, Return (pathv, Bound data, params)) ->
         posted (trace (build W a)) = [params] /\
         params !! "volume" = Some (str_list entries))) /\
  (forall hostdir bind_ rest acc,
      flatten_entry (hostdir, {| vt_bind := Some bind_; vt_mode := Some (ModeList []) |}) =
      Some (hostdir +:+ ":" +:+ bind_ +:+ ":") /\
      volume_loop ((hostdir, {| vt_bind := Some bind_; vt_mode := Some (ModeList []) |}) :: rest)
                  acc =
      volume_loop rest (acc ++ [hostdir +:+ ":" +:+ bind_ +:+ ":"]) /\
      volume_loop ((hostdir, {| vt_bind := Some bind_; vt_mode := None |}) :: rest) acc =
      volume_loop rest (acc ++ [hostdir +:+ ":" +:+ bind_ +:+ ":"])).
Proof.
  intros Hvs. split; [|split].
  - intros Hex.
    destruct (first_malformed_entry vs Hex) as (pre & [hostdir tgt] & post & -> & Hpre & Hbad).
    exists pre, hostdir, tgt, post.
    destruct (decide (path a = None /\ fileobj a = None /\ remote a = None))
      as [(Hp & Hf & Hr)|Hctx].
    { exists (TypeError "Either path, fileobj or remote must be provided.").
      split; [reflexivity|]. split; [exact Hpre|]. split; [exact Hbad|].
      split; [|split; [reflexivity|]].
      - rewrite (build_stops_in_prepare W a _ (f_equal snd (prepare_first_check W a Hp Hf Hr))).
        rewrite (prepare_first_check W a Hp Hf Hr). reflexivity.
      - intros [Hno _]. exfalso. apply Hno. repeat split; assumption. }
    destruct (decide (is_Some (kwargs a !! "gzip") /\ is_Some (kwargs a !! "encoding")))
      as [[Hg He]|Hgz].
    { exists (PodmanError "Custom encoding not supported when gzip enabled.").
      split; [reflexivity|]. split; [exact Hpre|]. split; [exact Hbad|].
      split; [|split; [reflexivity|]].
      - rewrite (build_stops_in_prepare W a _
                   (f_equal snd (prepare_second_check W a Hctx Hg He))).
        rewrite (prepare_second_check W a Hctx Hg He). reflexivity.
      - intros [_ Hno]. exfalso. apply Hno. split; assumption. }
    assert (Hprep : prepare W a =
                    ([], Raise (ValueError
                                  ("volume " +:+ hostdir +:+
                                   (if lacks_bind (hostdir, tgt)
                                    then " 'bind' value not defined"
                                    else " 'mode' value should be a list"))))).
    { rewrite (prepare_after_checks W a (conj Hctx Hgz)).
      rewrite (marshal_malformed_volume W a pre hostdir tgt post Hvs Hpre Hbad).
      reflexivity. }
    eexists.
    split; [reflexivity|]. split; [exact Hpre|]. split; [exact Hbad|].
    split; [|split; [|intros _; reflexivity]].
    + rewrite (build_stops_in_prepare W a _ (f_equal snd Hprep)), Hprep. reflexivity.
    + reflexivity.
  - intros Hwf Hne.
    assert (Hwf' : volumes_wellformed a) by (unfold volumes_wellformed; rewrite Hvs; exact Hwf).
    destruct (marshal_returns W a Hwf') as [p0 Hm].
    assert (Hsent : forall params, In params (posted (trace (build W a))) ->
                                   params !! "volume" = Some (str_list (omap flatten_entry vs))).
    { intros params Hin.
      destruct (posted_params W a params Hin) as (p1 & Hm1 & [->|(name & ->)]).
      - exact (marshal_volume W a p1 vs Hm1 Hvs Hne Hwf).
      - rewrite lookup_insert_ne by discriminate.
        exact (marshal_volume W a p1 vs Hm1 Hvs Hne Hwf). }
    exists (omap flatten_entry vs), p0.
    split; [exact (flatten_wellformed vs Hwf)|].
    split; [exact (volume_loop_wellformed vs [] Hwf)|].
    split; [exact Hm|].
    split; [exact (marshal_volume W a p0 vs Hm Hvs Hne Hwf)|].
    split; [exact Hsent|].
    intros before pathv data params Hprep.
    assert (Hposted : posted (trace (build W a)) = [params])
      by (rewrite build_posts, Hprep; reflexivity).
    split; [exact Hposted|]. apply Hsent. rewrite Hposted. left. reflexivity.
  - intros hostdir bind_ rest acc. split; [reflexivity|]. split.
    + change (volume_loop rest (acc ++ [entry_text hostdir bind_ (str_join "," [])]) =
              volume_loop rest (acc ++ [hostdir +:+ ":" +:+ bind_ +:+ ":"])).
      unfold entry_text. cbn [str_join]. rewrite string_app_nil_r. reflexivity.
    + change (volume_loop rest (acc ++ [entry_text hostdir bind_ (str_join "," [])]) =
              volume_loop rest (acc ++ [hostdir +:+ ":" +:+ bind_ +:+ ":"])).
      unfold entry_text. cbn [str_join]. rewrite string_app_nil_r. reflexivity.
Qed.

(** [build(remote=..., volumes={'/etc/host': {'bind': '/etc/host', 'mode': []},
    '/srv/cache': {'mode': ['rw']}})]: the second entry has no ['bind'];
    and the call of [volumes_call], whose two entries are sent. *)
Lemma volumes_checked_then_flattened_witness :
  (let vs := [("/etc/host", {| vt_bind := Some "/etc/host"; vt_mode := Some (ModeList []) |});
              ("/srv/cache", {| vt_bind := None; vt_mode := Some (ModeList ["rw"]) |})] in
   let a := call None None (Some "https://example.org/context.tar") None Omitted None (Some vs) in
   build (daemon [line_id]) a =
   ([], Raise (ValueError "volume /srv/cache 'bind' value not defined"))) /\
  (exists p0,
      volume_loop sample_volumes [] =
      Return ["/etc/host:/etc/host:"; "/tmp/cache:/var/cache/libdnf5:rw,z"] /\
      marshal (daemon [line_id]) volumes_call = Return p0 /\
      p0 !! "volume" =
      Some (str_list ["/etc/host:/etc/host:"; "/tmp/cache:/var/cache/libdnf5:rw,z"]) /\
      posted (trace (build (daemon [line_id]) volumes_call)) = [p0]).
Proof.
  split.
  - intros vs a.
    destruct (volumes_checked_then_flattened (daemon [line_id]) a vs eq_refl) as (Hbad & _).
    destruct Hbad as (pre & hostdir & tgt & post & e & Hsplit & Hpre & Hentry & Hbuild & _ & He).
    { apply Exists_cons_tl, Exists_cons_hd. reflexivity. }
    assert (Hchecks : passes_first_checks a).
    { split; [intros (_ & _ & H); discriminate | intros [[? H] _]; discriminate]. }
    rewrite Hbuild, (He Hchecks).
    destruct pre as [|first pre].
    + injection Hsplit as <- <- <-. discriminate Hentry.
    + injection Hsplit as <- Hsplit. destruct pre as [|second pre].
      * injection Hsplit as <- <- <-. reflexivity.
      * injection Hsplit as _ Hsplit. destruct pre; discriminate Hsplit.
  - destruct (volumes_checked_then_flattened (daemon [line_id]) volumes_call sample_volumes
                                             eq_refl) as (_ & Hgood & _).
    destruct Hgood as (entries & p0 & Hflat & Hloop & Hm & Hvol & _ & Hsent).
    { repeat constructor. }
    { discriminate. }
    assert (Hentries : entries = ["/etc/host:/etc/host:"; "/tmp/cache:/var/cache/libdnf5:rw,z"]).
    { assert (Hrun : volume_loop sample_volumes [] =
                     Return ["/etc/host:/etc/host:"; "/tmp/cache:/var/cache/libdnf5:rw,z"])
        by reflexivity.
      rewrite Hrun in Hloop. injection Hloop as <-. reflexivity. }
    subst entries.
    exists p0. split; [exact Hloop|]. split; [exact Hm|]. split; [exact Hvol|].
    assert (Hm' : marshal (daemon [line_id]) volumes_call =
                  Return (<["volume" := str_list ["/etc/host:/etc/host:";
                                                  "/tmp/cache:/var/cache/libdnf5:rw,z"]]>
                            (initial_params (daemon [line_id]) volumes_call)))
      by reflexivity.
    rewrite Hm' in Hm. injection Hm as <-.
    apply (Hsent [] NoPath None). reflexivity.
Defined.

(** The same call, evaluated; and one with a ['mode'] that is a string. *)
Example volume_without_bind :
  build (daemon [])
        (call None None (Some "https://example.org/context.tar") None Omitted None
              (Some [("/etc/host", {| vt_bind := Some "/etc/host"; vt_mode := Some (ModeList []) |});
                     ("/srv/cache", {| vt_bind := None; vt_mode := Some (ModeList ["rw"]) |})])) =
  ([], Raise (ValueError "volume /srv/cache 'bind' value not defined")).
Proof. by_evaluation. Qed.

Example volume_with_scalar_mode :
  build (daemon [])
        (call None None (Some "https://example.org/context.tar") None Omitted None
              (Some [("/etc/host", {| vt_bind := Some "/etc/host"; vt_mode := Some (ModeStr "ro") |})])) =
  ([], Raise (ValueError "volume /etc/host 'mode' value should be a list")).
Proof. by_evaluation. Qed.

Example volumes_flattened :
  (fun params => params !! "volume") <$>
  posted (trace (build (daemon [line_id])
        (call None None (Some "https://example.org/context.tar") None Omitted None
              (Some [("/etc/host", {| vt_bind := Some "/etc/host"; vt_mode := Some (ModeList []) |});
                     ("/tmp/cache", {| vt_bind := Some "/var/cache/libdnf5";
                                       vt_mode := Some (ModeList ["rw"; "z"]) |})])))) =
  [Some (VList [VStr "/etc/host:/etc/host:"; VStr "/tmp/cache:/var/cache/libdnf5:rw,z"])].
Proof. by_evaluation. Qed.

(** ** Which keys the mapping has *)

Section Keys.
Context {Image : Type} (W : collaborators Image).

Lemma scalar_keys_distinct a : NoDup (scalar_options W a).*1.
Proof.
  cbn.
  repeat (apply NoDup_cons_2;
          [rewrite ?not_elem_of_cons; repeat split; try discriminate;
           apply not_elem_of_nil|]).
  apply NoDup_nil_2.
Qed.

Lemma initial_params_scalar a k v :
  (k, v) ∈ scalar_options W a -> initial_params W a !! k = Some v.
Proof. apply elem_of_list_to_map_1, scalar_keys_distinct. Qed.

Lemma initial_params_conditional a k :
  k ∈ conditional_keys -> initial_params W a !! k = None.
Proof.
  intros Hk. apply not_elem_of_list_to_map_1. cbn.
  unfold conditional_keys, limit_keys in Hk. cbn in Hk.
  rewrite !elem_of_cons in Hk. rewrite !not_elem_of_cons.
  repeat (destruct Hk as [->|Hk];
          [repeat split; try discriminate; apply not_elem_of_nil|]).
  apply elem_of_nil in Hk. contradiction.
Qed.

Lemma scalar_key_unconditional a k v :
  (k, v) ∈ scalar_options W a -> k ∉ conditional_keys.
Proof.
  intros Hk. apply (list_elem_of_fmap_2 fst) in Hk. cbn in Hk.
  unfold conditional_keys, limit_keys. cbn.
  rewrite !elem_of_cons in Hk. rewrite !not_elem_of_cons.
  repeat (destruct Hk as [->|Hk];
          [repeat split; try discriminate; apply not_elem_of_nil|]).
  apply elem_of_nil in Hk. contradiction.
Qed.

Lemma marshal_unconditional a p0 k :
  marshal W a = Return p0 -> k ∉ conditional_keys ->
  p0 !! k = initial_params W a !! k.
Proof.
  unfold marshal. intros Hm Hk.
  unfold conditional_keys, limit_keys in Hk. cbn [app] in Hk.
  rewrite !not_elem_of_cons in Hk.
  destruct Hk as (Hb & Hc & H1 & H2 & H3 & H4 & H5 & H6 & He & Hl & Hv & _).
  rewrite (volume_params_lookup_ne _ _ _ k Hm Hv).
  rewrite !dump_dict_lookup_ne by assumption.
  rewrite limit_params_lookup_ne
    by (unfold limit_keys; rewrite !not_elem_of_cons; repeat split;
        try assumption; apply not_elem_of_nil).
  rewrite dump_list_lookup_ne, dump_dict_lookup_ne by assumption.
  reflexivity.
Qed.

Lemma marshal_scalar a p0 k v :
  marshal W a = Return p0 -> (k, v) ∈ scalar_options W a -> p0 !! k = Some v.
Proof.
  intros Hm Hk.
  rewrite (marshal_unconditional a p0 k Hm (scalar_key_unconditional a k v Hk)).
  apply initial_params_scalar, Hk.
Qed.

Lemma marshal_buildargs a p0 :
  marshal W a = Return p0 ->
  p0 !! "buildargs" =
  if dict_given (buildargs a)
  then (fun d => VStr (json_dumps W (str_dict d))) <$> buildargs a else None.
Proof.
  unfold marshal. intros Hm.
  rewrite (volume_params_lookup_ne _ _ _ "buildargs" Hm) by discriminate.
  rewrite !dump_dict_lookup_ne by discriminate.
  rewrite limit_params_lookup_ne
    by (unfold limit_keys; rewrite !not_elem_of_cons; repeat split;
        try discriminate; apply not_elem_of_nil).
  rewrite dump_list_lookup_ne by discriminate.
  apply dump_dict_lookup_eq, initial_params_conditional.
  unfold conditional_keys. cbn. rewrite !elem_of_cons. auto.
Qed.

Lemma marshal_cachefrom a p0 :
  marshal W a = Return p0 ->
  p0 !! "cachefrom" =
  if list_given (cache_from a)
  then (fun l => VStr (json_dumps W (str_list l))) <$> cache_from a else None.
Proof.
  unfold marshal. intros Hm.
  rewrite (volume_params_lookup_ne _ _ _ "cachefrom" Hm) by discriminate.
  rewrite !dump_dict_lookup_ne by discriminate.
  rewrite limit_params_lookup_ne
    by (unfold limit_keys; rewrite !not_elem_of_cons; repeat split;
        try discriminate; apply not_elem_of_nil).
  apply dump_list_lookup_eq. rewrite dump_dict_lookup_ne by discriminate.
  apply initial_params_conditional.
  unfold conditional_keys. cbn. rewrite !elem_of_cons. auto.
Qed.

Lemma marshal_limit a p0 k :
  marshal W a = Return p0 -> k ∈ limit_keys ->
  p0 !! k =
  if dict_given (container_limits a)
  then (fun l => limit_get l k) <$> container_limits a else None.
Proof.
  unfold marshal. intros Hm Hk.
  assert (Hne : k <> "buildargs" /\ k <> "cachefrom" /\ k <> "extrahosts" /\
                k <> "labels" /\ k <> "volume").
  { unfold limit_keys in Hk. rewrite !elem_of_cons in Hk.
    repeat (destruct Hk as [->|Hk]; [repeat split; discriminate|]).
    apply elem_of_nil in Hk. contradiction. }
  destruct Hne as (Hb & Hc & He & Hl & Hv).
  rewrite (volume_params_lookup_ne _ _ _ k Hm Hv).
  rewrite !dump_dict_lookup_ne by assumption.
  apply limit_params_lookup_eq; [exact Hk|].
  rewrite dump_list_lookup_ne, dump_dict_lookup_ne by assumption.
  apply initial_params_conditional.
  unfold conditional_keys. rewrite !elem_of_app. auto.
Qed.

Lemma marshal_extrahosts a p0 :
  marshal W a = Return p0 ->
  p0 !! "extrahosts" =
  if dict_given (extra_hosts a)
  then (fun d => VStr (json_dumps W (str_dict d))) <$> extra_hosts a else None.
Proof.
  unfold marshal. intros Hm.
  rewrite (volume_params_lookup_ne _ _ _ "extrahosts" Hm) by discriminate.
  rewrite dump_dict_lookup_ne by discriminate.
  apply dump_dict_lookup_eq.
  rewrite limit_params_lookup_ne
    by (unfold limit_keys; rewrite !not_elem_of_cons; repeat split;
        try discriminate; apply not_elem_of_nil).
  rewrite dump_list_lookup_ne, dump_dict_lookup_ne by discriminate.
  apply initial_params_conditional.
  unfold conditional_keys. cbn. rewrite !elem_of_cons. auto 20.
Qed.

Lemma marshal_labels a p0 :
  marshal W a = Return p0 ->
  p0 !! "labels" =
  if dict_given (labels a)
  then (fun d => VStr (json_dumps W (str_dict d))) <$> labels a else None.
Proof.
  unfold marshal. intros Hm.
  rewrite (volume_params_lookup_ne _ _ _ "labels" Hm) by discriminate.
  apply dump_dict_lookup_eq.
  rewrite dump_dict_lookup_ne by discriminate.
  rewrite limit_params_lookup_ne
    by (unfold limit_keys; rewrite !not_elem_of_cons; repeat split;
        try discriminate; apply not_elem_of_nil).
  rewrite dump_list_lookup_ne, dump_dict_lookup_ne by discriminate.
  apply initial_params_conditional.
  unfold conditional_keys. cbn. rewrite !elem_of_cons. auto 20.
Qed.

Lemma marshal_volume_key a p0 :
  marshal W a = Return p0 ->
  is_Some (p0 !! "volume") <-> list_given (volumes a) = true.
Proof.
  unfold marshal, volume_params. intros Hm.
  set (p := dump_dict W "labels" _ _) in Hm.
  assert (Hp : p !! "volume" = None).
  { unfold p. rewrite !dump_dict_lookup_ne by discriminate.
    rewrite limit_params_lookup_ne
      by (unfold limit_keys; rewrite !not_elem_of_cons; repeat split;
          try discriminate; apply not_elem_of_nil).
    rewrite dump_list_lookup_ne, dump_dict_lookup_ne by discriminate.
    apply initial_params_conditional.
    unfold conditional_keys. cbn. rewrite !elem_of_cons. auto 20. }
  unfold list_given. destruct (volumes a) as [[|item items]|].
  - injection Hm as <-. rewrite Hp. split; [intros [? ?]|]; discriminate.
  - destruct (volume_loop (item :: items) []) as [entries|e]; [|discriminate].
    cbn [obind] in Hm. injection Hm as <-. rewrite lookup_insert_eq.
    split; [reflexivity | eauto].
  - injection Hm as <-. rewrite Hp. split; [intros [? ?]|]; discriminate.
Qed.

End Keys.

(** C5, as amended.  In the mapping that is sent, the keys of the
    structured options ([buildargs], [cachefrom], [extrahosts],
    [labels], [volume]) are there exactly when the option is given and
    not empty, and the six limit keys exactly when a non-empty
    [container_limits] is given.  Every scalar option is a key of the
    mapping whether it is set or not: an unset one ([tag], [target],
    [platform], ...) is there with the value [None], and so is a limit
    that a given, non-empty [container_limits] does not have. *)
Theorem unset_options_are_sent_as_none {Image} (W : collaborators Image) a params :
  In params (posted (trace (build W a))) ->
  (forall k v, (k, v) ∈ scalar_options W a -> k <> "dockerfile" ->
               params !! k = Some v) /\
  is_Some (params !! "dockerfile") /\
  (tag a = None -> params !! "t" = Some VNone) /\
  (target a = None -> params !! "target" = Some VNone) /\
  (platform a = None -> params !! "platform" = Some VNone) /\
  (forall k, k ∈ limit_keys ->
             params !! k =
             if dict_given (container_limits a)
             then (fun l => limit_get l k) <$> container_limits a else None) /\
  (forall k limits,
      k ∈ limit_keys -> container_limits a = Some limits ->
      dict_truthy limits = true -> limits !! k = None ->
      params !! k = Some VNone) /\
  (is_Some (params !! "buildargs") <-> dict_given (buildargs a) = true) /\
  (is_Some (params !! "cachefrom") <-> list_given (cache_from a) = true) /\
  (is_Some (params !! "extrahosts") <-> dict_given (extra_hosts a) = true) /\
  (is_Some (params !! "labels") <-> dict_given (labels a) = true) /\
  (is_Some (params !! "volume") <-> list_given (volumes a) = true).
Proof.
  intros Hin.
  destruct (posted_params W a params Hin) as (p0 & Hm & Hparams).
  assert (Hother : forall k, k <> "dockerfile" -> params !! k = p0 !! k).
  { intros k Hk. destruct Hparams as [->|(name & ->)]; [reflexivity|].
    apply lookup_insert_ne. congruence. }
  assert (Hscalar : forall k v, (k, v) ∈ scalar_options W a -> k <> "dockerfile" ->
                                params !! k = Some v).
  { intros k v Hkv Hk. rewrite (Hother k Hk). exact (marshal_scalar W a p0 k v Hm Hkv). }
  assert (Hlimit : forall k, k ∈ limit_keys ->
             params !! k =
             if dict_given (container_limits a)
             then (fun l => limit_get l k) <$> container_limits a else None).
  { intros k Hk. rewrite Hother.
    - exact (marshal_limit W a p0 k Hm Hk).
    - unfold limit_keys in Hk. rewrite !elem_of_cons in Hk.
      repeat (destruct Hk as [->|Hk]; [discriminate|]).
      apply elem_of_nil in Hk. contradiction. }
  assert (Hopt : forall {A} (o : option A) (f : A -> value) (given : bool),
             is_Some (if given then f <$> o else None) <->
             (given = true /\ is_Some o)).
  { intros A o f [|]; [|split; [intros [? ?]; discriminate | intros [? _]; discriminate]].
    rewrite fmap_is_Some. split; [auto | intros [_ ?]; assumption]. }
  split; [exact Hscalar|]. split.
  { destruct Hparams as [->|(name & ->)].
    - rewrite (marshal_scalar W a p0 "dockerfile"
                 (opt_value VStr (dockerfile_of W a)) Hm); [eauto|].
      unfold scalar_options. apply elem_of_cons. left. reflexivity.
    - rewrite lookup_insert_eq. eauto. }
  split.
  { intros Htag. rewrite (Hscalar "t" (opt_value VStr (tag a))); [|
      unfold scalar_options; rewrite !elem_of_cons; auto 20 | discriminate].
    rewrite Htag. reflexivity. }
  split.
  { intros Htarget. rewrite (Hscalar "target" (opt_value VStr (target a))); [|
      unfold scalar_options; rewrite !elem_of_cons; auto 20 | discriminate].
    rewrite Htarget. reflexivity. }
  split.
  { intros Hplatform. rewrite (Hscalar "platform" (opt_value VStr (platform a))); [|
      unfold scalar_options; rewrite !elem_of_cons; auto 20 | discriminate].
    rewrite Hplatform. reflexivity. }
  split; [exact Hlimit|]. split.
  { intros k limits Hk Hlimits Htruthy Hnone. rewrite (Hlimit k Hk), Hlimits.
    cbn. rewrite Htruthy. unfold limit_get. rewrite Hnone. reflexivity. }
  split.
  { rewrite Hother by discriminate. rewrite (marshal_buildargs W a p0 Hm), Hopt.
    unfold dict_given. destruct (buildargs a); [|split; [intros [? [? ?]]|]; discriminate].
    split; [tauto | eauto]. }
  split.
  { rewrite Hother by discriminate. rewrite (marshal_cachefrom W a p0 Hm), Hopt.
    unfold list_given. destruct (cache_from a); [|split; [intros [? [? ?]]|]; discriminate].
    split; [tauto | eauto]. }
  split.
  { rewrite Hother by discriminate. rewrite (marshal_extrahosts W a p0 Hm), Hopt.
    unfold dict_given. destruct (extra_hosts a); [|split; [intros [? [? ?]]|]; discriminate].
    split; [tauto | eauto]. }
  split.
  { rewrite Hother by discriminate. rewrite (marshal_labels W a p0 Hm), Hopt.
    unfold dict_given. destruct (labels a); [|split; [intros [? [? ?]]|]; discriminate].
    split; [tauto | eauto]. }
  rewrite Hother by discriminate. exact (marshal_volume_key W a p0 Hm).
Qed.

Lemma unset_options_are_sent_as_none_witness :
  let W := daemon [line_id] in
  let params := limit_params (container_limits limits_call) (initial_params W limits_call) in
  In params (posted (trace (build W limits_call))) /\
  params !! "t" = Some VNone /\
  params !! "cpuperiod" = Some VNone /\
  params !! "memory" = Some (VInt 1024) /\
  ~ is_Some (params !! "buildargs").
Proof.
  intros W params.
  assert (Hin : In params (posted (trace (build W limits_call)))) by (left; reflexivity).
  destruct (unset_options_are_sent_as_none W limits_call params Hin)
    as (_ & _ & Htag & _ & _ & Hlimit & Habsent & Hbuildargs & _).
  split; [exact Hin|]. split; [exact (Htag eq_refl)|]. split; [|split].
  - apply (Habsent "cpuperiod" {[ "memory" := VInt 1024 ]}).
    + unfold limit_keys. apply elem_of_cons. left. reflexivity.
    + reflexivity.
    + reflexivity.
    + reflexivity.
  - rewrite Hlimit.
    + reflexivity.
    + unfold limit_keys. rewrite !elem_of_cons. auto 10.
  - intros H. apply Hbuildargs in H. discriminate.
Defined.

(** The claim as first stated fails: with no [tag] the key [t] is sent
    with the value [None], and with only [memory] among the limits the
    key [cpuperiod] is sent with the value [None]. *)
Lemma null_valued_parameters_are_sent :
  let W := daemon [line_id] in
  let params := limit_params (container_limits limits_call) (initial_params W limits_call) in
  posted (trace (build W limits_call)) = [params] /\
  tag limits_call = None /\
  params !! "t" = Some VNone /\
  container_limits limits_call = Some {[ "memory" := VInt 1024 ]} /\
  params !! "cpuperiod" = Some VNone /\
  ~ (forall sent k, In sent (posted (trace (build W limits_call))) ->
                    sent !! k <> Some VNone).
Proof.
  intros W params.
  assert (Hsent : posted (trace (build W limits_call)) = [params]) by reflexivity.
  assert (Ht : params !! "t" = Some VNone) by by_evaluation.
  split; [exact Hsent|]. split; [reflexivity|]. split; [exact Ht|].
  split; [reflexivity|]. split; [by_evaluation|].
  intros H. apply (H params "t"); [rewrite Hsent; left; reflexivity | exact Ht].
Qed.

(** ** The build-event interpreter *)

Lemma scan_plain {Image} (W : collaborators Image) lines :
  Forall (plain_event W) lines ->
  scan W lines =
  Return ({| image_id := last_announced W lines None; unknown := last lines |},
          {| tee_source := []; tee_buffered := lines |}).
Proof.
  intros H. unfold scan, itertools_tee. cbn [tee_source tee_buffered].
  rewrite for_line_in_stream_plain by assumption.
  cbn [image_id unknown app]. destruct (last lines); reflexivity.
Qed.

Lemma announces_stream_text {Image} (W : collaborators Image) line text :
  stream_text W line = Some text -> announces W line = marker_match text.
Proof. intros H. unfold announces. rewrite H. reflexivity. Qed.

(** C1, as amended.  The pattern accepts a text exactly when it is a
    non-empty run of lower-case hexadecimal digits followed by a
    newline, or by two newlines; the group is the run of digits.  In a
    stream of plain events the digits of the last line whose [stream]
    text is accepted are the identifier, the only one handed to the
    image lookup, and the build returns what the lookup returns together
    with the replay view of all the lines. *)
Theorem last_marker_names_the_image {Image} (W : collaborators Image)
        a before pre line post text id :
  answered W a before (pre ++ line :: post) ->
  Forall (plain_event W) (pre ++ line :: post) ->
  stream_text W line = Some text ->
  marker_match text = Some id ->
  Forall (fun l => announces W l = None) post ->
  (forall text' id',
      marker_match text' = Some id' <->
      id' <> "" /\ all_chars lower_hex id' = true /\
      (text' = id' +:+ nl \/ text' = id' +:+ nl +:+ nl)) /\
  lookups (trace (build W a)) = [id] /\
  result (build W a) =
  (image <~ of_ext (get W id) ;;
   Return (image, {| tee_source := []; tee_buffered := pre ++ line :: post |})).
Proof.
  intros Hans Hplain Htext Hmatch Hpost.
  split; [exact marker_match_spec|].
  rewrite (build_answered_lookups W a before _ Hans).
  rewrite (build_answered_result W a before _ Hans).
  assert (Hid : last_announced W (pre ++ line :: post) None = Some id).
  { rewrite last_announced_app. cbn [last_announced].
    rewrite (announces_stream_text W line text Htext), Hmatch.
    apply last_announced_silent. exact Hpost. }
  destruct id as [|c s]; [apply marker_match_spec in Hmatch as (Hne & _); congruence|].
  rewrite (interpret_found W _ _ _ c s (scan_plain W _ Hplain)) by exact Hid.
  split; reflexivity.
Qed.

(** C2.  When the line at some position carries an [error] field and the
    scan gets there, the build raises a build failure with that message;
    the lines after it are still in the response, not pulled; and the
    replay view attached to the failure yields every line of the stream
    in order. *)
Theorem first_error_event_raises {Image} (W : collaborators Image)
        a before pre line post msg :
  answered W a before (pre ++ line :: post) ->
  Forall (scans_past W) pre ->
  error_event W line msg ->
  let log := {| tee_source := post; tee_buffered := pre ++ [line] |} in
  result (build W a) = Raise (BuildError msg log) /\
  drain log = pre ++ line :: post /\
  lookups (trace (build W a)) = [].
Proof.
  intros Hans Hpre Herr log.
  rewrite (build_answered_lookups W a before _ Hans).
  rewrite (build_answered_result W a before _ Hans).
  assert (Hscan : scan W (pre ++ line :: post) = Raise (BuildError msg log)).
  { unfold scan, itertools_tee. cbn [tee_source tee_buffered].
    destruct (for_line_in_stream_app W pre (line :: post) []
                {| image_id := None; unknown := None |} Hpre) as (vars' & -> & _).
    cbn [for_line_in_stream app].
    rewrite (loop_body_error W _ line vars' msg Herr). reflexivity. }
  rewrite (interpret_raise W _ _ Hscan).
  repeat split. unfold drain, log. cbn. rewrite <- app_assoc. reflexivity.
Qed.

(** C6.  A stream of plain events none of which announces an identifier
    ends in a build failure: its message is the last line, or "Unknown"
    for a stream of no lines, and its log replays the whole stream.
    The first hypothesis is a fact of [json.loads]: it rejects the empty
    input. *)
Theorem stream_without_marker_fails {Image} (W : collaborators Image)
        a before lines e0 :
  json_loads W "" = inl e0 ->
  answered W a before lines ->
  Forall (plain_event W) lines ->
  Forall (fun l => announces W l = None) lines ->
  let log := {| tee_source := []; tee_buffered := lines |} in
  result (build W a) =
  Raise (BuildError match last lines with
                    | Some l => VBytes l
                    | None => VStr "Unknown"
                    end log) /\
  drain log = lines /\
  lookups (trace (build W a)) = [].
Proof.
  intros Hempty Hans Hplain Hsilent log.
  rewrite (build_answered_lookups W a before _ Hans).
  rewrite (build_answered_result W a before _ Hans).
  rewrite (interpret_missing W _ _ _ (scan_plain W _ Hplain))
    by (cbn [image_id]; apply last_announced_silent; exact Hsilent).
  cbn [unknown trace result fst snd lookups omap].
  assert (Hmsg : fallback_message (last lines) =
                 match last lines with Some l => VBytes l | None => VStr "Unknown" end).
  { destruct (last lines) as [l|] eqn:Hlast; [|reflexivity].
    destruct l as [|c s]; [|reflexivity].
    exfalso. apply last_Some in Hlast as (front & ->).
    apply Forall_app in Hplain as [_ Hl].
    apply Forall_cons in Hl as [(d & Hd & _) _]. congruence. }
  rewrite Hmsg. repeat split. unfold drain, log. cbn. apply app_nil_r.
Qed.

(** C10.  When [json.loads] rejects the line at some position and the
    scan gets there, the build raises the decoder's own exception: it is
    not a build failure and carries no log; the image lookup is not
    called. *)
Theorem undecodable_line_propagates {Image} (W : collaborators Image)
        a before pre bad post e :
  answered W a before (pre ++ bad :: post) ->
  Forall (scans_past W) pre ->
  json_loads W bad = inl e ->
  result (build W a) = Raise (Ext e) /\
  (forall msg log, result (build W a) <> Raise (BuildError msg log)) /\
  lookups (trace (build W a)) = [].
Proof.
  intros Hans Hpre Hbad.
  rewrite (build_answered_lookups W a before _ Hans).
  rewrite (build_answered_result W a before _ Hans).
  assert (Hscan : scan W (pre ++ bad :: post) = Raise (Ext e)).
  { unfold scan, itertools_tee. cbn [tee_source tee_buffered].
    destruct (for_line_in_stream_app W pre (bad :: post) []
                {| image_id := None; unknown := None |} Hpre) as (vars' & -> & _).
    cbn [for_line_in_stream app].
    rewrite (loop_body_undecodable W _ bad vars' e Hbad). reflexivity. }
  rewrite (interpret_raise W _ _ Hscan).
  repeat split. intros msg log. discriminate.
Qed.

(** *** The interpreter on sample streams *)

(** A sample line is a plain event: name the object it decodes to. *)
Ltac plain_by_table :=
  lazymatch goal with
  | |- plain_event _ _ =>
      eexists; split; [by_evaluation|];
      split; [by_evaluation|];
      first [ left; by_evaluation | right; eexists; by_evaluation ]
  end.

Ltac scans_past_by_table :=
  lazymatch goal with
  | |- scans_past _ _ => apply plain_event_scans_past; plain_by_table
  end.

(** The sample request is sent and answered with the daemon's lines:
    name the mapping it sends and the response it gets. *)
Ltac answered_by_evaluation :=
  lazymatch goal with
  | |- answered ?W ?a _ ?lines =>
      exists NoPath, None, (initial_params W a),
             {| status_code := 200; iter_lines := lines |};
      split; [reflexivity|];
      split; [reflexivity|];
      split; reflexivity
  end.

Lemma last_marker_names_the_image_witness :
  lookups (trace (build (daemon [line_step; line_id]) remote_call)) = ["deadbeef12"] /\
  result (build (daemon [line_step; line_id]) remote_call) =
  Return ("deadbeef12", {| tee_source := []; tee_buffered := [line_step; line_id] |}).
Proof.
  refine (proj2 (last_marker_names_the_image
                   (daemon [line_step; line_id]) remote_call []
                   [line_step] line_id [] ("deadbeef12" +:+ nl) "deadbeef12"
                   _ _ _ _ _)).
  - answered_by_evaluation.
  - repeat constructor; plain_by_table.
  - by_evaluation.
  - by_evaluation.
  - constructor.
Defined.

(** The claim as first stated fails: a text of digits followed by two
    newlines is accepted although it is not a run of digits followed by
    a single newline, and its digits are looked up. *)
Lemma marker_accepts_second_newline :
  marker_match ("abc" +:+ nl +:+ nl) = Some "abc" /\
  ~ hex_line ("abc" +:+ nl +:+ nl) /\
  ~ (forall text, is_Some (marker_match text) <-> hex_line text) /\
  stream_text (daemon [line_id2]) line_id2 = Some ("abc" +:+ nl +:+ nl) /\
  lookups (trace (build (daemon [line_id2]) remote_call)) = ["abc"].
Proof.
  assert (Hno : ~ hex_line ("abc" +:+ nl +:+ nl)).
  { intros (id & Hne & Hhex & Heq).
    pose proof (span_unique lower_hex id nl Hhex lower_hex_LF) as Hspan.
    rewrite <- Heq in Hspan. vm_compute in Hspan. discriminate. }
  split; [by_evaluation|]. split; [exact Hno|]. split.
  - intros H. apply Hno, H. vm_compute. eauto.
  - split; by_evaluation.
Qed.

Lemma first_error_event_raises_witness :
  result (build (daemon [line_step; line_error; line_id]) remote_call) =
  Raise (BuildError (VStr "no such file")
                    {| tee_source := [line_id];
                       tee_buffered := [line_step; line_error] |}) /\
  drain {| tee_source := [line_id]; tee_buffered := [line_step; line_error] |} =
  [line_step; line_error; line_id] /\
  lookups (trace (build (daemon [line_step; line_error; line_id]) remote_call)) = [].
Proof.
  refine (first_error_event_raises
            (daemon [line_step; line_error; line_id]) remote_call []
            [line_step] line_error [line_id] (VStr "no such file") _ _ _).
  - answered_by_evaluation.
  - repeat constructor; scans_past_by_table.
  - eexists; split; by_evaluation.
Defined.

Lemma stream_without_marker_fails_witness :
  result (build (daemon [line_step]) remote_call) =
  Raise (BuildError (VBytes line_step)
                    {| tee_source := []; tee_buffered := [line_step] |}) /\
  drain {| tee_source := []; tee_buffered := [line_step] |} = [line_step] /\
  lookups (trace (build (daemon [line_step]) remote_call)) = [].
Proof.
  refine (stream_without_marker_fails
            (daemon [line_step]) remote_call [] [line_step]
            (JSONDecodeError "Expecting value") _ _ _ _).
  - reflexivity.
  - answered_by_evaluation.
  - repeat constructor; plain_by_table.
  - repeat constructor.
Defined.

(** The stream of no lines: "Unknown", and an empty log. *)
Example empty_stream_fails :
  result (build (daemon []) remote_call) =
  Raise (BuildError (VStr "Unknown") {| tee_source := []; tee_buffered := [] |}) /\
  drain {| tee_source := []; tee_buffered := [] |} = [].
Proof. split; by_evaluation. Qed.

Lemma undecodable_line_propagates_witness :
  result (build (daemon [line_step; line_broken; line_id]) remote_call) =
  Raise (Ext (JSONDecodeError "Expecting value")) /\
  (forall msg log,
      result (build (daemon [line_step; line_broken; line_id]) remote_call) <>
      Raise (BuildError msg log)) /\
  lookups (trace (build (daemon [line_step; line_broken; line_id]) remote_call)) = [].
Proof.
  refine (undecodable_line_propagates
            (daemon [line_step; line_broken; line_id]) remote_call []
            [line_step] line_broken [line_id] _ _ _ _).
  - answered_by_evaluation.
  - repeat constructor; scans_past_by_table.
  - reflexivity.
Defined.

(** ** Release of the body and of the temporary directory *)

Section Release.
Context {Image : Type} (W : collaborators Image).

Lemma releases_app t1 t2 : releases (t1 ++ t2) = releases t1 ++ releases t2.
Proof. unfold releases. apply filter_app. Qed.

Lemma package_context_releases_nothing a params :
  releases (trace (package_context W a params)) = [].
Proof.
  unfold package_context.
  destruct (bool_decide (custom_context a = Some true)).
  - destruct (fileobj a) as [f|]; [|reflexivity].
    destruct (dockerfile_of W a); [|reflexivity].
    destruct f; reflexivity.
  - destruct (fileobj a) as [f|].
    + destruct (dockerfile_of W a); [|reflexivity]. cbn.
      destruct (copy_to_file W f _); [reflexivity|]. cbn.
      destruct (create_tar W _ _ _); reflexivity.
    + destruct (path a) as [p|].
      * destruct (dockerfile_of W a); [|reflexivity]. cbn.
        destruct (prepare_containerfile W p _); [reflexivity|]. cbn.
        destruct (prepare_containerignore W p); [reflexivity|]. cbn.
        destruct (create_tar W _ _ _); reflexivity.
      * destruct (remote a) as [[|c s]|]; reflexivity.
Qed.

Lemma prepare_releases_nothing a : releases (trace (prepare W a)) = [].
Proof.
  unfold prepare.
  destruct (_ && _ && _); [reflexivity|].
  destruct (_ && _); [reflexivity|].
  destruct (marshal W a) as [params|e]; [|reflexivity].
  rewrite bind_lift_return, trace_then_check. apply package_context_releases_nothing.
Qed.

Lemma releases_released data pathv : releases (released data pathv) = released data pathv.
Proof. destruct data, pathv; reflexivity. Qed.

Lemma interpret_releases_nothing lines : releases (trace (interpret W lines)) = [].
Proof.
  unfold interpret. destruct (scan W lines) as [[vars t]|e]; [|reflexivity].
  rewrite bind_lift_return.
  destruct (image_id vars) as [[|c s]|]; try reflexivity.
  rewrite bind_emit. cbn [trace fst].
  destruct (get W (String c s)); reflexivity.
Qed.

(** When the request returns a response, whatever its status and
    whatever the lines say, the body has been closed and the temporary
    directory removed by the time [build] returns or raises. *)
Lemma response_releases a before pathv data params rsp :
  prepare W a = (before, Return (pathv, Bound data, params)) ->
  client_post W params data (post_timeout a) = inr rsp ->
  releases (trace (build W a)) = released data pathv.
Proof.
  intros Hprep Hpost.
  pose proof (prepare_releases_nothing a) as Hbefore. rewrite Hprep in Hbefore.
  unfold build. rewrite Hprep, bind_step. cbv beta iota. cbn [trace fst] in *.
  rewrite releases_app, Hbefore. cbn [app].
  rewrite trace_bind.
  destruct (raise_for_status W rsp) as [e|] eqn:Hstatus.
  - assert (Hsub : submit W params (Bound data) pathv (post_timeout a) =
                   (Posted params data (post_timeout a) :: released data pathv,
                    Raise (Ext e))).
    { unfold submit. rewrite bind_ret_l, bind_emit, Hpost. cbn [of_ext].
      rewrite bind_lift_return, Hstatus. destruct data, pathv; reflexivity. }
    rewrite Hsub. cbn [trace result fst snd]. rewrite app_nil_r.
    change (releases (?ev :: ?t)) with (releases ([ev] ++ t)).
    rewrite releases_app, releases_released. reflexivity.
  - rewrite (submit_answered W _ _ _ _ _ Hpost Hstatus). cbn [trace result fst snd].
    change (releases ((?ev :: ?t) ++ ?u)) with (releases ([ev] ++ t ++ u)).
    rewrite !releases_app, releases_released, interpret_releases_nothing.
    cbn. apply app_nil_r.
Qed.

(** When the request itself raises, [build] raises with it and releases
    nothing. *)
Lemma transport_error_releases_nothing a before pathv data params e :
  prepare W a = (before, Return (pathv, Bound data, params)) ->
  client_post W params data (post_timeout a) = inl e ->
  build W a = (before ++ [Posted params data (post_timeout a)], Raise (Ext e)) /\
  releases (trace (build W a)) = [].
Proof.
  intros Hprep Hpost.
  pose proof (prepare_releases_nothing a) as Hbefore. rewrite Hprep in Hbefore.
  assert (Hb : build W a =
               (before ++ [Posted params data (post_timeout a)], Raise (Ext e))).
  { unfold build. rewrite Hprep, bind_step. cbv beta iota.
    rewrite (submit_refused W _ _ _ _ _ Hpost). reflexivity. }
  split; [exact Hb|]. rewrite Hb. cbn [trace fst] in *.
  rewrite releases_app, Hbefore. reflexivity.
Qed.

End Release.

(** C3, on the input where it fails.  The loose build file is staged in
    a temporary directory and archived; the request raises a transport
    error; [build] raises it on, and neither [body.close()] nor
    [path.cleanup()] has run.  The second part is the general fact. *)
Theorem transport_error_skips_release :
  (let W := sample_world sample_table (inl (ConnectionError "refused")) in
   let a := call None (Some (StringIO "FROM scratch")) None None Omitted None None in
   build W a =
   ([TempDirCreated "/tmp/tmpq1";
     FileStaged "/tmp/tmpq1/.containerfile.beef";
     TarCreated "/tmp/tmpq1";
     Posted (initial_params W a) (Some "tar of /tmp/tmpq1") None],
    Raise (Ext (ConnectionError "refused"))) /\
   tempdirs (trace (build W a)) = ["/tmp/tmpq1"] /\
   releases (trace (build W a)) = []) /\
  (forall Image (W : collaborators Image) a before pathv data params e,
      prepare W a = (before, Return (pathv, Bound data, params)) ->
      client_post W params data (post_timeout a) = inl e ->
      result (build W a) = Raise (Ext e) /\ releases (trace (build W a)) = []).
Proof.
  split.
  - intros W a. split; [reflexivity|]. split; reflexivity.
  - intros Image W a before pathv data params e Hprep Hpost.
    destruct (transport_error_releases_nothing W a before pathv data params e Hprep Hpost)
      as [Hb Hr].
    split; [rewrite Hb; reflexivity | exact Hr].
Qed.

(** The same call when the daemon answers 500, and when the build
    fails: both are released. *)
Example daemon_error_releases :
  let W := sample_world sample_table (inr {| status_code := 500; iter_lines := [] |}) in
  let a := call None (Some (StringIO "FROM scratch")) None None Omitted None None in
  result (build W a) = Raise (Ext (APIError 500)) /\
  releases (trace (build W a)) = [BodyClosed; TempDirCleaned "/tmp/tmpq1"].
Proof. split; reflexivity. Qed.

Example build_failure_releases :
  let W := daemon [line_error] in
  let a := call None (Some (StringIO "FROM scratch")) None None Omitted None None in
  result (build W a) =
  Raise (BuildError (VStr "no such file")
                    {| tee_source := []; tee_buffered := [line_error] |}) /\
  releases (trace (build W a)) = [BodyClosed; TempDirCleaned "/tmp/tmpq1"].
Proof. split; by_evaluation. Qed.

(** ** Custom context *)

Section Custom.
Context {Image : Type} (W : collaborators Image).

Lemma volume_loop_raises vs acc e :
  volume_loop vs acc = Raise e -> exists msg, e = ValueError msg.
Proof.
  revert acc. induction vs as [|[hostdir tgt] vs IH]; intros acc; [discriminate|].
  cbn [volume_loop].
  destruct (vt_bind tgt); [|intros [= <-]; eauto].
  destruct (default (ModeList []) (vt_mode tgt)); [intros [= <-]; eauto|].
  apply IH.
Qed.

Lemma marshal_raises a e : marshal W a = Raise e -> exists msg, e = ValueError msg.
Proof.
  unfold marshal, volume_params.
  destruct (volumes a) as [[|item items]|]; try discriminate.
  destruct (volume_loop (item :: items) []) as [entries|e'] eqn:Hloop; [discriminate|].
  cbn [obind]. intros [= <-]. exact (volume_loop_raises _ _ _ Hloop).
Qed.

(** Line 203 fires when [dockerfile=None] is passed: the build stops
    with an error of caller input and nothing has been done. *)
Lemma custom_context_without_name a :
  custom_context a = Some true -> dockerfile a = Passed None ->
  exists e, build W a = ([], Raise e) /\ is_caller_error e = true.
Proof.
  intros Hcustom Hname.
  assert (Hprep : exists e, prepare W a = ([], Raise e) /\ is_caller_error e = true).
  { unfold prepare.
    destruct (_ && _ && _); [eexists; split; reflexivity|].
    destruct (_ && _); [eexists; split; reflexivity|].
    destruct (marshal W a) as [params|e] eqn:Hm.
    - rewrite bind_lift_return. unfold package_context, dockerfile_of.
      rewrite Hcustom, Hname. cbn.
      destruct (fileobj a); eexists; split; reflexivity.
    - destruct (marshal_raises a e Hm) as [msg ->].
      eexists; split; reflexivity. }
  destruct Hprep as (e & Hprep & He). exists e. split; [|exact He].
  rewrite (build_stops_in_prepare W a e (f_equal snd Hprep)), Hprep. reflexivity.
Qed.

(** It cannot fire when the argument is left out: the default of line
    39 is a name. *)
Lemma omitted_dockerfile_has_a_name a :
  dockerfile a = Omitted -> dockerfile_of W a = Some (default_dockerfile W).
Proof. intros H. unfold dockerfile_of. rewrite H. reflexivity. Qed.

End Custom.

(** C4, on the input where it fails.
    [build(fileobj=io.BytesIO(...), custom_context=True)] gives no
    build-file name, yet no error is raised: the request is sent with
    the default name of line 39 as [dockerfile], and the build goes on
    to the image lookup.  The second part is the general reason: with
    the argument left out, the name tested at line 203 is never
    [None]. *)
Theorem omitted_dockerfile_is_not_rejected :
  (let W := daemon [line_id] in
   let a := call None (Some (BytesIO "context.tar")) None (Some true) Omitted None None in
   custom_context a = Some true /\ dockerfile a = Omitted /\
   build W a =
   ([Posted (initial_params W a) (Some "context.tar") None;
     BodyClosed;
     ImageLookedUp "deadbeef12"],
    Return ("deadbeef12", {| tee_source := []; tee_buffered := [line_id] |})) /\
   initial_params W a !! "dockerfile" = Some (VStr ".containerfile.beef")) /\
  (forall Image (W : collaborators Image) a,
      dockerfile a = Omitted -> dockerfile_of W a <> None).
Proof.
  split.
  - intros W a. split; [reflexivity|]. split; [reflexivity|].
    split; [reflexivity | by_evaluation].
  - intros Image W a H. rewrite (omitted_dockerfile_has_a_name W a H). discriminate.
Qed.

(** The test's other call, [build(custom_context=True, path='invalid')],
    and the call with [dockerfile=None] written out: both are rejected. *)
Example custom_context_needs_fileobj :
  build (daemon [line_id]) (call (Some "invalid") None None (Some true) Omitted None None) =
  ([], Raise (PodmanError "Custom context requires fileobj to be set to a binary file-like object containing a build-directory tarball.")).
Proof. reflexivity. Qed.

Example custom_context_with_none_name :
  build (daemon [line_id])
        (call None (Some (BytesIO "context.tar")) None (Some true) (Passed None) None None) =
  ([], Raise (PodmanError "Custom context requires specifying the name of the Dockerfile (typically 'Dockerfile' or 'Containerfile').")).
Proof. reflexivity. Qed.

(** ** Further properties of [build] *)

Section Preparation.
Context {Image : Type} (W : collaborators Image).

Lemma prepare_packages a p :
  passes_first_checks a -> marshal W a = Return p ->
  prepare W a =
  (packaged <- package_context W a p ;; lift (post_kwargs a) ;;; ret packaged).
Proof.
  intros Hchecks Hm. rewrite (prepare_after_checks W a Hchecks), Hm.
  rewrite bind_lift_return. reflexivity.
Qed.

(** A preparation that fails in the chain of lines 198-227 fails with
    that exception and the effects made so far. *)
Lemma prepare_stops_in_package a p t e :
  passes_first_checks a -> marshal W a = Return p ->
  package_context W a p = (t, Raise e) ->
  prepare W a = (t, Raise e).
Proof.
  intros Hchecks Hm Hpack. rewrite (prepare_packages a p Hchecks Hm).
  apply then_check_stops, Hpack.
Qed.

(** A preparation whose chain returns, and whose timeout converts,
    returns what the chain returned. *)
Lemma prepare_passes_package a p t x :
  passes_first_checks a -> marshal W a = Return p ->
  timeout_converts a ->
  package_context W a p = (t, Return x) ->
  prepare W a = (t, Return x).
Proof.
  intros Hchecks Hm [seconds Hconv] Hpack.
  rewrite (prepare_packages a p Hchecks Hm), Hpack, Hconv.
  cbn. rewrite app_nil_r. reflexivity.
Qed.

Lemma prepare_trace a p :
  passes_first_checks a -> marshal W a = Return p ->
  trace (prepare W a) = trace (package_context W a p).
Proof.
  intros Hchecks Hm. rewrite (prepare_packages a p Hchecks Hm).
  apply trace_then_check.
Qed.

(** The only exception of [float(timeout)]. *)
Lemma post_kwargs_raises a e :
  post_kwargs a = Raise e -> exists msg, e = OverflowError msg.
Proof.
  unfold post_kwargs, float_of_int. destruct (timeout a) as [t|]; [|discriminate].
  destruct (bool_decide (t = 0%Z)); [discriminate|].
  destruct (Z.shiftl 1 1024 <=? _)%Z; cbn; [intros [= <-]; eauto | discriminate].
Qed.

Lemma post_timeout_converted a t :
  post_kwargs a = Return t -> post_timeout a = t.
Proof. intros H. unfold post_timeout. rewrite H. reflexivity. Qed.

Lemma bodies_app t1 t2 : bodies (t1 ++ t2) = bodies t1 ++ bodies t2.
Proof. unfold bodies. apply omap_app. Qed.

Lemma offline_bodies tr : offline tr = true -> bodies tr = [].
Proof.
  induction tr as [|ev tr IH]; [reflexivity|].
  cbn. intros H. apply andb_prop in H as [Hev Htr].
  destruct ev; cbn in *; try discriminate; auto.
Qed.

Lemma tempdirs_app t1 t2 : tempdirs (t1 ++ t2) = tempdirs t1 ++ tempdirs t2.
Proof. unfold tempdirs. apply omap_app. Qed.

Lemma timeouts_app t1 t2 : timeouts (t1 ++ t2) = timeouts t1 ++ timeouts t2.
Proof. unfold timeouts. apply omap_app. Qed.

Lemma interpret_trace lines :
  trace (interpret W lines) = ImageLookedUp <$> lookups (trace (interpret W lines)).
Proof.
  unfold interpret. destruct (scan W lines) as [[vars t]|e]; [|reflexivity].
  rewrite bind_lift_return.
  destruct (image_id vars) as [[|c s]|]; try reflexivity.
  rewrite bind_emit. cbn [trace fst].
  destruct (get W (String c s)); reflexivity.
Qed.

End Preparation.

(** ** More than one context source *)

Section Priority.
Context {Image : Type} (W : collaborators Image).

(** A directory path that is kept in [path] is not a temporary
    directory: nothing is cleaned up for it. *)
Lemma submit_dir_path params body p t :
  submit W params body (DirPath p) t = submit W params body NoPath t.
Proof. reflexivity. Qed.

Lemma volume_params_shape o p p' :
  match volume_params o p, volume_params o p' with
  | Return _, Return _ => True
  | Raise e, Raise e' => e = e'
  | _, _ => False
  end.
Proof.
  unfold volume_params. destruct o as [[|item items]|]; try exact I.
  destruct (volume_loop (item :: items) []); cbn [obind]; [exact I | reflexivity].
Qed.

Lemma marshal_without_remote a :
  match marshal W a, marshal W (without_remote a) with
  | Return _, Return _ => True
  | Raise e, Raise e' => e = e'
  | _, _ => False
  end.
Proof. unfold marshal. apply volume_params_shape. Qed.

Lemma context_of_then_check {B} c c' (o : outcome B) :
  context_of c = context_of c' ->
  context_of (x <- c ;; lift o ;;; ret x) = context_of (x <- c' ;; lift o ;;; ret x).
Proof.
  unfold context_of. rewrite !trace_then_check, !result_then_check.
  intros [= -> Hres]. f_equal.
  destruct (result c) as [[[pathv body] params]|e],
           (result c') as [[[pathv' body'] params']|e'];
    try discriminate; destruct o; cbn; congruence.
Qed.

Lemma package_context_without_remote a p p' :
  is_Some (fileobj a) \/ is_Some (path a) ->
  context_of (package_context W a p) =
  context_of (package_context W (without_remote a) p').
Proof.
  intros Hsrc. unfold package_context, dockerfile_of, gzip_of.
  cbn [custom_context fileobj path dockerfile kwargs remote without_remote].
  destruct (bool_decide (custom_context a = Some true)).
  - destruct (fileobj a) as [f|]; [|reflexivity].
    destruct (bind_default _ (dockerfile a)); [|reflexivity].
    destruct f; reflexivity.
  - destruct (fileobj a) as [f|].
    + destruct (bind_default _ (dockerfile a)); [|reflexivity]. cbn.
      destruct (copy_to_file W f _); [reflexivity|]. cbn.
      destruct (create_tar W _ _ _); reflexivity.
    + destruct (path a) as [dir|].
      * destruct (bind_default _ (dockerfile a)); [|reflexivity]. cbn.
        destruct (prepare_containerfile W dir _); [reflexivity|]. cbn.
        destruct (prepare_containerignore W dir); [reflexivity|]. cbn.
        destruct (create_tar W _ _ _); reflexivity.
      * destruct Hsrc as [[? ?]|[? ?]]; discriminate.
Qed.

Lemma prepare_without_remote a :
  is_Some (fileobj a) \/ is_Some (path a) ->
  context_of (prepare W a) = context_of (prepare W (without_remote a)).
Proof.
  intros Hsrc. unfold prepare.
  cbn [fileobj path kwargs remote without_remote].
  assert (Hfirst : bool_decide (path a = None) && bool_decide (fileobj a = None) = false).
  { destruct Hsrc as [[f Hf]|[p Hp]].
    - rewrite Hf, andb_false_r. reflexivity.
    - rewrite Hp. reflexivity. }
  rewrite Hfirst. clear Hfirst. cbn [andb].
  destruct (bool_decide (is_Some (kwargs a !! "gzip"))
            && bool_decide (is_Some (kwargs a !! "encoding"))); [reflexivity|].
  pose proof (marshal_without_remote a) as Hm.
  destruct (marshal W a) as [p|e], (marshal W (without_remote a)) as [p'|e'];
    try contradiction.
  - rewrite !bind_lift_return.
    change (post_kwargs (without_remote a)) with (post_kwargs a).
    apply context_of_then_check, package_context_without_remote, Hsrc.
  - subst e'. reflexivity.
Qed.

(** With a file object, the directory path shows in one place only:
    the custom-context branch leaves it in [path], where nothing reads
    it. *)
Lemma package_context_without_path a p0 :
  is_Some (fileobj a) ->
  trace (package_context W a p0) = trace (package_context W (without_path a) p0) /\
  match result (package_context W a p0),
        result (package_context W (without_path a) p0) with
  | Return (pathv, body, params), Return (pathv', body', params') =>
      body = body' /\ params = params' /\
      (pathv = pathv' \/ exists p, pathv = DirPath p /\ pathv' = NoPath)
  | Raise e, Raise e' => e = e'
  | _, _ => False
  end.
Proof.
  intros [f Hf].
  unfold package_context, dockerfile_of, gzip_of.
  cbn [custom_context fileobj path dockerfile kwargs remote without_path].
  rewrite Hf.
  destruct (bool_decide (custom_context a = Some true)).
  - destruct (bind_default _ (dockerfile a)); [|split; reflexivity].
    destruct f; [|split; reflexivity]. cbn.
    split; [reflexivity|]. split; [reflexivity|]. split; [reflexivity|].
    destruct (path a) as [p|]; [right; eauto | left; reflexivity].
  - destruct (bind_default _ (dockerfile a)); [|split; reflexivity]. cbn.
    destruct (copy_to_file W f _); [split; reflexivity|]. cbn.
    destruct (create_tar W _ _ _); cbn; [split; reflexivity|].
    split; [reflexivity|]. split; [reflexivity|]. split; [reflexivity|].
    left; reflexivity.
Qed.

Lemma prepare_without_path a :
  is_Some (fileobj a) ->
  trace (prepare W a) = trace (prepare W (without_path a)) /\
  match result (prepare W a), result (prepare W (without_path a)) with
  | Return (pathv, body, params), Return (pathv', body', params') =>
      body = body' /\ params = params' /\
      (pathv = pathv' \/ exists p, pathv = DirPath p /\ pathv' = NoPath)
  | Raise e, Raise e' => e = e'
  | _, _ => False
  end.
Proof.
  intros Hfile. pose proof Hfile as [f Hf]. unfold prepare.
  cbn [fileobj path kwargs remote without_path].
  rewrite Hf. rewrite !andb_false_r. cbn [andb].
  destruct (bool_decide (is_Some (kwargs a !! "gzip"))
            && bool_decide (is_Some (kwargs a !! "encoding"))); [split; reflexivity|].
  change (marshal W (without_path a)) with (marshal W a).
  destruct (marshal W a) as [p0|e]; [|split; reflexivity].
  rewrite !bind_lift_return, !trace_then_check, !result_then_check.
  change (post_kwargs (without_path a)) with (post_kwargs a).
  destruct (package_context_without_path a p0 Hfile) as [Htrace Hres].
  split; [exact Htrace|].
  destruct (result (package_context W a p0)) as [[[pathv body] params]|e],
           (result (package_context W (without_path a) p0))
             as [[[pathv' body'] params']|e'];
    try contradiction.
  - destruct (post_kwargs a); cbn; [exact Hres | reflexivity].
  - exact Hres.
Qed.

Lemma build_without_path a :
  is_Some (fileobj a) -> build W a = build W (without_path a).
Proof.
  intros Hf. destruct (prepare_without_path a Hf) as [Htrace Hres].
  unfold build.
  change (post_timeout (without_path a)) with (post_timeout a).
  destruct (prepare W a) as [t r], (prepare W (without_path a)) as [t' r'].
  cbn [trace result fst snd] in *. subst t'.
  destruct r as [[[pathv body] params]|e], r' as [[[pathv' body'] params']|e'];
    try contradiction.
  - destruct Hres as (<- & <- & [<-|(p & -> & ->)]); [reflexivity|].
    rewrite !bind_step. cbv beta iota. rewrite submit_dir_path. reflexivity.
  - subst e'. reflexivity.
Qed.

Lemma submit_bodies params body pathv t :
  bodies (trace (submit W params body pathv t)) =
  match body with Bound data => [data] | Unbound => [] end.
Proof.
  unfold submit. destruct body as [|data]; [reflexivity|].
  rewrite bind_ret_l, bind_emit. cbn [trace fst].
  destruct (client_post W params data t) as [e|rsp]; [reflexivity|].
  cbn [of_ext]. rewrite bind_lift_return.
  destruct (raise_for_status W rsp), data, pathv; reflexivity.
Qed.

Lemma interpret_bodies lines : bodies (trace (interpret W lines)) = [].
Proof. rewrite interpret_trace. induction (lookups _); [reflexivity | assumption]. Qed.

(** The one body a call sends is the one its preparation ends with. *)
Lemma build_bodies a :
  bodies (trace (build W a)) =
  match result (prepare W a) with
  | Return (_, Bound data, _) => [data]
  | _ => []
  end.
Proof.
  unfold build. rewrite trace_bind, bodies_app.
  rewrite (offline_bodies _ (prepare_offline W a)). cbn [app].
  destruct (result (prepare W a)) as [[[pathv body] params]|e]; [|reflexivity].
  rewrite trace_bind, bodies_app, submit_bodies.
  destruct body as [|data]; cbn [app]; [reflexivity|].
  destruct (result (submit W params (Bound data) pathv (post_timeout a)));
    [rewrite interpret_bodies|]; reflexivity.
Qed.

Lemma build_tempdirs_of_prepare a :
  tempdirs (trace (build W a)) = tempdirs (trace (prepare W a)).
Proof.
  unfold build. rewrite trace_bind, tempdirs_app.
  destruct (result (prepare W a)) as [[[pathv body] params]|e];
    [|cbn [tempdirs]; rewrite app_nil_r; reflexivity].
  rewrite trace_bind, tempdirs_app.
  assert (Hsub : tempdirs (trace (submit W params body pathv (post_timeout a))) = []).
  { unfold submit. destruct body as [|data]; [reflexivity|].
    rewrite bind_ret_l, bind_emit. cbn [trace fst].
    destruct (client_post W params data (post_timeout a)) as [e|rsp]; [reflexivity|].
    cbn [of_ext]. rewrite bind_lift_return.
    destruct (raise_for_status W rsp), data, pathv; reflexivity. }
  rewrite Hsub. cbn [app].
  assert (Hrest : forall lines, tempdirs (trace (interpret W lines)) = []).
  { intros lines. rewrite interpret_trace.
    induction (lookups _); [reflexivity | assumption]. }
  destruct (result (submit W params body pathv (post_timeout a)));
    [rewrite Hrest|]; cbn [trace fst tempdirs omap]; apply app_nil_r.
Qed.

(** What a preparation that returned sends. *)
Lemma prepared_is_sent a before pathv data params :
  prepare W a = (before, Return (pathv, Bound data, params)) ->
  bodies (trace (build W a)) = [data] /\ posted (trace (build W a)) = [params].
Proof.
  intros Hprep. rewrite build_bodies, build_posts, Hprep. split; reflexivity.
Qed.

End Priority.

(** C9.  Several context sources at once raise no error of their own;
    the [if]/[elif] chain takes the first that applies.  A file object
    outranks a directory path: the build is the one of the same call
    without the path.  A file object or a directory path outranks a
    remote URI: what is prepared (effects, [path], [body], or the
    exception) is what the same call without the URI prepares; the URI
    stays a parameter only.  For a call that passes the encoding check
    and the volumes loop and whose timeout converts, whatever other
    sources it brings: with [custom_context] the request body is the
    file object's buffer and no directory is made; without it the file
    object is staged in a temporary directory and the archive of that
    directory is the body; with no file object the archive of the
    directory path is the body; with neither, a non-empty remote URI
    is sent without body. *)
Theorem context_sources_by_priority {Image} (W : collaborators Image) a :
  (is_Some (fileobj a) -> build W a = build W (without_path a)) /\
  (is_Some (fileobj a) \/ is_Some (path a) ->
   context_of (prepare W a) = context_of (prepare W (without_remote a))) /\
  (~ (is_Some (kwargs a !! "gzip") /\ is_Some (kwargs a !! "encoding")) ->
   volumes_wellformed a ->
   timeout_converts a ->
  (forall buffer name,
      custom_context a = Some true -> fileobj a = Some (BytesIO buffer) ->
      dockerfile_of W a = Some name ->
      exists p0 pathv,
        marshal W a = Return p0 /\
        prepare W a = ([], Return (pathv, Bound (Some buffer), p0)) /\
        (forall tmp, pathv <> TempDir tmp) /\
        bodies (trace (build W a)) = [Some buffer] /\
        posted (trace (build W a)) = [p0] /\
        tempdirs (trace (build W a)) = []) /\
  (forall f name body,
      custom_context a <> Some true -> fileobj a = Some f ->
      dockerfile_of W a = Some name ->
      copy_to_file W f (joinpath W (temporary_directory W) name) = None ->
      create_tar W (temporary_directory W) None (gzip_of a) = inr body ->
      exists p0,
        marshal W a = Return p0 /\
        prepare W a =
        ([TempDirCreated (temporary_directory W);
          FileStaged (joinpath W (temporary_directory W) name);
          TarCreated (temporary_directory W)],
         Return (TempDir (temporary_directory W), Bound (Some body), p0)) /\
        bodies (trace (build W a)) = [Some body] /\
        posted (trace (build W a)) = [p0]) /\
  (forall dir name resolved excludes body,
      custom_context a <> Some true -> fileobj a = None -> path a = Some dir ->
      dockerfile_of W a = Some name ->
      prepare_containerfile W dir (joinpath W dir name) = inr resolved ->
      prepare_containerignore W dir = inr excludes ->
      create_tar W dir (Some excludes) (gzip_of a) = inr body ->
      exists p0,
        marshal W a = Return p0 /\
        prepare W a =
        ([ContainerfilePrepared dir (joinpath W dir name);
          ContainerignoreRead dir;
          TarCreated dir],
         Return (DirPath dir, Bound (Some body), <["dockerfile" := VStr resolved]> p0)) /\
        bodies (trace (build W a)) = [Some body] /\
        posted (trace (build W a)) = [<["dockerfile" := VStr resolved]> p0]) /\
  (forall c uri,
      custom_context a <> Some true -> fileobj a = None -> path a = None ->
      remote a = Some (String c uri) ->
      exists p0,
        marshal W a = Return p0 /\
        prepare W a = ([], Return (NoPath, Bound None, p0)) /\
        bodies (trace (build W a)) = [None] /\
        posted (trace (build W a)) = [p0])).
Proof.
  split; [exact (build_without_path W a)|].
  split; [exact (prepare_without_remote W a)|].
  intros Hgz Hwf Hconv.
  destruct (marshal_returns W a Hwf) as [p0 Hm].
  split; [|split; [|split]].
  - intros buffer name Hcustom Hf Hname.
    assert (Hchecks : passes_first_checks a).
    { split; [intros (_ & H & _); congruence | exact Hgz]. }
    assert (Hpack : exists pathv,
               package_context W a p0 = ([], Return (pathv, Bound (Some buffer), p0)) /\
               forall tmp, pathv <> TempDir tmp).
    { unfold package_context. rewrite Hcustom, Hf, Hname. cbn.
      eexists. split; [reflexivity|]. intros tmp. destruct (path a); discriminate. }
    destruct Hpack as (pathv & Hpack & Hpath).
    pose proof (prepare_passes_package W a p0 _ _ Hchecks Hm Hconv Hpack) as Hprep.
    destruct (prepared_is_sent W a _ _ _ _ Hprep) as [Hbody Hposted].
    exists p0, pathv. repeat split; try assumption.
    rewrite (build_tempdirs_of_prepare W a), Hprep. reflexivity.
  - intros f name body Hcustom Hf Hname Hcopy Htar.
    assert (Hchecks : passes_first_checks a).
    { split; [intros (_ & H & _); congruence | exact Hgz]. }
    assert (Hpack : package_context W a p0 =
                    ([TempDirCreated (temporary_directory W);
                      FileStaged (joinpath W (temporary_directory W) name);
                      TarCreated (temporary_directory W)],
                     Return (TempDir (temporary_directory W), Bound (Some body), p0))).
    { unfold package_context.
      rewrite bool_decide_eq_false_2 by exact Hcustom.
      rewrite Hf, Hname. cbn. rewrite Hcopy. cbn. rewrite Htar. reflexivity. }
    pose proof (prepare_passes_package W a p0 _ _ Hchecks Hm Hconv Hpack) as Hprep.
    destruct (prepared_is_sent W a _ _ _ _ Hprep) as [Hbody Hposted].
    exists p0. repeat split; assumption.
  - intros dir name resolved excludes body Hcustom Hf Hp Hname Hres Hign Htar.
    assert (Hchecks : passes_first_checks a).
    { split; [intros (H & _); congruence | exact Hgz]. }
    assert (Hpack : package_context W a p0 =
                    ([ContainerfilePrepared dir (joinpath W dir name);
                      ContainerignoreRead dir;
                      TarCreated dir],
                     Return (DirPath dir, Bound (Some body),
                             <["dockerfile" := VStr resolved]> p0))).
    { unfold package_context.
      rewrite bool_decide_eq_false_2 by exact Hcustom.
      rewrite Hf, Hp, Hname. cbn. rewrite Hres. cbn. rewrite Hign. cbn. rewrite Htar.
      reflexivity. }
    pose proof (prepare_passes_package W a p0 _ _ Hchecks Hm Hconv Hpack) as Hprep.
    destruct (prepared_is_sent W a _ _ _ _ Hprep) as [Hbody Hposted].
    exists p0. repeat split; assumption.
  - intros c uri Hcustom Hf Hp Hr.
    assert (Hchecks : passes_first_checks a).
    { split; [intros (_ & _ & H); congruence | exact Hgz]. }
    assert (Hpack : package_context W a p0 = ([], Return (NoPath, Bound None, p0))).
    { unfold package_context.
      rewrite bool_decide_eq_false_2 by exact Hcustom.
      rewrite Hf, Hp, Hr. reflexivity. }
    pose proof (prepare_passes_package W a p0 _ _ Hchecks Hm Hconv Hpack) as Hprep.
    destruct (prepared_is_sent W a _ _ _ _ Hprep) as [Hbody Hposted].
    exists p0. repeat split; assumption.
Qed.

Lemma context_sources_by_priority_witness :
  let W := daemon [line_id] in
  let a := crowded_call in
  build W a = build W (without_path a) /\
  context_of (prepare W a) = context_of (prepare W (without_remote a)) /\
  exists p0,
    marshal W a = Return p0 /\
    p0 !! "remote" = Some (VStr "https://example.org/context.tar") /\
    prepare W a =
    ([TempDirCreated "/tmp/tmpq1";
      FileStaged "/tmp/tmpq1/Containerfile";
      TarCreated "/tmp/tmpq1"],
     Return (TempDir "/tmp/tmpq1", Bound (Some "tar of /tmp/tmpq1"), p0)) /\
    bodies (trace (build W a)) = [Some "tar of /tmp/tmpq1"] /\
    posted (trace (build W a)) = [p0].
Proof.
  intros W a.
  assert (Hgz : ~ (is_Some (kwargs a !! "gzip") /\ is_Some (kwargs a !! "encoding")))
    by (intros [[? H] _]; discriminate).
  assert (Hwf : volumes_wellformed a) by exact I.
  assert (Hconv : timeout_converts a) by (eexists; reflexivity).
  destruct (context_sources_by_priority W a) as (Hpath & Hremote & Hchain).
  destruct (Hchain Hgz Hwf Hconv) as (_ & Hloose & _).
  split; [apply Hpath; eexists; reflexivity|].
  split; [apply Hremote; left; eexists; reflexivity|].
  destruct (Hloose (StringIO "FROM scratch") "Containerfile" "tar of /tmp/tmpq1")
    as (p0 & Hm & Hprep & Hbody & Hposted);
    [discriminate | reflexivity | reflexivity | reflexivity | reflexivity |].
  exists p0. split; [exact Hm|]. split; [|split; [exact Hprep|split; assumption]].
  assert (Hm' : marshal W a = Return (initial_params W a)) by reflexivity.
  rewrite Hm' in Hm. injection Hm as <-. reflexivity.
Defined.

(** *** Checks and failures before the request *)

(** X1.  Lines 145-146 test the presence of the keys, not their values:
    a call that has a context source and carries both [gzip] and
    [encoding] among its keyword arguments, whatever they are set to,
    is refused with a [PodmanError] before anything is done. *)
Theorem gzip_with_encoding_is_rejected {Image} (W : collaborators Image) a :
  ~ (path a = None /\ fileobj a = None /\ remote a = None) ->
  is_Some (kwargs a !! "gzip") -> is_Some (kwargs a !! "encoding") ->
  build W a =
  ([], Raise (PodmanError "Custom encoding not supported when gzip enabled.")).
Proof.
  intros Hctx Hg He.
  pose proof (prepare_second_check W a Hctx Hg He) as Hprep.
  rewrite (build_stops_in_prepare W a _ (f_equal snd Hprep)), Hprep. reflexivity.
Qed.

Lemma gzip_with_encoding_is_rejected_witness :
  build (daemon [line_id])
        (with_kwargs remote_call {[ "gzip" := VBool false; "encoding" := VStr "identity" ]}) =
  ([], Raise (PodmanError "Custom encoding not supported when gzip enabled.")).
Proof.
  apply (gzip_with_encoding_is_rejected (daemon [line_id])).
  - intros (_ & _ & H). discriminate.
  - vm_compute. eauto.
  - vm_compute. eauto.
Defined.

(** X2.  Lines 198-202: a call that asks for a custom context and brings
    no file object is refused with a [PodmanError] before anything is
    done, also when it brings a directory path or a remote URI. *)
Theorem custom_context_requires_fileobj {Image} (W : collaborators Image) a :
  passes_first_checks a -> volumes_wellformed a ->
  custom_context a = Some true -> fileobj a = None ->
  build W a =
  ([], Raise (PodmanError "Custom context requires fileobj to be set to a binary file-like object containing a build-directory tarball.")).
Proof.
  intros Hchecks Hwf Hcustom Hf.
  destruct (marshal_returns W a Hwf) as [p Hm].
  assert (Hprep : prepare W a =
                  ([], Raise (PodmanError "Custom context requires fileobj to be set to a binary file-like object containing a build-directory tarball."))).
  { rewrite (prepare_packages W a p Hchecks Hm). unfold package_context.
    rewrite Hcustom, Hf. reflexivity. }
  rewrite (build_stops_in_prepare W a _ (f_equal snd Hprep)), Hprep. reflexivity.
Qed.

Lemma custom_context_requires_fileobj_witness :
  build (daemon [line_id]) (call (Some "invalid") None None (Some true) Omitted None None) =
  ([], Raise (PodmanError "Custom context requires fileobj to be set to a binary file-like object containing a build-directory tarball.")).
Proof.
  apply (custom_context_requires_fileobj (daemon [line_id])).
  - split; [intros (H & _); discriminate | intros [[? H] _]; discriminate].
  - exact I.
  - reflexivity.
  - reflexivity.
Defined.

(** X3.  [remote=""] passes the check of line 142, since it is not
    [None], and is false at line 226: with no other source no branch
    assigns [body], and, the timeout converted at line 231, the call
    ends in [UnboundLocalError] when the request is about to be made;
    nothing is sent. *)
Theorem empty_remote_leaves_body_unbound {Image} (W : collaborators Image) a :
  ~ (is_Some (kwargs a !! "gzip") /\ is_Some (kwargs a !! "encoding")) ->
  volumes_wellformed a ->
  timeout_converts a ->
  custom_context a <> Some true ->
  path a = None -> fileobj a = None -> remote a = Some "" ->
  build W a = ([], Raise (UnboundLocalError "body")).
Proof.
  intros Hgz Hwf Hconv Hcustom Hp Hf Hr.
  destruct (marshal_returns W a Hwf) as [p Hm].
  assert (Hchecks : passes_first_checks a).
  { split; [|exact Hgz]. intros (_ & _ & H). congruence. }
  assert (Hpack : package_context W a p = ([], Return (NoPath, Unbound, p))).
  { unfold package_context.
    rewrite bool_decide_eq_false_2 by exact Hcustom.
    rewrite Hf, Hp, Hr. reflexivity. }
  unfold build.
  rewrite (prepare_passes_package W a p _ _ Hchecks Hm Hconv Hpack). reflexivity.
Qed.

Lemma empty_remote_leaves_body_unbound_witness :
  build (daemon [line_id])
        (with_timeout (call None None (Some "") None Omitted None None) (Some 30%Z)) =
  ([], Raise (UnboundLocalError "body")).
Proof.
  apply (empty_remote_leaves_body_unbound (daemon [line_id])).
  - intros [[? H] _]. discriminate.
  - exact I.
  - eexists. reflexivity.
  - discriminate.
  - reflexivity.
  - reflexivity.
  - reflexivity.
Defined.

(** X4.  In the loose-file branch the temporary directory is made first
    (line 213); whatever then fails before the request (the path join
    on [dockerfile=None], the copy of the file object, the archive)
    ends the call with that exception, the directory made and never
    cleaned up, and nothing sent. *)
Theorem loose_file_failure_leaves_tempdir {Image} (W : collaborators Image) a e :
  passes_first_checks a -> volumes_wellformed a -> loose_file_mode a ->
  result (prepare W a) = Raise e ->
  result (build W a) = Raise e /\
  tempdirs (trace (build W a)) = [temporary_directory W] /\
  releases (trace (build W a)) = [] /\
  posted (trace (build W a)) = [].
Proof.
  intros Hchecks Hwf [Hcustom [f Hf]] Hraise.
  destruct (marshal_returns W a Hwf) as [p Hm].
  rewrite (build_stops_in_prepare W a e Hraise). cbn [trace result fst snd].
  rewrite (offline_posted _ (prepare_offline W a)), (prepare_releases_nothing W a).
  split; [reflexivity|]. split; [|split; reflexivity].
  rewrite (prepare_trace W a p Hchecks Hm).
  unfold package_context.
  rewrite bool_decide_eq_false_2 by exact Hcustom. rewrite Hf.
  destruct (dockerfile_of W a); [|reflexivity]. cbn.
  destruct (copy_to_file W f _); [reflexivity|]. cbn.
  destruct (create_tar W _ _ _); reflexivity.
Qed.

Lemma loose_file_failure_leaves_tempdir_witness :
  let a := call None (Some (StringIO "FROM scratch")) None None (Passed None) None None in
  result (build (daemon [line_id]) a) =
  Raise (TypeError "unsupported operand type(s) for /: 'PosixPath' and 'NoneType'") /\
  tempdirs (trace (build (daemon [line_id]) a)) = ["/tmp/tmpq1"] /\
  releases (trace (build (daemon [line_id]) a)) = [] /\
  posted (trace (build (daemon [line_id]) a)) = [].
Proof.
  intros a. apply (loose_file_failure_leaves_tempdir (daemon [line_id]) a).
  - split; [intros (_ & H & _); discriminate | intros [[? H] _]; discriminate].
  - exact I.
  - split; [discriminate | eauto].
  - reflexivity.
Defined.

(** X5.  In the directory branch [dockerfile=None] fails at the path
    join of line 220 with a [TypeError], before the collaborators are
    asked anything: no file is prepared, no archive made, nothing
    sent. *)
Theorem directory_without_name_is_a_type_error {Image} (W : collaborators Image) a :
  passes_first_checks a -> volumes_wellformed a -> directory_mode a ->
  dockerfile a = Passed None ->
  exists msg, build W a = ([], Raise (TypeError msg)).
Proof.
  intros Hchecks Hwf (Hcustom & Hf & [dir Hdir]) Hname.
  destruct (marshal_returns W a Hwf) as [p Hm].
  eexists. unfold build. rewrite (prepare_packages W a p Hchecks Hm).
  unfold package_context, dockerfile_of.
  rewrite bool_decide_eq_false_2 by exact Hcustom.
  rewrite Hf, Hdir, Hname. reflexivity.
Qed.

Lemma directory_without_name_is_a_type_error_witness :
  exists msg,
    build (daemon [line_id]) (call (Some "/srv/project") None None None (Passed None) None None) =
    ([], Raise (TypeError msg)).
Proof.
  apply (directory_without_name_is_a_type_error (daemon [line_id])).
  - split; [intros (H & _); discriminate | intros [[? H] _]; discriminate].
  - exact I.
  - split; [discriminate | split; [reflexivity | eauto]].
  - reflexivity.
Defined.

(** *** The request *)

Section Request.
Context {Image : Type} (W : collaborators Image).

Lemma submit_lookups params body pathv t :
  lookups (trace (submit W params body pathv t)) = [].
Proof.
  unfold submit. destruct body as [|data]; [reflexivity|].
  rewrite bind_ret_l, bind_emit. cbn [trace fst].
  destruct (client_post W params data t) as [e|rsp]; [reflexivity|].
  cbn [of_ext]. rewrite bind_lift_return.
  destruct (raise_for_status W rsp), data, pathv; reflexivity.
Qed.

Lemma submit_timeouts params body pathv t :
  timeouts (trace (submit W params body pathv t)) =
  match body with Bound _ => [t] | Unbound => [] end.
Proof.
  unfold submit. destruct body as [|data]; [reflexivity|].
  rewrite bind_ret_l, bind_emit. cbn [trace fst].
  destruct (client_post W params data t) as [e|rsp]; [reflexivity|].
  cbn [of_ext]. rewrite bind_lift_return.
  destruct (raise_for_status W rsp), data, pathv; reflexivity.
Qed.

Lemma submit_releases_only_after_response params body pathv t :
  releases (trace (submit W params body pathv t)) <> [] ->
  exists data, body = Bound data.
Proof.
  unfold submit. destruct body as [|data]; [intros H; contradiction H; reflexivity|].
  eauto.
Qed.

Lemma offline_timeouts tr : offline tr = true -> timeouts tr = [].
Proof.
  induction tr as [|ev tr IH]; [reflexivity|].
  cbn. intros H. apply andb_prop in H as [Hev Htr].
  destruct ev; cbn in *; try discriminate; auto.
Qed.

Lemma interpret_timeouts lines : timeouts (trace (interpret W lines)) = [].
Proof. rewrite interpret_trace. induction (lookups _); [reflexivity | assumption]. Qed.

Lemma interpret_lookups_short lines :
  (List.length (lookups (trace (interpret W lines))) <= 1)%nat.
Proof.
  unfold interpret. destruct (scan W lines) as [[vars t]|e]; [|cbn; lia].
  rewrite bind_lift_return.
  destruct (image_id vars) as [[|c s]|]; try (cbn; lia).
  rewrite bind_emit. cbn [trace fst].
  destruct (get W (String c s)); cbn; lia.
Qed.

Lemma build_lookups a :
  lookups (trace (build W a)) =
  match result (prepare W a) with
  | Return (pathv, body, params) =>
      match result (submit W params body pathv (post_timeout a)) with
      | Return rsp => lookups (trace (interpret W (iter_lines rsp)))
      | Raise _ => []
      end
  | Raise _ => []
  end.
Proof.
  unfold build. rewrite trace_bind, lookups_app.
  rewrite (offline_lookups _ (prepare_offline W a)). cbn [app].
  destruct (result (prepare W a)) as [[[pathv body] params]|e]; [|reflexivity].
  rewrite trace_bind, lookups_app, submit_lookups. cbn [app].
  destruct (result (submit W params body pathv (post_timeout a))); reflexivity.
Qed.

Lemma build_releases a :
  releases (trace (build W a)) =
  match result (prepare W a) with
  | Return (pathv, body, params) =>
      releases (trace (submit W params body pathv (post_timeout a)))
  | Raise _ => []
  end.
Proof.
  unfold build. rewrite trace_bind, releases_app.
  rewrite (prepare_releases_nothing W a). cbn [app].
  destruct (result (prepare W a)) as [[[pathv body] params]|e]; [|reflexivity].
  rewrite trace_bind, releases_app.
  destruct (result (submit W params body pathv (post_timeout a)));
    [rewrite interpret_releases_nothing|]; apply app_nil_r.
Qed.

Lemma build_timeouts a :
  timeouts (trace (build W a)) =
  match result (prepare W a) with
  | Return (_, Bound _, _) => [post_timeout a]
  | _ => []
  end.
Proof.
  unfold build. rewrite trace_bind, timeouts_app.
  rewrite (offline_timeouts _ (prepare_offline W a)). cbn [app].
  destruct (result (prepare W a)) as [[[pathv body] params]|e]; [|reflexivity].
  rewrite trace_bind, timeouts_app, submit_timeouts.
  destruct body as [|data]; cbn [app]; [reflexivity|].
  destruct (result (submit W params (Bound data) pathv (post_timeout a)));
    [rewrite interpret_timeouts|]; reflexivity.
Qed.

Lemma submit_returns params body pathv t rsp :
  result (submit W params body pathv t) = Return rsp ->
  exists data, body = Bound data /\
               client_post W params data t = inr rsp /\
               raise_for_status W rsp = None.
Proof.
  unfold submit. destruct body as [|data]; [discriminate|].
  rewrite bind_ret_l, bind_emit. cbn [result snd].
  destruct (client_post W params data t) as [e|rsp'] eqn:Hpost; [discriminate|].
  cbn [of_ext]. rewrite bind_lift_return.
  destruct (raise_for_status W rsp') eqn:Hstatus.
  - destruct data, pathv; discriminate.
  - destruct data, pathv; cbn; intros [= <-]; eauto.
Qed.

Lemma prepare_with_kwargs a k :
  k !! "gzip" = kwargs a !! "gzip" ->
  (is_Some (k !! "encoding") <-> is_Some (kwargs a !! "encoding")) ->
  prepare W (with_kwargs a k) = prepare W a.
Proof.
  intros Hg He. unfold prepare.
  change (marshal W (with_kwargs a k)) with (marshal W a).
  cbn [path fileobj remote kwargs with_kwargs]. rewrite Hg.
  rewrite (bool_decide_ext _ _ He).
  destruct (_ && _ && _); [reflexivity|].
  destruct (_ && _); [reflexivity|].
  destruct (marshal W a) as [p|e]; [|reflexivity].
  rewrite !bind_lift_return.
  unfold package_context, gzip_of, dockerfile_of.
  cbn [path fileobj remote kwargs custom_context dockerfile with_kwargs].
  rewrite Hg. reflexivity.
Qed.

(** The request returned a response whose status is refused. *)
Lemma build_refused_by_status a before pathv data params rsp e :
  prepare W a = (before, Return (pathv, Bound data, params)) ->
  client_post W params data (post_timeout a) = inr rsp ->
  raise_for_status W rsp = Some e ->
  build W a =
  (before ++ Posted params data (post_timeout a) :: released data pathv,
   Raise (Ext e)).
Proof.
  intros Hprep Hpost Hstatus.
  assert (Hsub : submit W params (Bound data) pathv (post_timeout a) =
                 (Posted params data (post_timeout a) :: released data pathv,
                  Raise (Ext e))).
  { unfold submit. rewrite bind_ret_l, bind_emit, Hpost. cbn [of_ext].
    rewrite bind_lift_return, Hstatus. destruct data, pathv; reflexivity. }
  unfold build. rewrite Hprep, bind_step. cbv beta iota. rewrite Hsub. reflexivity.
Qed.

End Request.

(** X6.  Lines 244-250: when the daemon answers with a status that
    [raise_for_status] turns into an exception, the call raises that
    exception after the body is closed and the temporary directory
    cleaned up; the lines of the response are not scanned and no image
    is looked up. *)
Theorem http_error_is_raised_after_release {Image} (W : collaborators Image)
        a before pathv data params rsp e :
  prepare W a = (before, Return (pathv, Bound data, params)) ->
  client_post W params data (post_timeout a) = inr rsp ->
  raise_for_status W rsp = Some e ->
  build W a =
  (before ++ Posted params data (post_timeout a) :: released data pathv,
   Raise (Ext e)) /\
  lookups (trace (build W a)) = [].
Proof.
  intros Hprep Hpost Hstatus.
  pose proof (build_refused_by_status W a before pathv data params rsp e
                Hprep Hpost Hstatus) as Hb.
  split; [exact Hb|]. rewrite Hb. cbn [trace fst].
  pose proof (prepare_offline W a) as Hoff. rewrite Hprep in Hoff.
  cbn [trace fst] in Hoff.
  rewrite lookups_app, (offline_lookups _ Hoff).
  change (lookups (?ev :: ?t)) with (lookups ([ev] ++ t)).
  rewrite lookups_app, (offline_lookups _ (offline_released data pathv)). reflexivity.
Qed.

Lemma http_error_is_raised_after_release_witness :
  build (failing_daemon 404) loose_call =
  ([TempDirCreated "/tmp/tmpq1";
    FileStaged "/tmp/tmpq1/.containerfile.beef";
    TarCreated "/tmp/tmpq1"] ++
   Posted (initial_params (failing_daemon 404) loose_call) (Some "tar of /tmp/tmpq1") None
   :: released (Some "tar of /tmp/tmpq1") (TempDir "/tmp/tmpq1"),
   Raise (Ext ImageNotFound)) /\
  lookups (trace (build (failing_daemon 404) loose_call)) = [].
Proof.
  apply (http_error_is_raised_after_release
           (failing_daemon 404) loose_call _ _ _ _
           {| status_code := 404; iter_lines := [] |}); reflexivity.
Defined.

(** X7.  The effects of a call come in this order: first those of the
    preparation, among which there is no request, no lookup and no
    release; then, if the call gets that far, one request; and after
    it only releases and at most one image lookup, no second
    request. *)
Theorem one_request_then_one_lookup {Image} (W : collaborators Image) a :
  exists before after,
    trace (build W a) = before ++ after /\
    offline before = true /\ releases before = [] /\
    (after = [] \/
     exists params data t rest,
       after = Posted params data t :: rest /\
       posted rest = [] /\
       (List.length (lookups rest) <= 1)%nat).
Proof.
  exists (trace (prepare W a)).
  pose proof (prepare_offline W a) as Hoff.
  pose proof (prepare_releases_nothing W a) as Hrel.
  unfold build.
  destruct (prepare W a) as [before [[[pathv body] params]|e]] eqn:Hprep;
    cbn [trace fst] in *.
  - rewrite bind_step. cbv beta iota. cbn [trace fst].
    destruct body as [|data].
    + exists []. repeat split; try assumption. left. reflexivity.
    + destruct (client_post W params data (post_timeout a)) as [e|rsp] eqn:Hpost.
      * rewrite (submit_refused W _ _ _ _ _ Hpost). cbn [trace result fst snd].
        eexists. split; [reflexivity|]. split; [exact Hoff|]. split; [exact Hrel|].
        right. exists params, data, (post_timeout a), [].
        split; [reflexivity|]. split; [reflexivity | cbn; lia].
      * destruct (raise_for_status W rsp) as [e|] eqn:Hstatus.
        -- assert (Hsub : submit W params (Bound data) pathv (post_timeout a) =
                           (Posted params data (post_timeout a) :: released data pathv,
                            Raise (Ext e))).
           { unfold submit. rewrite bind_ret_l, bind_emit, Hpost. cbn [of_ext].
             rewrite bind_lift_return, Hstatus. destruct data, pathv; reflexivity. }
           rewrite Hsub. cbn [trace result fst snd].
           eexists. split; [reflexivity|]. split; [exact Hoff|]. split; [exact Hrel|].
           right. exists params, data, (post_timeout a), (released data pathv).
           split; [reflexivity|].
           rewrite (offline_posted _ (offline_released data pathv)),
                   (offline_lookups _ (offline_released data pathv)).
           split; [reflexivity | cbn; lia].
        -- rewrite (submit_answered W _ _ _ _ _ Hpost Hstatus), bind_step.
           cbn [trace result fst snd].
           eexists. split; [reflexivity|]. split; [exact Hoff|]. split; [exact Hrel|].
           right. exists params, data, (post_timeout a),
                    (released data pathv ++ trace (interpret W (iter_lines rsp))).
           split; [reflexivity|].
           rewrite posted_app, lookups_app.
           rewrite (offline_posted _ (offline_released data pathv)),
                   (offline_lookups _ (offline_released data pathv)).
           rewrite interpret_posts_nothing. split; [reflexivity|].
           apply interpret_lookups_short.
  - exists []. rewrite bind_stop. cbn [trace fst]. rewrite app_nil_r.
    repeat split; try assumption. left. reflexivity.
Qed.

Lemma float_of_int_exact n :
  (Z.abs n <= 2 ^ 53)%Z -> float_of_int n = Return n.
Proof.
  intros Hn. unfold float_of_int.
  assert (Hm : double_of_magnitude (Z.abs n) = Z.abs n).
  { unfold double_of_magnitude.
    destruct (Z.eq_dec (Z.abs n) (2 ^ 53)) as [->|Hne]; [reflexivity|].
    assert (Hbits : (Z.log2 (Z.abs n) + 1 <= 53)%Z).
    { destruct (Z.eq_dec (Z.abs n) 0) as [->|H0]; [cbn; lia|].
      assert (Z.log2 (Z.abs n) < 53)%Z; [|lia].
      apply Z.log2_lt_pow2; lia. }
    apply Z.leb_le in Hbits. rewrite Hbits. reflexivity. }
  rewrite Hm.
  assert (Hsmall : (Z.shiftl 1 1024 <=? Z.abs n)%Z = false).
  { apply Z.leb_gt. rewrite Z.shiftl_1_l.
    assert (2 ^ 53 < 2 ^ 1024)%Z by (apply Z.pow_lt_mono_r; lia). lia. }
  rewrite Hsmall. f_equal. destruct n; cbn; lia.
Qed.

(** X8.  Lines 229-231: a request is made without timeout exactly when
    the caller's timeout is [None] or zero; otherwise it is made with
    [float(timeout)], the double nearest to the integer, which is the
    integer itself up to 2^53 in magnitude. *)
Theorem zero_timeout_is_no_timeout {Image} (W : collaborators Image) a t :
  In t (timeouts (trace (build W a))) ->
  (t = None <-> timeout a = None \/ timeout a = Some 0%Z) /\
  (forall z, t = Some z <->
             exists n, timeout a = Some n /\ n <> 0%Z /\ float_of_int n = Return z) /\
  (forall n, timeout a = Some n -> n <> 0%Z -> (Z.abs n <= 2 ^ 53)%Z -> t = Some n).
Proof.
  rewrite build_timeouts.
  destruct (result (prepare W a)) as [[[pathv [|data]] params]|e] eqn:Hprep;
    [intros H; contradiction H| |intros H; contradiction H].
  intros [<-|H]; [|contradiction H].
  assert (Hconv : exists t0, post_kwargs a = Return t0).
  { revert Hprep. unfold prepare.
    destruct (_ && _ && _); [discriminate|].
    destruct (_ && _); [discriminate|].
    destruct (marshal W a) as [p|e]; [|discriminate].
    rewrite bind_lift_return. intros H.
    apply then_check_returns in H as [_ H]. exact H. }
  destruct Hconv as [t0 Hconv]. unfold post_timeout. rewrite Hconv.
  revert Hconv. unfold post_kwargs.
  destruct (timeout a) as [n|].
  - destruct (bool_decide (n = 0%Z)) eqn:Hz.
    + apply bool_decide_eq_true_1 in Hz. subst n. intros [= <-]. split; [|split].
      * split; [auto | reflexivity].
      * intros z. split; [discriminate | intros (n & [= <-] & Hne & _); congruence].
      * intros n [= <-] Hne. congruence.
    + apply bool_decide_eq_false_1 in Hz.
      destruct (float_of_int n) as [z0|e] eqn:Hfloat; cbn [obind]; [|discriminate].
      intros [= <-]. split; [|split].
      * split; [discriminate | intros [H|[= H]]; [discriminate | contradiction]].
      * intros z. split.
        -- intros [= <-]. exists n. repeat split; assumption.
        -- intros (n' & [= <-] & _ & Hf). congruence.
      * intros n' [= <-] _ Hsmall. rewrite (float_of_int_exact n Hsmall) in Hfloat.
        congruence.
  - intros [= <-]. split; [|split].
    + split; [auto | reflexivity].
    + intros z. split; [discriminate | intros (n & H & _); discriminate].
    + intros n H. discriminate.
Qed.

Lemma zero_timeout_is_no_timeout_witness :
  let a := with_timeout remote_call (Some (2 ^ 53 + 1)%Z) in
  let t : option Z := Some (2 ^ 53)%Z in
  timeouts (trace (build (daemon [line_id]) a)) = [t] /\
  (t = None <-> timeout a = None \/ timeout a = Some 0%Z) /\
  (forall z, t = Some z <->
             exists n, timeout a = Some n /\ n <> 0%Z /\ float_of_int n = Return z) /\
  (forall n, timeout a = Some n -> n <> 0%Z -> (Z.abs n <= 2 ^ 53)%Z -> t = Some n).
Proof.
  intros a t. split; [by_evaluation|].
  apply (zero_timeout_is_no_timeout (daemon [line_id]) a t).
  left. by_evaluation.
Defined.

(** A zero timeout, and a small one. *)
Example timeouts_sent :
  timeouts (trace (build (daemon [line_id]) (with_timeout remote_call (Some 0%Z)))) = [None] /\
  timeouts (trace (build (daemon [line_id]) (with_timeout remote_call (Some 30%Z)))) =
  [Some 30%Z].
Proof. split; by_evaluation. Qed.

(** X9.  Keyword arguments the method does not know are ignored: the
    call depends on them only through the value of [gzip] and the
    presence of [encoding]. *)
Theorem unknown_kwargs_are_ignored {Image} (W : collaborators Image) a k :
  k !! "gzip" = kwargs a !! "gzip" ->
  (is_Some (k !! "encoding") <-> is_Some (kwargs a !! "encoding")) ->
  build W (with_kwargs a k) = build W a.
Proof.
  intros Hg He. unfold build. rewrite (prepare_with_kwargs W a k Hg He). reflexivity.
Qed.

Lemma unknown_kwargs_are_ignored_witness :
  build (daemon [line_id])
        (with_kwargs remote_call
                     {[ "isolation" := VStr "default"; "use_config_proxy" := VBool true ]}) =
  build (daemon [line_id]) remote_call.
Proof.
  apply (unknown_kwargs_are_ignored (daemon [line_id]) remote_call).
  - reflexivity.
  - split; intros [? H]; vm_compute in H; discriminate.
Defined.

(** *** The scan, on any stream *)

Section AnyStream.
Context {Image : Type} (W : collaborators Image).

(** The loop body changes the identifier only on an object whose
    [stream] text the marker accepts. *)
Lemma loop_body_image t line vars vars' :
  loop_body W t line vars = Return vars' ->
  unknown vars' = Some line /\
  (image_id vars' = image_id vars /\ announces W line = None \/
   exists id, announces W line = Some id /\ image_id vars' = Some id).
Proof.
  intros Hbody. split; [exact (loop_body_unknown W t line vars vars' Hbody)|].
  revert Hbody. unfold loop_body, announces, stream_text.
  destruct (json_loads W line) as [e|r]; [discriminate|]. cbn [of_ext obind].
  destruct r as [| | | | s | | l | d]; cbn [py_in obind]; try discriminate.
  - destruct (str_contains "error" s); cbn; [discriminate|].
    destruct (str_contains "stream" s); cbn; [discriminate|].
    intros [= <-]. left. split; reflexivity.
  - destruct (existsb (is_str "error") l); cbn; [discriminate|].
    destruct (existsb (is_str "stream") l); cbn; [discriminate|].
    intros [= <-]. left. split; reflexivity.
  - cbn [py_getitem].
    destruct (d !! "error") as [msg|] eqn:Herr.
    + rewrite bool_decide_eq_true_2 by eauto. cbn. discriminate.
    + rewrite bool_decide_eq_false_2 by (intros [? ?]; discriminate).
      destruct (d !! "stream") as [v|] eqn:Hstream.
      * rewrite bool_decide_eq_true_2 by eauto. cbn [obind].
        destruct v; cbn; try discriminate.
        destruct (marker_match s) as [id|]; intros [= <-]; cbn.
        -- right. exists id. split; reflexivity.
        -- left. split; reflexivity.
      * rewrite bool_decide_eq_false_2 by (intros [? ?]; discriminate).
        intros [= <-]. left. split; reflexivity.
Qed.

(** A build failure raised inside the loop carries the replay view as it
    stands. *)
Lemma loop_body_build_error t line vars msg log :
  loop_body W t line vars = Raise (BuildError msg log) -> log = t.
Proof.
  unfold loop_body.
  destruct (json_loads W line) as [e|r]; [discriminate|]. cbn [of_ext obind].
  destruct r as [| | | | s | | l | d]; cbn [py_in py_getitem obind]; try discriminate.
  - destruct (str_contains "error" s); cbn; [discriminate|].
    destruct (str_contains "stream" s); cbn; discriminate.
  - destruct (existsb (is_str "error") l); cbn; [discriminate|].
    destruct (existsb (is_str "stream") l); cbn; discriminate.
  - destruct (d !! "error") as [m|] eqn:Herr.
    + rewrite bool_decide_eq_true_2 by eauto. cbn. intros [= _ <-]. reflexivity.
    + rewrite bool_decide_eq_false_2 by (intros [? ?]; discriminate).
      destruct (d !! "stream") as [v|] eqn:Hstream.
      * rewrite bool_decide_eq_true_2 by eauto. cbn [obind].
        destruct v; cbn; try discriminate.
        destruct (marker_match s); discriminate.
      * rewrite bool_decide_eq_false_2 by (intros [? ?]; discriminate).
        discriminate.
Qed.

Lemma for_line_in_stream_returns source buffered vars vars' t :
  for_line_in_stream W source buffered vars = Return (vars', t) ->
  t = {| tee_source := []; tee_buffered := buffered ++ source |} /\
  unknown vars' = match last source with Some l => Some l | None => unknown vars end /\
  (image_id vars' = image_id vars \/
   exists line id, In line source /\ announces W line = Some id /\
                   image_id vars' = Some id).
Proof.
  revert buffered vars. induction source as [|line rest IH]; intros buffered vars.
  - cbn. intros [= <- <-]. rewrite app_nil_r. repeat split. left. reflexivity.
  - cbn [for_line_in_stream].
    destruct (loop_body W _ line vars) as [vars1|e] eqn:Hbody; [|discriminate].
    cbn [obind]. intros Hrest.
    destruct (IH _ _ Hrest) as (-> & Hunk & Himg).
    destruct (loop_body_image _ _ _ _ Hbody) as (Hunk1 & Himg1).
    split; [rewrite <- app_assoc; reflexivity|]. split.
    + rewrite Hunk, Hunk1. symmetry. apply last_cons_or.
    + destruct Himg as [Hsame|(l & id & Hin & Hann & Hid)].
      * rewrite Hsame.
        destruct Himg1 as [[Hsame1 _]|(id & Hann & Hid)]; [left; exact Hsame1|].
        right. exists line, id. repeat split; [left; reflexivity|assumption..].
      * right. exists l, id. repeat split; [right; exact Hin|assumption..].
Qed.

Lemma for_line_in_stream_build_error source buffered vars msg log :
  for_line_in_stream W source buffered vars = Raise (BuildError msg log) ->
  drain log = buffered ++ source.
Proof.
  revert buffered vars. induction source as [|line rest IH]; intros buffered vars.
  - discriminate.
  - cbn [for_line_in_stream].
    destruct (loop_body W _ line vars) as [vars1|e] eqn:Hbody; cbn [obind].
    + intros Hrest. rewrite (IH _ _ Hrest), <- app_assoc. reflexivity.
    + intros [= ->]. apply loop_body_build_error in Hbody as ->.
      unfold drain. cbn. rewrite <- app_assoc. reflexivity.
Qed.

Lemma scan_returns lines vars t :
  scan W lines = Return (vars, t) ->
  t = {| tee_source := []; tee_buffered := lines |} /\
  unknown vars = last lines /\
  (image_id vars = None \/
   exists line id, In line lines /\ announces W line = Some id /\
                   image_id vars = Some id).
Proof.
  unfold scan, itertools_tee. cbn [tee_source tee_buffered]. intros H.
  destruct (for_line_in_stream_returns _ _ _ _ _ H) as (-> & Hunk & Himg).
  cbn [app image_id unknown] in *. split; [reflexivity|]. split; [|exact Himg].
  rewrite Hunk. destruct (last lines); reflexivity.
Qed.

Lemma scan_build_error lines msg log :
  scan W lines = Raise (BuildError msg log) -> drain log = lines.
Proof.
  unfold scan, itertools_tee. cbn [tee_source tee_buffered].
  apply for_line_in_stream_build_error.
Qed.

(** What [prepare] and [submit] raise is never a build failure. *)
Lemma package_context_raises a p e :
  result (package_context W a p) = Raise e -> is_build_error e = false.
Proof.
  unfold package_context.
  destruct (bool_decide (custom_context a = Some true)).
  - destruct (fileobj a) as [f|]; [|intros [= <-]; reflexivity].
    destruct (dockerfile_of W a); [|intros [= <-]; reflexivity].
    destruct f; cbn; [discriminate | intros [= <-]; reflexivity].
  - destruct (fileobj a) as [f|].
    + destruct (dockerfile_of W a); [|intros [= <-]; reflexivity]. cbn.
      destruct (copy_to_file W f _); [intros [= <-]; reflexivity|]. cbn.
      destruct (create_tar W _ _ _); cbn; [intros [= <-]; reflexivity | discriminate].
    + destruct (path a) as [dir|].
      * destruct (dockerfile_of W a); [|intros [= <-]; reflexivity]. cbn.
        destruct (prepare_containerfile W dir _); [intros [= <-]; reflexivity|]. cbn.
        destruct (prepare_containerignore W dir); [intros [= <-]; reflexivity|]. cbn.
        destruct (create_tar W _ _ _); cbn; [intros [= <-]; reflexivity | discriminate].
      * destruct (remote a) as [[|c s]|]; discriminate.
Qed.

Lemma prepare_raises a e :
  result (prepare W a) = Raise e -> is_build_error e = false.
Proof.
  unfold prepare.
  destruct (_ && _ && _); [intros [= <-]; reflexivity|].
  destruct (_ && _); [intros [= <-]; reflexivity|].
  destruct (marshal W a) as [p|e'] eqn:Hm.
  - rewrite bind_lift_return, result_then_check.
    destruct (result (package_context W a p)) as [x|e0] eqn:Hpack.
    + destruct (post_kwargs a) as [t|e1] eqn:Hk; cbn; [discriminate|].
      intros [= <-]. destruct (post_kwargs_raises a e1 Hk) as [msg ->]. reflexivity.
    + intros [= <-]. exact (package_context_raises a p e0 Hpack).
  - intros [= <-]. destruct (marshal_raises W a e' Hm) as [msg ->]. reflexivity.
Qed.

Lemma submit_raises params body pathv t e :
  result (submit W params body pathv t) = Raise e -> is_build_error e = false.
Proof.
  unfold submit. destruct body as [|data]; [intros [= <-]; reflexivity|].
  rewrite bind_ret_l, bind_emit. cbn [result snd].
  destruct (client_post W params data t) as [e'|rsp]; [intros [= <-]; reflexivity|].
  cbn [of_ext]. rewrite bind_lift_return.
  destruct (raise_for_status W rsp), data, pathv; cbn; try discriminate;
    intros [= <-]; reflexivity.
Qed.

(** A call that got as far as the lines of a response. *)
Lemma build_reaches_interpret a (r : outcome (Image * tee)) :
  result (build W a) = r ->
  (exists e, r = Raise e /\ is_build_error e = false) \/
  exists before pathv data params rsp,
    prepare W a = (before, Return (pathv, Bound data, params)) /\
    client_post W params data (post_timeout a) = inr rsp /\
    raise_for_status W rsp = None /\
    r = result (interpret W (iter_lines rsp)).
Proof.
  intros <-. unfold build.
  destruct (prepare W a) as [before [[[pathv body] params]|e]] eqn:Hprep.
  - rewrite bind_step. cbv beta iota. cbn [result snd].
    destruct (submit W params body pathv (post_timeout a)) as [ts [rsp|e]] eqn:Hsub.
    + rewrite bind_step. cbn [result snd]. right.
      destruct (submit_returns W params body pathv (post_timeout a) rsp)
        as (data & -> & Hpost & Hstatus); [rewrite Hsub; reflexivity|].
      exists before, pathv, data, params, rsp. repeat split; assumption.
    + rewrite bind_stop. cbn [result snd]. left. exists e. split; [reflexivity|].
      apply (submit_raises params body pathv (post_timeout a)). rewrite Hsub. reflexivity.
  - rewrite bind_stop. cbn [result snd]. left. exists e. split; [reflexivity|].
    apply (prepare_raises a). rewrite Hprep. reflexivity.
Qed.

End AnyStream.

(** *** The outcome of a call *)

Section Outcome.
Context {Image : Type} (W : collaborators Image).

Lemma announces_shape line id :
  announces W line = Some id -> id <> "" /\ all_chars lower_hex id = true.
Proof.
  unfold announces. destruct (stream_text W line) as [text|]; [|discriminate].
  intros H. apply marker_match_spec in H as (Hne & Hhex & _). split; assumption.
Qed.

Lemma interpret_returns lines image log :
  result (interpret W lines) = Return (image, log) ->
  exists id line,
    get W id = inr image /\
    lookups (trace (interpret W lines)) = [id] /\
    In line lines /\ announces W line = Some id /\
    log = {| tee_source := []; tee_buffered := lines |}.
Proof.
  unfold interpret.
  destruct (scan W lines) as [[vars t]|e] eqn:Hscan; [|discriminate].
  rewrite bind_lift_return.
  destruct (scan_returns W lines vars t Hscan) as (-> & _ & Himg).
  destruct (image_id vars) as [[|c s]|] eqn:Hid; try discriminate.
  rewrite bind_emit. cbn [trace result fst snd].
  destruct (get W (String c s)) as [e|image'] eqn:Hget; [discriminate|].
  cbn. intros [= <- <-].
  destruct Himg as [H|(line & id & Hin & Hann & [= <-])]; [discriminate|].
  exists (String c s), line. repeat split; assumption.
Qed.

Lemma interpret_build_error lines msg log :
  result (interpret W lines) = Raise (BuildError msg log) ->
  drain log = lines /\ lookups (trace (interpret W lines)) = [].
Proof.
  unfold interpret.
  destruct (scan W lines) as [[vars t]|e] eqn:Hscan.
  - rewrite bind_lift_return.
    destruct (scan_returns W lines vars t Hscan) as (-> & _ & _).
    destruct (image_id vars) as [[|c s]|].
    + intros [= _ <-]. split; [apply app_nil_r | reflexivity].
    + rewrite bind_emit. cbn [trace result fst snd].
      destruct (get W (String c s)); discriminate.
    + intros [= _ <-]. split; [apply app_nil_r | reflexivity].
  - intros [= ->]. split; [exact (scan_build_error W lines msg log Hscan) | reflexivity].
Qed.

Lemma loop_body_ill_typed t line vars v :
  json_loads W line = inr v -> ill_typed v = true ->
  exists msg, loop_body W t line vars = Raise (TypeError msg).
Proof.
  intros Hv Hill. unfold loop_body. rewrite Hv. cbn [of_ext obind].
  destruct v as [| | | | s | | l | d]; try discriminate; cbn; eauto.
  cbn in Hill.
  destruct (d !! "error") as [m|] eqn:Herr; [discriminate|].
  destruct (d !! "stream") as [x|] eqn:Hstream; [|discriminate].
  rewrite bool_decide_eq_false_2 by (intros [? ?]; discriminate).
  rewrite bool_decide_eq_true_2 by eauto. cbn.
  destruct x; try discriminate; cbn; eauto.
Qed.

(** A line that is scanned past and announces nothing leaves the
    identifier as it was. *)
Lemma for_line_in_stream_silent lines buffered vars :
  Forall (scans_past W) lines ->
  Forall (fun l => announces W l = None) lines ->
  for_line_in_stream W lines buffered vars =
  Return ({| image_id := image_id vars;
             unknown := match last lines with
                        | Some l => Some l
                        | None => unknown vars
                        end |},
          {| tee_source := []; tee_buffered := buffered ++ lines |}).
Proof.
  intros Hpast. revert buffered vars.
  induction Hpast as [|l lines Hl _ IH]; intros buffered [id unk] Hsilent.
  - cbn. rewrite app_nil_r. reflexivity.
  - apply Forall_cons in Hsilent as [Hl' Hsilent].
    cbn [for_line_in_stream].
    destruct (Hl {| tee_source := lines; tee_buffered := buffered ++ [l] |}
                 {| image_id := id; unknown := unk |}) as [vars1 Hbody].
    rewrite Hbody. cbn [obind].
    destruct (loop_body_image W _ _ _ _ Hbody) as (Hunk & [[Hsame _]|(i & Hann & _)]);
      [|congruence].
    rewrite (IH _ _ Hsilent), Hsame, Hunk. cbn [image_id unknown].
    rewrite <- app_assoc, last_cons_or. reflexivity.
Qed.

End Outcome.

(** X10.  A call returns only after a response that passed the status
    check was scanned to its end: the image is what the lookup gave for
    an identifier that some line of that response announced, a
    non-empty run of lower-case hexadecimal digits; it is the only
    lookup made; and the log returned with it replays every line of
    the response. *)
Theorem returned_image_was_announced {Image} (W : collaborators Image) a image log :
  result (build W a) = Return (image, log) ->
  exists before pathv data params rsp id line,
    prepare W a = (before, Return (pathv, Bound data, params)) /\
    client_post W params data (post_timeout a) = inr rsp /\
    raise_for_status W rsp = None /\
    In line (iter_lines rsp) /\ announces W line = Some id /\
    id <> "" /\ all_chars lower_hex id = true /\
    get W id = inr image /\
    lookups (trace (build W a)) = [id] /\
    log = {| tee_source := []; tee_buffered := iter_lines rsp |} /\
    drain log = iter_lines rsp.
Proof.
  intros Hres.
  destruct (build_reaches_interpret W a _ Hres)
    as [(e & He & _)|(before & pathv & data & params & rsp & Hprep & Hpost & Hstatus & Hint)];
    [discriminate|].
  symmetry in Hint.
  destruct (interpret_returns W _ _ _ Hint) as (id & line & Hget & Hlook & Hin & Hann & ->).
  destruct (announces_shape W line id Hann) as [Hne Hhex].
  exists before, pathv, data, params, rsp, id, line.
  assert (Hans : answered W a before (iter_lines rsp)).
  { exists pathv, data, params, rsp. repeat split; assumption. }
  rewrite (build_answered_lookups W a before _ Hans).
  repeat split; try assumption. unfold drain. cbn. apply app_nil_r.
Qed.

Lemma returned_image_was_announced_witness :
  let W := daemon [line_step; line_id] in
  exists before pathv data params rsp id line,
    prepare W remote_call = (before, Return (pathv, Bound data, params)) /\
    client_post W params data (post_timeout remote_call) = inr rsp /\
    raise_for_status W rsp = None /\
    In line (iter_lines rsp) /\ announces W line = Some id /\
    id <> "" /\ all_chars lower_hex id = true /\
    get W id = inr "deadbeef12" /\
    lookups (trace (build W remote_call)) = [id] /\
    {| tee_source := []; tee_buffered := [line_step; line_id] |} =
    {| tee_source := []; tee_buffered := iter_lines rsp |} /\
    drain {| tee_source := []; tee_buffered := [line_step; line_id] |} = iter_lines rsp.
Proof.
  intros W.
  apply (returned_image_was_announced W remote_call "deadbeef12"
           {| tee_source := []; tee_buffered := [line_step; line_id] |}).
  by_evaluation.
Defined.

(** X11.  A build failure is raised only on a response that passed the
    status check, and its log, drained, gives every line of that
    response in order, whether the failure comes from an error event or
    from the end of a stream without marker; no image is looked up. *)
Theorem build_failure_log_is_complete {Image} (W : collaborators Image) a msg log :
  result (build W a) = Raise (BuildError msg log) ->
  exists before pathv data params rsp,
    prepare W a = (before, Return (pathv, Bound data, params)) /\
    client_post W params data (post_timeout a) = inr rsp /\
    raise_for_status W rsp = None /\
    drain log = iter_lines rsp /\
    lookups (trace (build W a)) = [] /\
    releases (trace (build W a)) = released data pathv.
Proof.
  intros Hres.
  destruct (build_reaches_interpret W a _ Hres)
    as [(e & [= <-] & He)|(before & pathv & data & params & rsp & Hprep & Hpost & Hstatus & Hint)];
    [discriminate|].
  symmetry in Hint.
  destruct (interpret_build_error W _ _ _ Hint) as [Hdrain Hlook].
  exists before, pathv, data, params, rsp.
  assert (Hans : answered W a before (iter_lines rsp)).
  { exists pathv, data, params, rsp. repeat split; assumption. }
  rewrite (build_answered_lookups W a before _ Hans).
  destruct (build_answered W a before _ Hans) as (p' & d' & pv' & Hb & _).
  repeat split; try assumption.
  rewrite build_releases, Hprep. cbn [result snd].
  rewrite (submit_answered W _ _ _ _ _ Hpost Hstatus). cbn [trace fst].
  change (releases (?ev :: ?t)) with (releases ([ev] ++ t)).
  rewrite releases_app, releases_released. reflexivity.
Qed.

Lemma build_failure_log_is_complete_witness :
  let W := daemon [line_step; line_error; line_id] in
  exists before pathv data params rsp,
    prepare W remote_call = (before, Return (pathv, Bound data, params)) /\
    client_post W params data (post_timeout remote_call) = inr rsp /\
    raise_for_status W rsp = None /\
    drain {| tee_source := [line_id]; tee_buffered := [line_step; line_error] |} =
    iter_lines rsp /\
    lookups (trace (build W remote_call)) = [] /\
    releases (trace (build W remote_call)) = released data pathv.
Proof.
  intros W.
  apply (build_failure_log_is_complete W remote_call (VStr "no such file")
           {| tee_source := [line_id]; tee_buffered := [line_step; line_error] |}).
  by_evaluation.
Defined.

(** X12.  A line that decodes to a JSON scalar (null, a boolean, a
    number), or to an object without [error] whose [stream] is not text,
    ends the call with a [TypeError] when the scan reaches it: not a
    build failure, no log attached, no lookup. *)
Theorem ill_typed_event_is_a_type_error {Image} (W : collaborators Image)
        a before pre line post v :
  answered W a before (pre ++ line :: post) ->
  Forall (scans_past W) pre ->
  json_loads W line = inr v -> ill_typed v = true ->
  (exists msg, result (build W a) = Raise (TypeError msg)) /\
  lookups (trace (build W a)) = [].
Proof.
  intros Hans Hpre Hv Hill.
  rewrite (build_answered_lookups W a before _ Hans).
  rewrite (build_answered_result W a before _ Hans).
  destruct (for_line_in_stream_app W pre (line :: post) []
              {| image_id := None; unknown := None |} Hpre) as (vars' & Heq & _).
  destruct (loop_body_ill_typed W
              {| tee_source := post; tee_buffered := ([] ++ pre) ++ [line] |}
              line vars' v Hv Hill) as [msg Hbody].
  assert (Hscan : scan W (pre ++ line :: post) = Raise (TypeError msg)).
  { unfold scan, itertools_tee. cbn [tee_source tee_buffered].
    rewrite Heq. cbn [for_line_in_stream]. rewrite Hbody. reflexivity. }
  rewrite (interpret_raise W _ _ Hscan). split; [eauto | reflexivity].
Qed.

Lemma ill_typed_event_is_a_type_error_witness :
  let W := typed_daemon [line_step; line_numeric_stream; line_id] in
  (exists msg, result (build W remote_call) = Raise (TypeError msg)) /\
  lookups (trace (build W remote_call)) = [].
Proof.
  intros W.
  refine (ill_typed_event_is_a_type_error W remote_call []
            [line_step] line_numeric_stream [line_id]
            (VDict {[ "stream" := VInt 5 ]}) _ _ _ _).
  - answered_by_evaluation.
  - repeat constructor; scans_past_by_table.
  - by_evaluation.
  - by_evaluation.
Defined.

(** X13.  The last line scanned is kept whatever it decodes to: when
    every line is scanned past and none announces an identifier, be it
    an object, an array or a text, the call fails with the last line as
    message ("Unknown" for no lines, or if that line were empty) and
    the whole stream as log. *)
Theorem last_line_is_the_fallback_message {Image} (W : collaborators Image)
        a before lines :
  answered W a before lines ->
  Forall (scans_past W) lines ->
  Forall (fun l => announces W l = None) lines ->
  result (build W a) =
  Raise (BuildError (fallback_message (last lines))
                    {| tee_source := []; tee_buffered := lines |}).
Proof.
  intros Hans Hpast Hsilent.
  rewrite (build_answered_result W a before _ Hans).
  assert (Hscan : scan W lines =
                  Return ({| image_id := None; unknown := last lines |},
                          {| tee_source := []; tee_buffered := lines |})).
  { unfold scan, itertools_tee. cbn [tee_source tee_buffered].
    rewrite (for_line_in_stream_silent W lines [] _ Hpast Hsilent).
    cbn [image_id unknown app]. destruct (last lines); reflexivity. }
  rewrite (interpret_missing W _ _ _ Hscan) by reflexivity. reflexivity.
Qed.

Lemma last_line_is_the_fallback_message_witness :
  result (build (typed_daemon [line_step; line_list]) remote_call) =
  Raise (BuildError (VBytes "[]")
                    {| tee_source := []; tee_buffered := [line_step; line_list] |}).
Proof.
  refine (last_line_is_the_fallback_message
            (typed_daemon [line_step; line_list]) remote_call []
            [line_step; line_list] _ _ _).
  - answered_by_evaluation.
  - repeat constructor.
    + scans_past_by_table.
    + intros t vars. eexists. by_evaluation.
  - repeat constructor.
Defined.

(** *** Parameters and resources, by branch *)

Section Branches.
Context {Image : Type} (W : collaborators Image).

Lemma prepare_returns a pathv body params :
  result (prepare W a) = Return (pathv, body, params) ->
  exists p0, marshal W a = Return p0 /\
             result (package_context W a p0) = Return (pathv, body, params) /\
             trace (prepare W a) = trace (package_context W a p0).
Proof.
  unfold prepare.
  destruct (_ && _ && _); [discriminate|].
  destruct (_ && _); [discriminate|].
  destruct (marshal W a) as [p0|e]; [|discriminate].
  rewrite bind_lift_return, trace_then_check. intros H. exists p0.
  apply then_check_returns in H as [H _]. repeat split. exact H.
Qed.

(** What the chain of lines 198-227 leaves in [path], [body] and
    [params["dockerfile"]], branch by branch. *)
Lemma package_context_returns a p0 pathv body params :
  result (package_context W a p0) = Return (pathv, body, params) ->
  (directory_mode a /\
   exists dir name resolved,
     path a = Some dir /\ dockerfile_of W a = Some name /\
     prepare_containerfile W dir (joinpath W dir name) = inr resolved /\
     params = <["dockerfile" := VStr resolved]> p0 /\ pathv = DirPath dir /\
     tempdirs (trace (package_context W a p0)) = []) \/
  (~ directory_mode a /\ params = p0 /\
   (loose_file_mode a /\ pathv = TempDir (temporary_directory W) /\
    tempdirs (trace (package_context W a p0)) = [temporary_directory W] \/
    ~ loose_file_mode a /\ (forall name, pathv <> TempDir name) /\
    tempdirs (trace (package_context W a p0)) = [])).
Proof.
  unfold package_context, directory_mode, loose_file_mode.
  destruct (bool_decide (custom_context a = Some true)) eqn:Hcustom.
  - apply bool_decide_eq_true_1 in Hcustom.
    destruct (fileobj a) as [f|]; [|discriminate].
    destruct (dockerfile_of W a); [|discriminate].
    destruct f; [|discriminate]. cbn. intros [= <- _ <-].
    right. split; [intros [H _]; contradiction|]. split; [reflexivity|].
    right. split; [intros [H _]; contradiction|].
    split; [intros name; destruct (path a); discriminate | reflexivity].
  - apply bool_decide_eq_false_1 in Hcustom.
    destruct (fileobj a) as [f|].
    + destruct (dockerfile_of W a); [|discriminate]. cbn.
      destruct (copy_to_file W f _); [discriminate|]. cbn.
      destruct (create_tar W _ _ _); [discriminate|]. cbn.
      intros [= <- _ <-].
      right. split; [intros (_ & H & _); discriminate|]. split; [reflexivity|].
      left. split; [split; [exact Hcustom | eauto]|]. split; reflexivity.
    + destruct (path a) as [dir|].
      * destruct (dockerfile_of W a) as [name|]; [|discriminate]. cbn.
        destruct (prepare_containerfile W dir _) as [|resolved] eqn:Hres; [discriminate|].
        cbn.
        destruct (prepare_containerignore W dir); [discriminate|]. cbn.
        destruct (create_tar W _ _ _); [discriminate|]. cbn.
        intros [= <- _ <-].
        left. split; [split; [exact Hcustom | split; [reflexivity | eauto]]|].
        exists dir, name, resolved. repeat split. exact Hres.
      * destruct (remote a) as [[|c s]|]; cbn; intros [= <- _ <-];
          (right; split; [intros (_ & _ & [? H]); discriminate|]; split; [reflexivity|];
           right; split; [intros (_ & [? H]); discriminate|];
           split; [intros name; discriminate | reflexivity]).
Qed.

Lemma package_context_tempdirs a p0 :
  tempdirs (trace (package_context W a p0)) = [] \/
  loose_file_mode a /\
  tempdirs (trace (package_context W a p0)) = [temporary_directory W].
Proof.
  unfold package_context, loose_file_mode.
  destruct (bool_decide (custom_context a = Some true)) eqn:Hcustom.
  - left. destruct (fileobj a) as [f|]; [|reflexivity].
    destruct (dockerfile_of W a); [|reflexivity].
    destruct f; reflexivity.
  - apply bool_decide_eq_false_1 in Hcustom.
    destruct (fileobj a) as [f|].
    + right. split; [split; [exact Hcustom | eauto]|].
      destruct (dockerfile_of W a); [|reflexivity]. cbn.
      destruct (copy_to_file W f _); [reflexivity|]. cbn.
      destruct (create_tar W _ _ _); reflexivity.
    + left. destruct (path a) as [dir|].
      * destruct (dockerfile_of W a); [|reflexivity]. cbn.
        destruct (prepare_containerfile W dir _); [reflexivity|]. cbn.
        destruct (prepare_containerignore W dir); [reflexivity|]. cbn.
        destruct (create_tar W _ _ _); reflexivity.
      * destruct (remote a) as [[|c s]|]; reflexivity.
Qed.

Lemma prepare_tempdirs a :
  tempdirs (trace (prepare W a)) = [] \/
  loose_file_mode a /\ tempdirs (trace (prepare W a)) = [temporary_directory W].
Proof.
  unfold prepare.
  destruct (_ && _ && _); [left; reflexivity|].
  destruct (_ && _); [left; reflexivity|].
  destruct (marshal W a) as [p0|e]; [|left; reflexivity].
  rewrite bind_lift_return, trace_then_check. apply package_context_tempdirs.
Qed.

Lemma submit_tempdirs params body pathv t :
  tempdirs (trace (submit W params body pathv t)) = [].
Proof.
  unfold submit. destruct body as [|data]; [reflexivity|].
  rewrite bind_ret_l, bind_emit. cbn [trace fst].
  destruct (client_post W params data t) as [e|rsp]; [reflexivity|].
  cbn [of_ext]. rewrite bind_lift_return.
  destruct (raise_for_status W rsp), data, pathv; reflexivity.
Qed.

Lemma interpret_tempdirs lines : tempdirs (trace (interpret W lines)) = [].
Proof. rewrite interpret_trace. induction (lookups _); [reflexivity | assumption]. Qed.

Lemma build_tempdirs a :
  tempdirs (trace (build W a)) = tempdirs (trace (prepare W a)).
Proof.
  unfold build. rewrite trace_bind, tempdirs_app.
  destruct (result (prepare W a)) as [[[pathv body] params]|e]; [|apply app_nil_r].
  rewrite trace_bind, tempdirs_app, submit_tempdirs. cbn [app].
  destruct (result (submit W params body pathv (post_timeout a)));
    [rewrite interpret_tempdirs|]; apply app_nil_r.
Qed.

Lemma submit_releases params body pathv t :
  releases (trace (submit W params body pathv t)) = [] \/
  exists data, body = Bound data /\
               releases (trace (submit W params body pathv t)) = released data pathv.
Proof.
  unfold submit. destruct body as [|data]; [left; reflexivity|].
  rewrite bind_ret_l, bind_emit. cbn [trace fst].
  destruct (client_post W params data t) as [e|rsp]; [left; reflexivity|].
  cbn [of_ext]. rewrite bind_lift_return.
  right. exists data. split; [reflexivity|].
  destruct (raise_for_status W rsp), data, pathv; reflexivity.
Qed.

End Branches.

(** X14.  The [dockerfile] parameter that is sent: in the directory
    branch it is what [prepare_containerfile] resolved the requested
    name to (line 222); in every other branch it is the name the caller
    gave, or the default of line 39. *)
Theorem directory_build_sends_resolved_name {Image} (W : collaborators Image) a params :
  In params (posted (trace (build W a))) ->
  (directory_mode a ->
   exists dir name resolved,
     path a = Some dir /\ dockerfile_of W a = Some name /\
     prepare_containerfile W dir (joinpath W dir name) = inr resolved /\
     params !! "dockerfile" = Some (VStr resolved)) /\
  (~ directory_mode a ->
   params !! "dockerfile" = Some (opt_value VStr (dockerfile_of W a))).
Proof.
  rewrite build_posts.
  destruct (result (prepare W a)) as [[[pathv body] params']|e] eqn:Hprep;
    [|intros H; contradiction H].
  destruct body as [|data]; [intros H; contradiction H|].
  intros [<-|H]; [|contradiction H].
  destruct (prepare_returns W a _ _ _ Hprep) as (p0 & Hm & Hpack & _).
  destruct (package_context_returns W a p0 _ _ _ Hpack)
    as [(Hdir & dir & name & resolved & Hp & Hname & Hres & -> & _)
       |(Hnot & -> & _)].
  - split; [|intros H; contradiction].
    intros _. exists dir, name, resolved. repeat split; try assumption.
    apply lookup_insert_eq.
  - split; [intros H; contradiction|]. intros _.
    apply (marshal_scalar W a p0 "dockerfile" _ Hm).
    unfold scalar_options. apply elem_of_cons. left. reflexivity.
Qed.

Lemma directory_build_sends_resolved_name_witness :
  let W := daemon [line_id] in
  let params := <["dockerfile" := VStr "/srv/project/Containerfile"]>
                  (initial_params W directory_call) in
  In params (posted (trace (build W directory_call))) /\
  (directory_mode directory_call ->
   exists dir name resolved,
     path directory_call = Some dir /\ dockerfile_of W directory_call = Some name /\
     prepare_containerfile W dir (joinpath W dir name) = inr resolved /\
     params !! "dockerfile" = Some (VStr resolved)) /\
  (~ directory_mode directory_call ->
   params !! "dockerfile" = Some (opt_value VStr (dockerfile_of W directory_call))).
Proof.
  intros W params.
  assert (Hin : In params (posted (trace (build W directory_call))))
    by (left; reflexivity).
  split; [exact Hin|].
  exact (directory_build_sends_resolved_name W directory_call params Hin).
Defined.

(** X15.  A structured option that is given and not empty is sent as
    one text, the [json.dumps] of the whole collection (lines 168-171
    and 181-184). *)
Theorem structured_options_are_json_encoded {Image} (W : collaborators Image) a params :
  In params (posted (trace (build W a))) ->
  (forall d, buildargs a = Some d -> dict_truthy d = true ->
             params !! "buildargs" = Some (VStr (json_dumps W (str_dict d)))) /\
  (forall l, cache_from a = Some l -> l <> [] ->
             params !! "cachefrom" = Some (VStr (json_dumps W (str_list l)))) /\
  (forall d, extra_hosts a = Some d -> dict_truthy d = true ->
             params !! "extrahosts" = Some (VStr (json_dumps W (str_dict d)))) /\
  (forall d, labels a = Some d -> dict_truthy d = true ->
             params !! "labels" = Some (VStr (json_dumps W (str_dict d)))).
Proof.
  intros Hin.
  destruct (posted_params W a params Hin) as (p0 & Hm & Hparams).
  assert (Hother : forall k, k <> "dockerfile" -> params !! k = p0 !! k).
  { intros k Hk. destruct Hparams as [->|(name & ->)]; [reflexivity|].
    apply lookup_insert_ne. congruence. }
  split; [|split; [|split]].
  - intros d Hd Ht. rewrite Hother by discriminate.
    rewrite (marshal_buildargs W a p0 Hm), Hd. cbn. rewrite Ht. reflexivity.
  - intros l Hl Hne. rewrite Hother by discriminate.
    rewrite (marshal_cachefrom W a p0 Hm), Hl.
    destruct l; [congruence | reflexivity].
  - intros d Hd Ht. rewrite Hother by discriminate.
    rewrite (marshal_extrahosts W a p0 Hm), Hd. cbn. rewrite Ht. reflexivity.
  - intros d Hd Ht. rewrite Hother by discriminate.
    rewrite (marshal_labels W a p0 Hm), Hd. cbn. rewrite Ht. reflexivity.
Qed.

Lemma structured_options_are_json_encoded_witness :
  let W := typed_daemon [line_id] in
  let a := with_buildargs remote_call (Some {[ "A" := "1" ]}) in
  let params := <["buildargs" := VStr (json_dumps W (str_dict {[ "A" := "1" ]}))]>
                  (initial_params W a) in
  In params (posted (trace (build W a))) /\
  params !! "buildargs" = Some (VStr ("{" +:+ dq +:+ "A" +:+ dq +:+ ": " +:+ dq +:+ "1" +:+ dq +:+ "}")).
Proof.
  intros W a params.
  assert (Hin : In params (posted (trace (build W a)))) by (left; reflexivity).
  split; [exact Hin|].
  destruct (structured_options_are_json_encoded W a params Hin) as (Hb & _).
  rewrite (Hb {[ "A" := "1" ]}); [by_evaluation | reflexivity | reflexivity].
Defined.

(** X16.  A temporary directory is made only in the loose-file branch,
    and one at most; and the only directory a call cleans up is the one
    it made. *)
Theorem temporary_directory_only_for_loose_file {Image} (W : collaborators Image) a :
  (tempdirs (trace (build W a)) <> [] ->
   loose_file_mode a /\ tempdirs (trace (build W a)) = [temporary_directory W]) /\
  (forall name,
      In (TempDirCleaned name) (releases (trace (build W a))) ->
      name = temporary_directory W /\ tempdirs (trace (build W a)) = [name]).
Proof.
  rewrite build_tempdirs. split.
  - intros Hne. destruct (prepare_tempdirs W a) as [H|[Hmode H]]; [congruence|].
    split; assumption.
  - intros name. rewrite build_releases.
    destruct (result (prepare W a)) as [[[pathv body] params]|e] eqn:Hprep;
      [|intros H; contradiction H].
    destruct (submit_releases W params body pathv (post_timeout a))
      as [->|(data & -> & ->)]; [intros H; contradiction H|].
    intros Hin.
    assert (Hpath : pathv = TempDir name).
    { unfold released in Hin. apply in_app_or in Hin as [Hin|Hin].
      - destruct data; [destruct Hin as [H|H]; [discriminate | contradiction H]
                       | contradiction Hin].
      - destruct pathv; try contradiction Hin.
        destruct Hin as [[= ->]|H]; [reflexivity | contradiction H]. }
    destruct (prepare_returns W a _ _ _ Hprep) as (p0 & Hm & Hpack & ->).
    destruct (package_context_returns W a p0 _ _ _ Hpack)
      as [(_ & dir & _ & _ & _ & _ & _ & _ & Hp & _)
         |(_ & _ & [(_ & Hp & Htmp)|(_ & Hp & _)])].
    + congruence.
    + rewrite Hpath in Hp. injection Hp as ->. split; [reflexivity | exact Htmp].
    + exfalso. exact (Hp name Hpath).
Qed.

(** X17.  Lines 233-250: once the request has returned a response, the
    body is closed and the temporary directory cleaned up at once,
    before the status is checked and before any line is read; nothing
    else is released later. *)
Theorem release_follows_the_response {Image} (W : collaborators Image)
        a before pathv data params rsp :
  prepare W a = (before, Return (pathv, Bound data, params)) ->
  client_post W params data (post_timeout a) = inr rsp ->
  exists rest,
    trace (build W a) =
    before ++ Posted params data (post_timeout a) :: released data pathv ++ rest /\
    releases before = [] /\ releases rest = [] /\
    rest = ImageLookedUp <$> lookups rest.
Proof.
  intros Hprep Hpost.
  pose proof (prepare_releases_nothing W a) as Hbefore. rewrite Hprep in Hbefore.
  destruct (raise_for_status W rsp) as [e|] eqn:Hstatus.
  - exists [].
    rewrite (build_refused_by_status W a before pathv data params rsp e
               Hprep Hpost Hstatus).
    cbn [trace fst]. rewrite app_nil_r. repeat split. exact Hbefore.
  - exists (trace (interpret W (iter_lines rsp))).
    assert (Hans : answered W a before (iter_lines rsp)).
    { exists pathv, data, params, rsp. repeat split; assumption. }
    unfold build. rewrite Hprep, bind_step. cbv beta iota.
    rewrite (submit_answered W _ _ _ _ _ Hpost Hstatus), bind_step.
    cbn [trace result fst snd]. split; [reflexivity|].
    split; [exact Hbefore|]. split; [apply interpret_releases_nothing|].
    apply interpret_trace.
Qed.

Lemma release_follows_the_response_witness :
  let W := daemon [line_error] in
  exists rest,
    trace (build W loose_call) =
    [TempDirCreated "/tmp/tmpq1";
     FileStaged "/tmp/tmpq1/.containerfile.beef";
     TarCreated "/tmp/tmpq1"] ++
    Posted (initial_params W loose_call) (Some "tar of /tmp/tmpq1") None
    :: released (Some "tar of /tmp/tmpq1") (TempDir "/tmp/tmpq1") ++ rest /\
    releases [TempDirCreated "/tmp/tmpq1";
              FileStaged "/tmp/tmpq1/.containerfile.beef";
              TarCreated "/tmp/tmpq1"] = [] /\
    releases rest = [] /\
    rest = ImageLookedUp <$> lookups rest.
Proof.
  intros W.
  apply (release_follows_the_response W loose_call _ _ _ _
           {| status_code := 200; iter_lines := [line_error] |}); reflexivity.
Defined.

(** X18.  Lines 203-210: with a custom context and a file object,
    [dockerfile=None] written out is refused with a [PodmanError]
    before anything is done. *)
Theorem custom_context_with_none_name_is_rejected {Image} (W : collaborators Image) a :
  passes_first_checks a -> volumes_wellformed a ->
  custom_context a = Some true -> is_Some (fileobj a) ->
  dockerfile a = Passed None ->
  build W a =
  ([], Raise (PodmanError "Custom context requires specifying the name of the Dockerfile (typically 'Dockerfile' or 'Containerfile').")).
Proof.
  intros Hchecks Hwf Hcustom [f Hf] Hname.
  destruct (marshal_returns W a Hwf) as [p Hm].
  unfold build. rewrite (prepare_packages W a p Hchecks Hm).
  unfold package_context, dockerfile_of.
  rewrite Hcustom, Hf, Hname. reflexivity.
Qed.

Lemma custom_context_with_none_name_is_rejected_witness :
  build (daemon [line_id])
        (call None (Some (BytesIO "context.tar")) None (Some true) (Passed None) None None) =
  ([], Raise (PodmanError "Custom context requires specifying the name of the Dockerfile (typically 'Dockerfile' or 'Containerfile').")).
Proof.
  apply (custom_context_with_none_name_is_rejected (daemon [line_id])).
  - split; [intros (_ & H & _); discriminate | intros [[? H] _]; discriminate].
  - exact I.
  - reflexivity.
  - eauto.
  - reflexivity.
Defined.

(** ** The conversion of the timeout *)

Lemma double_of_magnitude_lower m :
  (0 < m)%Z -> (2 ^ Z.log2 m <= double_of_magnitude m)%Z.
Proof.
  intros Hm. unfold double_of_magnitude.
  pose proof (Z.log2_spec m Hm) as [Hlow _].
  pose proof (Z.log2_nonneg m) as Hlog.
  destruct (Z.log2 m + 1 <=? 53)%Z eqn:Hbits; [exact Hlow|].
  apply Z.leb_gt in Hbits.
  set (shift := (Z.log2 m + 1 - 53)%Z).
  assert (Hshift : (0 < shift)%Z) by (unfold shift; lia).
  assert (Hsplit : (2 ^ Z.log2 m = 2 ^ 52 * 2 ^ shift)%Z).
  { rewrite <- Z.pow_add_r by lia. f_equal. unfold shift. lia. }
  assert (Hpos : (0 < 2 ^ shift)%Z) by (apply Z.pow_pos_nonneg; lia).
  assert (Hq : (2 ^ 52 <= Z.shiftr m shift)%Z).
  { rewrite Z.shiftr_div_pow2 by lia.
    apply Z.div_le_lower_bound; [exact Hpos|].
    rewrite Z.mul_comm, <- Hsplit. exact Hlow. }
  set (q := Z.shiftr m shift) in *.
  set (r := (m - Z.shiftl q shift)%Z).
  set (half := Z.shiftl 1 (shift - 1)).
  assert (Hq' : (q <= if (half <? r)%Z || (r =? half)%Z && Z.odd q then q + 1 else q)%Z)
    by (destruct ((half <? r)%Z || (r =? half)%Z && Z.odd q); lia).
  rewrite Z.shiftl_mul_pow2 by lia. rewrite Hsplit.
  apply Z.mul_le_mono_nonneg_r; [lia|].
  etransitivity; [exact Hq | exact Hq'].
Qed.

Lemma float_of_int_overflows n :
  (2 ^ 1024 <= Z.abs n)%Z ->
  float_of_int n = Raise (OverflowError "int too large to convert to float").
Proof.
  intros Hn. unfold float_of_int.
  assert (Hbig : (Z.shiftl 1 1024 <= double_of_magnitude (Z.abs n))%Z).
  { rewrite Z.shiftl_1_l.
    assert (Hpos : (0 < Z.abs n)%Z).
    { eapply Z.lt_le_trans; [|exact Hn]. apply Z.pow_pos_nonneg; lia. }
    etransitivity; [|apply double_of_magnitude_lower, Hpos].
    apply Z.pow_le_mono_r; [lia|].
    rewrite <- (Z.log2_pow2 1024) by lia. apply Z.log2_le_mono, Hn. }
  apply Z.leb_le in Hbig. rewrite Hbig. reflexivity.
Qed.

Lemma then_check_raises {A B} (c : M A) (o : outcome B) t x e :
  c = (t, Return x) -> o = Raise e -> (y <- c ;; lift o ;;; ret y) = (t, Raise e).
Proof. intros -> ->. cbn. rewrite app_nil_r. reflexivity. Qed.

(** X19.  Line 231 runs after the context is packaged: a timeout of
    magnitude [2**1024] or more has no double, so [float(timeout)]
    raises [OverflowError] once the archive is made; the call ends with
    the effects of the packaging (a temporary directory of the
    loose-file branch made and not cleaned up) and nothing is sent. *)
Theorem oversized_timeout_overflows {Image} (W : collaborators Image) a n p0 before packaged :
  passes_first_checks a ->
  marshal W a = Return p0 ->
  package_context W a p0 = (before, Return packaged) ->
  timeout a = Some n -> (2 ^ 1024 <= Z.abs n)%Z ->
  build W a = (before, Raise (OverflowError "int too large to convert to float")) /\
  posted (trace (build W a)) = [] /\
  releases (trace (build W a)) = [].
Proof.
  intros Hchecks Hm Hpack Ht Hn.
  assert (Hzero : n <> 0%Z).
  { intros ->. assert (0 < 2 ^ 1024)%Z by (apply Z.pow_pos_nonneg; lia).
    change (Z.abs 0) with 0%Z in Hn. lia. }
  assert (Hconv : post_kwargs a =
                  Raise (OverflowError "int too large to convert to float")).
  { unfold post_kwargs. rewrite Ht, (bool_decide_eq_false_2 _ Hzero).
    rewrite (float_of_int_overflows n Hn). reflexivity. }
  assert (Hprep : prepare W a =
                  (before, Raise (OverflowError "int too large to convert to float"))).
  { rewrite (prepare_packages W a p0 Hchecks Hm).
    exact (then_check_raises _ _ _ _ _ Hpack Hconv). }
  assert (Hbuild : build W a =
                   (before, Raise (OverflowError "int too large to convert to float"))).
  { rewrite (build_stops_in_prepare W a _ (f_equal snd Hprep)), Hprep. reflexivity. }
  split; [exact Hbuild|].
  pose proof (prepare_offline W a) as Hoff.
  pose proof (prepare_releases_nothing W a) as Hrel.
  rewrite Hprep in Hoff, Hrel. cbn [trace fst] in Hoff, Hrel.
  rewrite Hbuild. cbn [trace fst].
  split; [exact (offline_posted _ Hoff) | exact Hrel].
Qed.

(** [build(fileobj=io.StringIO("FROM scratch"), timeout=10**309)]. *)
Lemma oversized_timeout_overflows_witness :
  let W := daemon [line_id] in
  let a := with_timeout loose_call (Some (10 ^ 309)%Z) in
  build W a =
  ([TempDirCreated "/tmp/tmpq1";
    FileStaged "/tmp/tmpq1/.containerfile.beef";
    TarCreated "/tmp/tmpq1"],
   Raise (OverflowError "int too large to convert to float")) /\
  posted (trace (build W a)) = [] /\
  releases (trace (build W a)) = [].
Proof.
  intros W a.
  apply (oversized_timeout_overflows W a (10 ^ 309)%Z (initial_params W a) _
           (TempDir "/tmp/tmpq1", Bound (Some "tar of /tmp/tmpq1"), initial_params W a)).
  - split; [intros (_ & H & _); discriminate | intros [[? H] _]; discriminate].
  - reflexivity.
  - reflexivity.
  - reflexivity.
  - apply Z.leb_le. vm_compute. reflexivity.
Defined.
